(** * OFZ price oracle bridge: Provider and Publisher

    A shallow embedding of the Python back end (the Flask price provider
    under [backend/OffchainPriceProvider] and the publisher under
    [backend/OnchainPricePublisher]) and the properties of it that the
    specification states.

    Conventions.
    - Python [int] is [Z]; Python [float] is a primitive binary64 [float],
      so every product, quotient and rounding below is the IEEE one.
    - A Python [dict] is an association list in insertion order.
    - A call that can raise returns in [py]: [Ret v] or [Raise e].
    - Files, clocks, the exchange and the chain are inputs of the
      functions that read them; a function that writes returns the new
      state next to its result. *)

From Stdlib Require Import ZArith List String Ascii Bool Lia Floats Sorted.
Import ListNotations.

Local Open Scope string_scope.
Local Open Scope list_scope.
Local Open Scope Z_scope.

Set Warnings "-inexact-float,-register-all".

(* ================================================================== *)
(** * Python values and control *)

Module Py.

(** The exception classes the embedded code can meet. [IOError] is
    [OSError]; [JSONDecodeError] and [UnicodeDecodeError] are two
    unrelated subclasses of [ValueError]. *)
Inductive exn :=
| IndexError
| KeyError
| TypeError
| AttributeError
| ValueError
| OverflowError
| ZeroDivisionError
| JSONDecodeError
| UnicodeDecodeError
| IOError
| EncodingError
| RuntimeError.

Inductive py (A : Type) :=
| Ret (a : A)
| Raise (e : exn).
Arguments Ret {A} a.
Arguments Raise {A} e.

Definition bind {A B} (m : py A) (k : A -> py B) : py B :=
  match m with
  | Ret a => k a
  | Raise e => Raise e
  end.

Declare Scope py_scope.
Delimit Scope py_scope with py.
Notation "x <- m ;; k" := (bind m (fun x => k))
  (at level 61, m at next level, right associativity) : py_scope.
Notation "' pat <- m ;; k" := (bind m (fun x => match x with pat => k end))
  (at level 61, pat pattern, m at next level, right associativity) : py_scope.

(** JSON documents as [json.load] returns them. *)
Inductive json :=
| JNull
| JBool (b : bool)
| JInt (z : Z)
| JFloat (f : float)
| JStr (s : string)
| JList (l : list json)
| JDict (d : list (string * json)).

Definition dict := list (string * json).

(** [d.get(k)] *)
Fixpoint dict_get {V} (d : list (string * V)) (k : string) : option V :=
  match d with
  | [] => None
  | (k', v) :: d' => if String.eqb k' k then Some v else dict_get d' k
  end.

(** [k in d] *)
Definition dict_mem {V} (d : list (string * V)) (k : string) : bool :=
  match dict_get d k with Some _ => true | None => false end.

(** [d[k] = v]: an existing key keeps its position. *)
Fixpoint dict_set {V} (d : list (string * V)) (k : string) (v : V)
  : list (string * V) :=
  match d with
  | [] => [(k, v)]
  | (k', v') :: d' =>
      if String.eqb k' k then (k', v) :: d' else (k', v') :: dict_set d' k v
  end.

(** Truth value of a JSON value in an [if]. *)
Definition truthy (j : json) : bool :=
  match j with
  | JNull => false
  | JBool b => b
  | JInt z => negb (z =? 0)
  | JFloat f => negb (PrimFloat.eqb f 0%float)
  | JStr s => negb (String.eqb s "")
  | JList l => match l with [] => false | _ => true end
  | JDict d => match d with [] => false | _ => true end
  end.

(** [l[i]] *)
Definition list_index {A} (l : list A) (i : nat) : py A :=
  match nth_error l i with
  | Some a => Ret a
  | None => Raise IndexError
  end.

(** [l.index(x)] for a list of strings known to hold [x]; [None] when it
    does not. *)
Fixpoint index_of (l : list string) (x : string) : option nat :=
  match l with
  | [] => None
  | y :: l' =>
      if String.eqb y x then Some O
      else option_map S (index_of l' x)
  end.

(** ** binary64 helpers *)

(** The integer nearest to [m * 2^e], ties to even. *)
Definition round_half_even (m e : Z) : Z :=
  if 0 <=? e then m * 2 ^ e
  else
    let d := 2 ^ (- e) in
    let q := m / d in
    let r := m mod d in
    match (2 * r ?= d) with
    | Lt => q
    | Gt => q + 1
    | Eq => if Z.even q then q else q + 1
    end.

(** [round(x)] with one argument: nearest integer, ties to even. *)
Definition py_round (x : float) : py Z :=
  match Prim2SF x with
  | S754_zero _ => Ret 0
  | S754_infinity _ => Raise OverflowError
  | S754_nan => Raise ValueError
  | S754_finite s m e =>
      let n := round_half_even (Zpos m) e in
      Ret (if s then - n else n)
  end.

(** [int(x)] for a float: truncation toward zero. *)
Definition py_int (x : float) : py Z :=
  match Prim2SF x with
  | S754_zero _ => Ret 0
  | S754_infinity _ => Raise OverflowError
  | S754_nan => Raise ValueError
  | S754_finite s m e =>
      let n := if 0 <=? e then Zpos m * 2 ^ e else Zpos m / 2 ^ (- e) in
      Ret (if s then - n else n)
  end.

(** The exact value of an [int] as an unrounded binary number. *)
Definition Z2SF (z : Z) : spec_float :=
  match z with
  | Z0 => S754_zero false
  | Zpos p => S754_finite false p 0
  | Zneg p => S754_finite true p 0
  end.

(** [a / b] on two [int]s: the binary64 nearest to the exact quotient. *)
Definition int_truediv (a b : Z) : py float :=
  if b =? 0 then Raise ZeroDivisionError
  else
    match SFdiv 53 1024 (Z2SF a) (Z2SF b) with
    | S754_infinity _ => Raise OverflowError
    | q => Ret (SF2Prim q)
    end.

(** [float(z)] *)
Definition float_of_int (z : Z) : py float :=
  match binary_normalize 53 1024 z 0 false with
  | S754_infinity _ => Raise OverflowError
  | q => Ret (SF2Prim q)
  end.

End Py.
Import Py.
Local Open Scope py_scope.

(* ================================================================== *)
(** * get_ofz_prices.py: the exchange client and the price resolver *)

Module get_ofz_prices.

(** The [marketdata] block of the exchange's answer: column names and
    rows; a cell is a number or [null]. *)
Record marketdata := {
  md_columns : list string;
  md_data : list (list (option float))
}.

(** What the exchange answers for one instrument: the market snapshot,
    the daily candles of the last seven days as [(begin, close)] rows in
    the exchange's order, and [get_bond_details(secid)["initialPrice"]]. *)
Record feed := {
  fd_marketdata : marketdata;
  fd_candles : list (string * float);
  fd_initialPrice : option float
}.

Definition price_fields : list string :=
  ["MARKETPRICE"; "LAST"; "LCLOSEPRICE"; "WAPRICE"; "PREVWAPRICE"; "CLOSEPRICE"].

(** [data[cols.index(field)] if field in cols else None] *)
Definition cell (cols : list string) (data : list (option float))
    (field : string) : py (option float) :=
  match index_of cols field with
  | Some i => list_index data i
  | None => Ret None
  end.

(** The dict comprehension of [market_prices]: one entry per field, in
    the order of the field list. *)
Fixpoint price_data_of (cols : list string) (data : list (option float))
    (fields : list string) : py (list (string * option float)) :=
  match fields with
  | [] => Ret []
  | f :: fs =>
      v <- cell cols data f ;;
      rest <- price_data_of cols data fs ;;
      Ret ((f, v) :: rest)
  end.

(** The priority loop of [market_prices]. *)
Fixpoint first_priced (price_data : list (string * option float))
    (fields : list string) : option float * option string :=
  match fields with
  | [] => (None, None)
  | f :: fs =>
      match dict_get price_data f with
      | Some (Some v) => (Some v, Some f)
      | _ => first_priced price_data fs
      end
  end.

Definition market_prices (md : marketdata)
  : py (option float * option string) :=
  data <- list_index (md_data md) 0 ;;
  price_data <- price_data_of (md_columns md) data price_fields ;;
  Ret (first_priced price_data price_fields).

(** The result dict of [get_price_detailed]. *)
Record price_info := {
  price : option float;
  price_percentage : option float;
  priceSource : option string;
  nominal : float
}.

Definition nominal_of (initialPrice : option float) : float :=
  match initialPrice with
  | None => 100%float
  | Some n => if PrimFloat.leb n 0%float then 100%float else n
  end.

Definition get_price_detailed (fd : feed) : py price_info :=
  let nominal := nominal_of (fd_initialPrice fd) in
  '(price_percentage, price_source) <- market_prices (fd_marketdata fd) ;;
  match price_percentage with
  | Some pp =>
      let absolute_price := ((pp * nominal) / 100)%float in
      Ret {| price := Some absolute_price;
             price_percentage := Some pp;
             priceSource := price_source;
             nominal := nominal |}
  | None =>
      match rev (fd_candles fd) with
      | (_, close) :: _ =>
          let absolute_price := ((close * nominal) / 100)%float in
          Ret {| price := Some absolute_price;
                 price_percentage := Some close;
                 priceSource := Some "candle";
                 nominal := nominal |}
      | [] =>
          Ret {| price := None;
                 price_percentage := None;
                 priceSource := None;
                 nominal := nominal |}
      end
  end.

Definition source_is_candle (s : option string) : bool :=
  match s with
  | Some n => String.eqb n "candle"
  | None => false
  end.

Definition get_price (fd : feed) : py (option float * bool) :=
  info <- get_price_detailed fd ;;
  let is_current :=
    match price info with
    | Some _ => negb (source_is_candle (priceSource info))
    | None => false
    end in
  Ret (price info, is_current).

End get_ofz_prices.

(* ================================================================== *)
(** * Files as [os] and [json] see them *)

Module Fs.

(** What a file holds, by what [json.load(open(path, 'r'))] does on it. *)
Inductive contents :=
| Unreadable                (* open or read fails: IOError *)
| Undecodable               (* bytes that are no text in the default
                               encoding: UnicodeDecodeError *)
| Malformed                 (* text that is no JSON document, the empty
                               text included: JSONDecodeError *)
| Document (j : json).      (* the text of the JSON document [j] *)

Definition json_load (c : contents) : py json :=
  match c with
  | Unreadable => Raise IOError
  | Undecodable => Raise UnicodeDecodeError
  | Malformed => Raise JSONDecodeError
  | Document j => Ret j
  end.

(** [except (json.JSONDecodeError, IOError)] *)
Definition decode_or_io (e : exn) : bool :=
  match e with
  | JSONDecodeError | IOError => true
  | _ => false
  end.

(** [try: m  except <handled>: h] *)
Definition try_except {A} (m : py A) (handled : exn -> bool) (h : py A)
  : py A :=
  match m with
  | Ret a => Ret a
  | Raise e => if handled e then h else Raise e
  end.

(** The calls on files a Python program makes. *)
Inductive syscall :=
| sys_makedirs (dir : string)
| sys_exists (path : string)
| sys_open (path : string) (mode : string)
| sys_read (path : string)
| sys_write (path : string) (j : json)
| sys_fsync (path : string)
| sys_rename (src dst : string).

(** A disk: the files by path, the paths whose opening for writing is
    refused, and the calls made so far, oldest first. *)
Record disk := {
  files : list (string * contents);
  refused : list string;
  trace : list syscall
}.

Definition log (d : disk) (c : syscall) : disk :=
  {| files := files d; refused := refused d; trace := trace d ++ [c] |}.

Definition put_file (d : disk) (path : string) (c : contents) : disk :=
  {| files := dict_set (files d) path c;
     refused := refused d;
     trace := trace d |}.

Definition is_refused (d : disk) (path : string) : bool :=
  existsb (String.eqb path) (refused d).

Definition is_slash (c : ascii) : bool := Ascii.eqb c "/".

Fixpoint has_slash (s : string) : bool :=
  match s with
  | EmptyString => false
  | String c r => is_slash c || has_slash r
  end.

Fixpoint all_slashes (s : string) : bool :=
  match s with
  | EmptyString => true
  | String c r => is_slash c && all_slashes r
  end.

(** [p[:p.rfind('/') + 1]] *)
Fixpoint head_of (p : string) : string :=
  match p with
  | EmptyString => EmptyString
  | String c r =>
      if has_slash r then String c (head_of r)
      else if is_slash c then String c EmptyString
      else EmptyString
  end.

(** [s.rstrip('/')] *)
Fixpoint rstrip_slash (s : string) : string :=
  match s with
  | EmptyString => EmptyString
  | String c r =>
      match rstrip_slash r with
      | EmptyString => if is_slash c then EmptyString else String c EmptyString
      | r' => String c r'
      end
  end.

(** [os.path.dirname(p)] *)
Definition dirname (p : string) : string :=
  let head := head_of p in
  if all_slashes head then head else rstrip_slash head.

(** [os.makedirs(dir, exist_ok=True)]: the empty name and a refused
    directory raise [OSError]. *)
Definition makedirs (d : disk) (dir : string) : py unit * disk :=
  let d1 := log d (sys_makedirs dir) in
  if String.eqb dir "" || is_refused d dir then (Raise IOError, d1)
  else (Ret tt, d1).

(** [os.path.exists(path)] *)
Definition exists_ (d : disk) (path : string) : bool * disk :=
  (dict_mem (files d) path, log d (sys_exists path)).

(** [open(path, 'w')]: refused with [IOError], or the file is created
    empty (truncated when it was there). *)
Definition open_w (d : disk) (path : string) : py unit * disk :=
  let d1 := log d (sys_open path "w") in
  if is_refused d path then (Raise IOError, d1)
  else (Ret tt, put_file d1 path Malformed).

(** [json.dump(j, f)] on a file opened for writing. *)
Definition dump (d : disk) (path : string) (j : json) : disk :=
  put_file (log d (sys_write path j)) path (Document j).

(** [json.load(open(path, 'r'))] *)
Definition load (d : disk) (path : string) : py json * disk :=
  let d1 := log (log d (sys_open path "r")) (sys_read path) in
  match dict_get (files d) path with
  | None => (Raise IOError, d1)
  | Some c => (json_load c, d1)
  end.

End Fs.

(* ================================================================== *)
(** * cache_manager.py *)

Module cache_manager.
Import Fs.

(** The cache file when it exists: its modification time and contents. *)
Record cache_file := {
  mtime : float;
  body : contents
}.

Record CacheManager := {
  ttl_seconds : Z;
  file : option cache_file;
  writable : bool
}.

(** [x > n] for a float [x] and an int [n]: Python compares the two
    exact values. *)
Definition float_gt_int (x : float) (n : Z) : bool :=
  match Prim2SF x with
  | S754_nan => false
  | S754_infinity s => negb s
  | S754_zero _ => n <? 0
  | S754_finite s m e =>
      let v := if s then Zneg m else Zpos m in
      if 0 <=? e then n <? v * 2 ^ e
      else n * 2 ^ (- e) <? v
  end.

(** [now] is [time.time()]. *)
Definition get_cached_data (self : CacheManager) (now : float)
  : py (option json) :=
  match file self with
  | None => Ret None
  | Some f =>
      if float_gt_int (now - mtime f)%float (ttl_seconds self) then Ret None
      else
        try_except
          (data <- json_load (body f) ;; Ret (Some data))
          decode_or_io
          (Ret None)
  end.

Definition cache_data (self : CacheManager) (now : float) (data : json)
  : bool * CacheManager :=
  if writable self then
    (true, {| ttl_seconds := ttl_seconds self;
              file := Some {| mtime := now; body := Document data |};
              writable := writable self |})
  else (false, self).

(** [clear_cache()]; [removable] tells whether [os.remove] goes through
    ([IOError] otherwise). *)
Definition clear_cache (self : CacheManager) (removable : bool)
  : bool * CacheManager :=
  match file self with
  | Some _ =>
      if removable then
        (true, {| ttl_seconds := ttl_seconds self;
                  file := None;
                  writable := writable self |})
      else (false, self)
  | None => (true, self)
  end.

End cache_manager.

(* ================================================================== *)
(** * nonce_manager.py *)

Module nonce_manager.
Import Fs.

Record NonceManager := {
  nonce_file_path : string;
  current_nonce : Z
}.

Definition set_nonce (self : NonceManager) (n : Z) : NonceManager :=
  {| nonce_file_path := nonce_file_path self; current_nonce := n |}.

Definition nonce_document (n : Z) : json := JDict [("nonce", JInt n)].

(** [os.makedirs(os.path.dirname(path), exist_ok=True)] *)
Definition _ensure_dir_exists (self : NonceManager) (d : disk)
  : py unit * disk :=
  makedirs d (dirname (nonce_file_path self)).

(** [IOError] is logged and dropped. *)
Definition _save_nonce (self : NonceManager) (d : disk) : disk :=
  match open_w d (nonce_file_path self) with
  | (Ret _, d1) =>
      dump d1 (nonce_file_path self) (nonce_document (current_nonce self))
  | (Raise _, d1) => d1
  end.

(** [data.get("nonce", 0)]. The counter is an [int] in this model: a
    stored value of another type, which Python would keep until the first
    increment, raises [TypeError] here. *)
Definition nonce_of (data : json) : py Z :=
  match data with
  | JDict d =>
      match dict_get d "nonce" with
      | None => Ret 0
      | Some (JInt n) => Ret n
      | Some (JBool b) => Ret (if b then 1 else 0)
      | Some _ => Raise TypeError
      end
  | _ => Raise AttributeError
  end.

Definition _load_nonce (self : NonceManager) (d : disk)
  : py NonceManager * disk :=
  let '(present, d1) := exists_ d (nonce_file_path self) in
  if present then
    let '(r, d2) := load d1 (nonce_file_path self) in
    (try_except
       (data <- r ;; n <- nonce_of data ;; Ret (set_nonce self n))
       decode_or_io
       (Ret (set_nonce self 0)),
     d2)
  else
    let self0 := set_nonce self 0 in
    (Ret self0, _save_nonce self0 d1).

(** [NonceManager(nonce_file_path)] *)
Definition __init__ (nonce_file_path : string) (d : disk)
  : py NonceManager * disk :=
  if String.eqb nonce_file_path "" then (Raise ValueError, d)
  else
    let self := {| nonce_file_path := nonce_file_path; current_nonce := 0 |} in
    match _ensure_dir_exists self d with
    | (Ret _, d1) => _load_nonce self d1
    | (Raise e, d1) => (Raise e, d1)
    end.

Definition get_next_nonce (self : NonceManager) (d : disk)
  : Z * NonceManager * disk :=
  let self1 := set_nonce self (current_nonce self + 1) in
  let d1 := _save_nonce self1 d in
  (current_nonce self1, self1, d1).

Definition get_current_nonce (self : NonceManager) : Z :=
  current_nonce self.

(** The nonces of successive [get_next_nonce] calls, each against the
    disk the environment presents at that call. *)
Fixpoint next_nonces (self : NonceManager) (disks : list disk) : list Z :=
  match disks with
  | [] => []
  | d :: ds =>
      let '(n, self1, _) := get_next_nonce self d in
      n :: next_nonces self1 ds
  end.

End nonce_manager.

(* ================================================================== *)
(** * Bytes, hexadecimal text and ABI words *)

Module Bytes.

Definition bytes := list Byte.byte.

Definition byte_of_Z (z : Z) : Byte.byte :=
  match Byte.of_N (Z.to_N (z mod 256)) with
  | Some b => b
  | None => Byte.x00
  end.

Definition Z_of_byte (b : Byte.byte) : Z := Z.of_N (Byte.to_N b).

(** The [len] low bytes of [n], most significant first. *)
Fixpoint be_bytes (len : nat) (n : Z) : bytes :=
  match len with
  | O => []
  | S k => byte_of_Z (n / 256 ^ Z.of_nat k) :: be_bytes k n
  end.

(** [n.to_bytes(len, byteorder='big')] *)
Definition to_bytes (len : nat) (n : Z) : py bytes :=
  if (0 <=? n) && (n <? 256 ^ Z.of_nat len) then Ret (be_bytes len n)
  else Raise OverflowError.

(** [int.from_bytes(b, 'big')] *)
Definition from_bytes (b : bytes) : Z :=
  fold_left (fun acc x => acc * 256 + Z_of_byte x) b 0.

Definition hex_digit (n : Z) : ascii :=
  if n <? 10 then ascii_of_N (Z.to_N (48 + n))
  else ascii_of_N (Z.to_N (87 + n)).

(** [b.hex()] *)
Fixpoint hex (b : bytes) : string :=
  match b with
  | [] => ""
  | x :: rest =>
      let n := Z_of_byte x in
      String (hex_digit (n / 16)) (String (hex_digit (n mod 16)) (hex rest))
  end.

Definition digit_value (c : ascii) : option Z :=
  let n := Z.of_N (N_of_ascii c) in
  if (48 <=? n) && (n <=? 57) then Some (n - 48)
  else if (97 <=? n) && (n <=? 102) then Some (n - 87)
  else if (65 <=? n) && (n <=? 70) then Some (n - 55)
  else None.

Definition is_space (c : ascii) : bool :=
  let n := Z.of_N (N_of_ascii c) in
  (n =? 32) || ((9 <=? n) && (n <=? 13)).

(** [bytes.fromhex(s)]: two digits a byte, white space between bytes
    skipped. *)
Fixpoint fromhex (s : string) : py bytes :=
  match s with
  | EmptyString => Ret []
  | String c rest =>
      if is_space c then fromhex rest
      else
        match digit_value c, rest with
        | Some hi, String c2 rest2 =>
            match digit_value c2 with
            | Some lo =>
                tl <- fromhex rest2 ;;
                Ret (byte_of_Z (16 * hi + lo) :: tl)
            | None => Raise ValueError
            end
        | _, _ => Raise ValueError
        end
  end.

(** Hexadecimal text with nothing between the digits, as [eth_utils]
    reads an address. *)
Fixpoint unhex (s : string) : py bytes :=
  match s with
  | EmptyString => Ret []
  | String c (String c2 rest) =>
      match digit_value c, digit_value c2 with
      | Some hi, Some lo =>
          tl <- unhex rest ;;
          Ret (byte_of_Z (16 * hi + lo) :: tl)
      | _, _ => Raise ValueError
      end
  | String _ EmptyString => Raise ValueError
  end.

(** [s[2:] if s.startswith("0x") else s] *)
Definition strip_0x (s : string) : string :=
  match s with
  | String "0" (String "x" rest) => rest
  | _ => s
  end.

Definition zeros (n : nat) : bytes := repeat Byte.x00 n.

(** The values [eth_abi.encode] is given here, with their ABI types. *)
Inductive abi_value :=
| abi_bytes32 (b : bytes)
| abi_uint (bits : Z) (n : Z)
| abi_address (a : bytes).

(** One 32-byte word for each value; a value outside its type raises. *)
Definition encode_word (v : abi_value) : py bytes :=
  match v with
  | abi_bytes32 b =>
      if (List.length b <=? 32)%nat then Ret (b ++ zeros (32 - List.length b))
      else Raise EncodingError
  | abi_uint bits n =>
      if (0 <=? n) && (n <? 2 ^ bits) then Ret (be_bytes 32 n)
      else Raise EncodingError
  | abi_address a =>
      if (List.length a =? 20)%nat then Ret (zeros 12 ++ a)
      else Raise EncodingError
  end.

(** [encode(types, values)] for static types. *)
Fixpoint encode (vs : list abi_value) : py bytes :=
  match vs with
  | [] => Ret []
  | v :: rest =>
      w <- encode_word v ;;
      ws <- encode rest ;;
      Ret (w ++ ws)
  end.

End Bytes.

(* ================================================================== *)
(** * OffchainPriceProvider/config.py *)

Module provider_config.

Record Config := {
  CACHE_TTL : Z;
  PRICE_SCALING_FACTOR : Z;
  BOND_ORACLE_ADDRESS : string;
  CHAIN_ID : Z;
  SIGNATURE_EXPIRY_SECONDS : Z;
  NONCE_FILE : string;
  ETH_PRIVATE_KEY : string       (* OFFCHAIN_PROVIDER_ETH_PRIVATE_KEY *)
}.

Definition get_private_key (cfg : Config) : string :=
  Bytes.strip_0x (ETH_PRIVATE_KEY cfg).

End provider_config.

(* ================================================================== *)
(** * signature_utils.py *)

Module signature_utils.
Import Bytes Fs nonce_manager provider_config.

(** The two primitives the signer takes from [web3] and [eth_keys]:
    keccak-256 and the secp256k1 signature [(r, s, v)] of a 32-byte
    hash under a private key. *)
Class EthLibs := {
  keccak : bytes -> bytes;
  sign_msg_hash : bytes -> bytes -> py (Z * Z * Z)
}.

(** [Web3.to_checksum_address(a)], kept as the 20 bytes it names: forty
    hexadecimal digits after an optional ["0x"]. *)
Definition to_checksum_address (a : string) : py bytes :=
  b <- unhex (strip_0x a) ;;
  if (List.length b =? 20)%nat then Ret b else Raise ValueError.

Definition utf8 (s : string) : bytes := list_byte_of_string s.

Section Signer.
Context {libs : EthLibs}.

Definition domain_type_hash : bytes :=
  keccak (utf8 "EIP712Domain(string name,string version,uint256 chainId,address verifyingContract)").

Definition price_update_type_hash : bytes :=
  keccak (utf8 "PriceUpdate(string secid,uint160 price,uint256 nonce,uint256 deadline)").

Definition domain_separator (cfg : Config) : py bytes :=
  verifying_contract <- to_checksum_address (BOND_ORACLE_ADDRESS cfg) ;;
  encoded_domain <- encode [abi_bytes32 domain_type_hash;
                            abi_bytes32 (keccak (utf8 "BondOracle"));
                            abi_bytes32 (keccak (utf8 "1"));
                            abi_uint 256 (CHAIN_ID cfg);
                            abi_address verifying_contract] ;;
  Ret (keccak encoded_domain).

Definition struct_hash (secid : string) (price nonce deadline : Z)
  : py bytes :=
  encoded_struct <- encode [abi_bytes32 price_update_type_hash;
                            abi_bytes32 (keccak (utf8 secid));
                            abi_uint 160 price;
                            abi_uint 256 nonce;
                            abi_uint 256 deadline] ;;
  Ret (keccak encoded_struct).

Definition adjust_v (v : Z) : Z := if v <? 27 then v + 27 else v.

(** The part of [create_signature] after nonce and deadline are fixed. *)
Definition sign_price_update (cfg : Config) (secid : string)
    (price nonce deadline : Z) : py string :=
  D <- domain_separator cfg ;;
  H <- struct_hash secid price nonce deadline ;;
  let message_hash := keccak (([Byte.x19; Byte.x01] ++ D) ++ H) in
  private_key <- fromhex (get_private_key cfg) ;;
  '(r, s, v) <- sign_msg_hash private_key message_hash ;;
  let v_adjusted := adjust_v v in
  r_bytes <- to_bytes 32 r ;;
  s_bytes <- to_bytes 32 s ;;
  signature_bytes <- encode [abi_bytes32 r_bytes;
                             abi_bytes32 s_bytes;
                             abi_uint 8 v_adjusted] ;;
  Ret ("0x" ++ hex signature_bytes)%string.

(** [create_signature(secid, price, nonce, deadline)]; [now] is
    [time.time()]. The nonce manager and the disk are returned as the
    call leaves them, also when it raises. *)
Definition create_signature (cfg : Config) (self : NonceManager) (d : disk)
    (now : float) (secid : string) (price : Z) (nonce deadline : option Z)
  : py (string * Z * Z) * NonceManager * disk :=
  let '(nonce, self1, d1) :=
    match nonce with
    | None => get_next_nonce self d
    | Some n => (n, self, d)
    end in
  (deadline <- match deadline with
               | None => t <- py_int now ;; Ret (t + SIGNATURE_EXPIRY_SECONDS cfg)
               | Some t => Ret t
               end ;;
   signature_hex <- sign_price_update cfg secid price nonce deadline ;;
   Ret (signature_hex, nonce, deadline),
   self1, d1).

(** The nonces that successive [create_signature(secid, price)] calls
    return, for the calls that return; a call that raises has used its
    nonce all the same. *)
Fixpoint signed_nonces (cfg : Config) (self : NonceManager) (d : disk)
    (requests : list (float * string * Z)) : list Z :=
  match requests with
  | [] => []
  | (now, secid, price) :: rest =>
      let '(r, self1, d1) :=
        create_signature cfg self d now secid price None None in
      match r with
      | Ret (_, nonce, _) => nonce :: signed_nonces cfg self1 d1 rest
      | Raise _ => signed_nonces cfg self1 d1 rest
      end
  end.

End Signer.
End signature_utils.

(* ================================================================== *)
(** * app.py: the HTTP front *)

Module app.
Import Bytes Fs cache_manager nonce_manager provider_config
       signature_utils get_ofz_prices.

(** What the process holds between requests: the price cache, the nonce
    manager instance of [nonce_manager] and the disk under it. *)
Record world := {
  cache : CacheManager;
  nonces : NonceManager;
  fs : disk
}.

Record response := {
  status : Z;
  body : json
}.

Definition jsonify (j : json) : response := {| status := 200; body := j |}.

(** What Flask answers when a view raises: the 500 handler. *)
Definition server_error : response :=
  {| status := 500; body := JDict [("error", JStr "Internal server error")] |}.

(** [str(e)], by the class of the exception. *)
Definition exn_str (e : exn) : string :=
  match e with
  | IndexError => "list index out of range"
  | KeyError => "key"
  | TypeError => "unsupported operand type"
  | AttributeError => "object has no attribute"
  | ValueError => "invalid value"
  | OverflowError => "value too large"
  | ZeroDivisionError => "division by zero"
  | JSONDecodeError => "Expecting value"
  | UnicodeDecodeError => "codec can't decode byte"
  | IOError => "I/O error"
  | EncodingError => "value out of bounds"
  | RuntimeError => "runtime error"
  end.

Definition error_response (e : exn) : response :=
  {| status := 500; body := JDict [("error", JStr (exn_str e))] |}.

(** The receiver of [x.get(...)] and of [x.items()]: a value that is no
    object has neither. *)
Definition as_dict (j : json) : py dict :=
  match j with
  | JDict d => Ret d
  | _ => Raise AttributeError
  end.

(** [k in x]: a key of an object, an element of an array, a part of a
    string; the other values are not iterable. *)
Definition py_in (k : string) (x : json) : py bool :=
  match x with
  | JDict d => Ret (dict_mem d k)
  | JList l =>
      Ret (existsb (fun j => match j with
                             | JStr s => String.eqb s k
                             | _ => false
                             end) l)
  | JStr s =>
      Ret (match String.index 0 k s with Some _ => true | None => false end)
  | _ => Raise TypeError
  end.

(** [x[k]] for a string [k]: arrays and strings take integers only. *)
Definition py_item (x : json) (k : string) : py json :=
  match x with
  | JDict d =>
      match dict_get d k with
      | Some v => Ret v
      | None => Raise KeyError
      end
  | _ => Raise TypeError
  end.

(** [d[k]] *)
Definition dict_item (d : dict) (k : string) : py json :=
  match dict_get d k with
  | Some v => Ret v
  | None => Raise KeyError
  end.

(** [{k: v for k, v in price_info.items() if k != 'signature'}] *)
Definition without_signature (price_info : dict) : dict :=
  filter (fun kv => negb (String.eqb (fst kv) "signature")) price_info.

(** The loop that fills [filtered_data["prices"]]. *)
Fixpoint filtered_prices (items : dict) : py dict :=
  match items with
  | [] => Ret []
  | (secid, price_info) :: rest =>
      info <- as_dict price_info ;;
      rest' <- filtered_prices rest ;;
      Ret ((secid, JDict (without_signature info)) :: rest')
  end.

Definition source_name (is_current : bool) : string :=
  if is_current then "market_price" else "daily_candle".

(** [if price:] on the price [get_price] returns. *)
Definition has_price (p : option float) : option float :=
  match p with
  | Some x => if PrimFloat.eqb x 0%float then None else Some x
  | None => None
  end.

(** [int(round(float(price) * 100)) * (Config.PRICE_SCALING_FACTOR // 100)] *)
Definition price_uint_all (cfg : Config) (p : float) : py Z :=
  n <- py_round (p * 100)%float ;;
  Ret (n * (PRICE_SCALING_FACTOR cfg / 100)).

(** [int(round(float(price) * 1000)) * (Config.PRICE_SCALING_FACTOR // 1000)] *)
Definition price_uint_one (cfg : Config) (p : float) : py Z :=
  n <- py_round (p * 1000)%float ;;
  Ret (n * (PRICE_SCALING_FACTOR cfg / 1000)).

Definition base_info (p : float) (price_uint : Z) (is_current : bool)
  : dict :=
  [("price", JFloat p);
   ("price_uint", JInt price_uint);
   ("is_current_market_data", JBool is_current);
   ("data_source", JStr (source_name is_current))].

Definition signed_info (info : dict) (signature : string)
    (nonce deadline : Z) : dict :=
  dict_set (dict_set (dict_set info "signature" (JStr signature))
                     "nonce" (JInt nonce))
           "deadline" (JInt deadline).

Section Views.
Context {libs : EthLibs}.
Variable cfg : Config.

(** One entry of a fresh answer: scale the price, sign when asked. *)
Definition fresh_info (scale : float -> py Z) (with_signature : bool)
    (now : float) (secid : string) (p : float) (is_current : bool)
    (nm : NonceManager) (d : disk) : py dict * NonceManager * disk :=
  match scale p with
  | Raise e => (Raise e, nm, d)
  | Ret price_uint =>
      let info := base_info p price_uint is_current in
      if with_signature then
        let '(r, nm1, d1) :=
          create_signature cfg nm d now secid price_uint None None in
        (match r with
         | Ret (signature, nonce, deadline) =>
             Ret (signed_info info signature nonce deadline)
         | Raise e => Raise e
         end, nm1, d1)
      else (Ret info, nm, d)
  end.

(** The loop over [ofz_list.iterrows()] in [get_all_prices]. *)
Fixpoint price_rows (with_signature : bool) (now : float)
    (feeds : string -> feed) (rows : list (string * string))
    (prices : dict) (nm : NonceManager) (d : disk)
  : py dict * NonceManager * disk :=
  match rows with
  | [] => (Ret prices, nm, d)
  | (secid, _) :: rest =>
      match get_price (feeds secid) with
      | Raise e => (Raise e, nm, d)
      | Ret (price, is_current) =>
          match has_price price with
          | None => price_rows with_signature now feeds rest prices nm d
          | Some p =>
              let '(r, nm1, d1) :=
                fresh_info (price_uint_all cfg) with_signature now secid p
                           is_current nm d in
              match r with
              | Raise e => (Raise e, nm1, d1)
              | Ret info =>
                  price_rows with_signature now feeds rest
                             (dict_set prices secid (JDict info)) nm1 d1
              end
          end
      end
  end.

(** The cache-hit branch of [get_all_prices]. *)
Definition all_prices_cached (with_signature : bool) (cached_data : json)
  : py response :=
  if with_signature then Ret (jsonify cached_data)
  else
    d <- as_dict cached_data ;;
    match dict_get d "prices" with
    | Some prices =>
        if truthy prices then
          timestamp <- dict_item d "timestamp" ;;
          items <- as_dict prices ;;
          filtered <- filtered_prices items ;;
          Ret (jsonify (JDict [("timestamp", timestamp);
                               ("prices", JDict filtered)]))
        else Ret (jsonify cached_data)
    | None => Ret (jsonify cached_data)
    end.

Definition cached_truthy (c : option json) : option json :=
  match c with
  | Some j => if truthy j then Some j else None
  | None => None
  end.

(** [GET /api/prices]. [with_signature] tells whether the query has a
    [sign] parameter, [now] is the clock of the request, [ofz_list] is
    what [fetch_ofz_list()] does and [feeds] what the exchange answers
    for each instrument. *)
Definition get_all_prices (with_signature : bool) (now : float)
    (ofz_list : py (list (string * string))) (feeds : string -> feed)
    (w : world) : response * world :=
  match get_cached_data (cache w) now with
  | Raise _ => (server_error, w)
  | Ret cached =>
      match cached_truthy cached with
      | Some cached_data =>
          match all_prices_cached with_signature cached_data with
          | Ret r => (r, w)
          | Raise _ => (server_error, w)
          end
      | None =>
          match ofz_list with
          | Raise e => (error_response e, w)
          | Ret rows =>
              match py_int now with
              | Raise e => (error_response e, w)
              | Ret timestamp =>
                  let '(r, nm1, d1) :=
                    price_rows with_signature now feeds rows []
                               (nonces w) (fs w) in
                  match r with
                  | Raise e =>
                      (error_response e,
                       {| cache := cache w; nonces := nm1; fs := d1 |})
                  | Ret prices =>
                      let price_data :=
                        JDict [("timestamp", JInt timestamp);
                               ("prices", JDict prices)] in
                      let '(_, cache1) := cache_data (cache w) now price_data in
                      (jsonify price_data,
                       {| cache := cache1; nonces := nm1; fs := d1 |})
                  end
              end
          end
      end
  end.

(** The cache lookup of [get_price_for_secid]: the entry of [secid]
    when the snapshot has one. *)
Definition cached_entry (cached : option json) (secid : string)
  : py (option (dict * json)) :=
  match cached_truthy cached with
  | None => Ret None
  | Some cached_data =>
      d <- as_dict cached_data ;;
      let prices := match dict_get d "prices" with
                    | Some p => p
                    | None => JDict []
                    end in
      found <- py_in secid prices ;;
      if found then
        price_info <- py_item prices secid ;;
        Ret (Some (d, price_info))
      else Ret None
  end.

(** The cache-hit branch of [get_price_for_secid]. *)
Definition one_price_cached (with_signature : bool) (d : dict)
    (price_info : json) : py response :=
  price_info' <-
    (if with_signature then Ret price_info
     else
       has_signature <- py_in "signature" price_info ;;
       if has_signature then
         info <- as_dict price_info ;;
         Ret (JDict (without_signature info))
       else Ret price_info) ;;
  timestamp <- dict_item d "timestamp" ;;
  Ret (jsonify (JDict [("timestamp", timestamp); ("price", price_info')])).

Definition no_price_message (secid : string) : string :=
  ("No price data available for " ++ secid ++
   " (checked both market data and recent candles)")%string.

(** [GET /api/prices/<secid>] *)
Definition get_price_for_secid (secid : string) (with_signature : bool)
    (now : float) (feeds : string -> feed) (w : world) : response * world :=
  match get_cached_data (cache w) now with
  | Raise _ => (server_error, w)
  | Ret cached =>
      match cached_entry cached secid with
      | Raise _ => (server_error, w)
      | Ret (Some (d, price_info)) =>
          match one_price_cached with_signature d price_info with
          | Ret r => (r, w)
          | Raise _ => (server_error, w)
          end
      | Ret None =>
          match get_price (feeds secid) with
          | Raise e => (error_response e, w)
          | Ret (price, is_current) =>
              match has_price price with
              | None =>
                  ({| status := 404;
                      body := JDict [("error", JStr (no_price_message secid))] |},
                   w)
              | Some p =>
                  let '(r, nm1, d1) :=
                    fresh_info (price_uint_one cfg) with_signature now secid p
                               is_current (nonces w) (fs w) in
                  let w1 := {| cache := cache w; nonces := nm1; fs := d1 |} in
                  match r with
                  | Raise e => (error_response e, w1)
                  | Ret info =>
                      match py_int now with
                      | Raise e => (error_response e, w1)
                      | Ret timestamp =>
                          (jsonify (JDict [("timestamp", JInt timestamp);
                                           ("price", JDict info)]), w1)
                      end
                  end
              end
          end
      end
  end.

End Views.

(** ** The registered-bond cache and [/api/bonds] *)

(** [registered_bonds_cache] *)
Record registered_bonds_cache := {
  rb_timestamp : Z;
  rb_bonds : list string;
  rb_ttl : Z
}.

Definition REGISTERED_BONDS_CACHE_TTL : Z := 300.

(** The cache as the module creates it. *)
Definition empty_bonds_cache : registered_bonds_cache :=
  {| rb_timestamp := 0; rb_bonds := []; rb_ttl := REGISTERED_BONDS_CACHE_TTL |}.

(** The node as the Provider sees it: whether [w3.is_connected()], what
    reading [w3.eth.chain_id] does, and what
    [secidToBond(secid).call()] does. *)
Record node := {
  is_connected : bool;
  chain_id : py Z;
  secidToBond : string -> py string
}.

Definition zero_address : string :=
  "0x0000000000000000000000000000000000000000".

(** The loop over the candidates: a lookup that raises is skipped. *)
Fixpoint registered_among (lookup : string -> py string)
    (candidate_secids : list string) : list string :=
  match candidate_secids with
  | [] => []
  | secid :: rest =>
      match lookup secid with
      | Ret bond_address =>
          if String.eqb bond_address zero_address
          then registered_among lookup rest
          else secid :: registered_among lookup rest
      | Raise _ => registered_among lookup rest
      end
  end.

(** [get_registered_bonds()]; [current_time] is [int(time.time())],
    [ofz_list] what [fetch_ofz_list()] does. *)
Definition get_registered_bonds (cfg : Config) (current_time : Z)
    (chain : node) (ofz_list : py (list (string * string)))
    (c : registered_bonds_cache) : list string * registered_bonds_cache :=
  if current_time - rb_timestamp c <? rb_ttl c then (rb_bonds c, c)
  else if negb (is_connected chain) then ([], c)
  else
    match chain_id chain, to_checksum_address (BOND_ORACLE_ADDRESS cfg),
          ofz_list with
    | Ret _, Ret _, Ret rows =>
        let registered_secids :=
          registered_among (secidToBond chain) (map fst rows) in
        (registered_secids,
         {| rb_timestamp := current_time;
            rb_bonds := registered_secids;
            rb_ttl := REGISTERED_BONDS_CACHE_TTL |})
    | _, _, _ => ([], c)
    end.

(** [secid in registered_secids] *)
Definition list_mem (secid : string) (l : list string) : bool :=
  existsb (String.eqb secid) l.

Definition bond_entry (row : string * string) : json :=
  JDict [("secid", JStr (fst row)); ("shortname", JStr (snd row))].

(** [GET /api/bonds]; [onchain_only] is
    [request.args.get('onchain', '').lower() == 'true'], [ofz_list] what
    [fetch_ofz_list()] does in the view and [ofz_list_scan] what it does
    in [get_registered_bonds], [current_time] the clock there and [now]
    the clock of the answer. *)
Definition get_all_bonds (cfg : Config) (onchain_only : bool)
    (current_time : Z) (now : float) (chain : node)
    (ofz_list ofz_list_scan : py (list (string * string)))
    (c : registered_bonds_cache) : response * registered_bonds_cache :=
  match ofz_list with
  | Raise e => (error_response e, c)
  | Ret rows =>
      let '(registered_secids, c1) :=
        if onchain_only
        then get_registered_bonds cfg current_time chain ofz_list_scan c
        else ([], c) in
      let bonds :=
        filter (fun row =>
                  negb (onchain_only
                        && negb (list_mem (fst row) registered_secids)))
               rows in
      match py_int now with
      | Raise e => (error_response e, c1)
      | Ret timestamp =>
          (jsonify
             (JDict [("timestamp", JInt timestamp);
                     ("count", JInt (Z.of_nat (List.length bonds)));
                     ("bonds", JList (map bond_entry bonds));
                     ("filtered_by_onchain", JBool onchain_only)]),
           c1)
      end
  end.

End app.

(* ================================================================== *)
(** * OnchainPricePublisher/publisher.py *)

Module publisher.
Import Bytes.

Record Config := {
  PRICE_CHANGE_THRESHOLD_PERCENT : float
}.

(** [x <= n] for a float [x] and an int [n], on the exact values. *)
Definition float_le_int (x : float) (n : Z) : bool :=
  match Prim2SF x with
  | S754_nan => false
  | S754_infinity s => s
  | S754_zero _ => 0 <=? n
  | S754_finite s m e =>
      let v := if s then Zneg m else Zpos m in
      if 0 <=? e then v * 2 ^ e <=? n
      else v <=? n * 2 ^ (- e)
  end.

(** [(abs(new_price - current_price) / current_price) * 100] for a
    current price that is not zero. *)
Definition price_change_percent (new_price : json) (current_price : Z)
  : py float :=
  match new_price with
  | JInt n =>
      q <- int_truediv (Z.abs (n - current_price)) current_price ;;
      Ret (q * 100)%float
  | JBool b =>
      q <- int_truediv (Z.abs ((if b then 1 else 0) - current_price))
                       current_price ;;
      Ret (q * 100)%float
  | JFloat f =>
      c <- float_of_int current_price ;;
      Ret ((PrimFloat.abs (f - c) / c) * 100)%float
  | _ => Raise TypeError
  end.

Definition should_update_price (cfg : Config) (secid : string)
    (new_price : json) (current_price : option Z) : py bool :=
  match current_price with
  | None => Ret false
  | Some current =>
      if current =? 0 then Ret true
      else
        change <- price_change_percent new_price current ;;
        if PrimFloat.leb (PRICE_CHANGE_THRESHOLD_PERCENT cfg) change
        then Ret true
        else Ret false
  end.

Definition prepare_signature (signature_hex : json) (secid : string)
  : py bytes :=
  match signature_hex with
  | JStr s => fromhex (strip_0x s)
  | _ => Raise TypeError
  end.

(** [deadline <= current_time] *)
Definition deadline_passed (deadline : json) (current_time : Z) : py bool :=
  match deadline with
  | JInt t => Ret (t <=? current_time)
  | JBool b => Ret ((if b then 1 else 0) <=? current_time)
  | JFloat f => Ret (float_le_int f current_time)
  | _ => Raise TypeError
  end.

(** One call of [tx_service.send_update_price_transaction], with its
    arguments. *)
Record update_call := {
  tx_secid : string;
  tx_price_uint : json;
  tx_deadline : json;
  tx_nonce : json;
  tx_signature_bytes : bytes
}.

(** [offchain_data.get(k)]: [None] for a missing key and for [null]. *)
Definition get_field (offchain_data : dict) (k : string) : option json :=
  match dict_get offchain_data k with
  | Some JNull => None
  | r => r
  end.

(** The [try] block of [process_single_price_update]: the calls to the
    transaction service it makes. *)
Definition try_update (cfg : Config) (now : float)
    (onchain_price : py (option Z)) (secid : string)
    (new_price_uint signature deadline nonce : json)
  : py (list update_call) :=
  current_onchain_price <- onchain_price ;;
  update <- should_update_price cfg secid new_price_uint current_onchain_price ;;
  if update then
    signature_bytes <- prepare_signature signature secid ;;
    current_time <- py_int now ;;
    expired <- deadline_passed deadline current_time ;;
    if expired then Ret []
    else
      Ret [{| tx_secid := secid;
              tx_price_uint := new_price_uint;
              tx_deadline := deadline;
              tx_nonce := nonce;
              tx_signature_bytes := signature_bytes |}]
  else Ret [].

(** [process_single_price_update(secid, offchain_data)]. [now] is
    [time.time()] at the deadline check and [onchain_price] is what
    [get_onchain_price(secid)] does. The result lists the transactions
    handed to the transaction service; it raises only when
    [offchain_data] is no object. *)
Definition process_single_price_update (cfg : Config) (now : float)
    (onchain_price : py (option Z)) (secid : string) (offchain_data : json)
  : py (list update_call) :=
  match offchain_data with
  | JDict data =>
      match get_field data "price_uint", get_field data "signature",
            get_field data "deadline", get_field data "nonce" with
      | Some new_price_uint, Some signature, Some deadline, Some nonce =>
          match try_update cfg now onchain_price secid
                           new_price_uint signature deadline nonce with
          | Ret calls => Ret calls
          | Raise _ => Ret []
          end
      | _, _, _, _ => Ret []
      end
  | _ => Raise AttributeError
  end.

(** The loop of [run_update_cycle] over the fetched prices; an
    exception ends the cycle and keeps what was sent before it. *)
Fixpoint update_all (cfg : Config) (clock : string -> float)
    (chain : string -> py (option Z)) (items : dict) : list update_call :=
  match items with
  | [] => []
  | (secid, data) :: rest =>
      match process_single_price_update cfg (clock secid) (chain secid)
                                        secid data with
      | Ret calls => calls ++ update_all cfg clock chain rest
      | Raise _ => []
      end
  end.

(** [offchain_prices_data] is what [fetch_offchain_prices()] does. *)
Definition run_update_cycle (cfg : Config) (clock : string -> float)
    (chain : string -> py (option Z)) (offchain_prices_data : py dict)
  : list update_call :=
  match offchain_prices_data with
  | Ret items => update_all cfg clock chain items
  | Raise _ => []
  end.

(** ** Discovery and the reads of the cycle *)

Definition zero_address : string :=
  "0x0000000000000000000000000000000000000000".

(** [bond["secid"]] for one element of the bond list, as a string the
    contract call takes. *)
Definition bond_secid (bond : json) : py string :=
  match bond with
  | JDict b =>
      match dict_get b "secid" with
      | Some (JStr secid) => Ret secid
      | Some _ => Raise TypeError
      | None => Raise KeyError
      end
  | _ => Raise TypeError
  end.

Fixpoint bond_secids (bonds : list json) : py (list string) :=
  match bonds with
  | [] => Ret []
  | bond :: rest =>
      secid <- bond_secid bond ;;
      secids <- bond_secids rest ;;
      Ret (secid :: secids)
  end.

(** [[bond["secid"] for bond in bonds_data.get("bonds", [])]]: the
    elements of an array; an object or a string is walked by its keys or
    characters, on which the subscript raises unless there is none. *)
Definition candidate_secids (bonds_data : json) : py (list string) :=
  match bonds_data with
  | JDict d =>
      match dict_get d "bonds" with
      | None => Ret []
      | Some (JList bonds) => bond_secids bonds
      | Some (JDict []) => Ret []
      | Some (JStr EmptyString) => Ret []
      | Some _ => Raise TypeError
      end
  | _ => Raise AttributeError
  end.

(** The loop of [get_all_registered_secids] over the candidates. *)
Fixpoint registered_of (secidToBond : string -> py string)
    (candidates : list string) : py (list string) :=
  match candidates with
  | [] => Ret []
  | secid :: rest =>
      bond_address <- secidToBond secid ;;
      registered <- registered_of secidToBond rest ;;
      if String.eqb bond_address zero_address then Ret registered
      else Ret (secid :: registered)
  end.

(** [get_all_registered_secids()]; [bonds_response] is what the GET of
    [/api/bonds] and its [json()] do, [secidToBond] what the contract
    call does. Every exception ends in the empty list. *)
Definition get_all_registered_secids (bonds_response : py json)
    (secidToBond : string -> py string) : list string :=
  match (bonds_data <- bonds_response ;;
         candidates <- candidate_secids bonds_data ;;
         registered_of secidToBond candidates) with
  | Ret registered_secids => registered_secids
  | Raise _ => []
  end.

(** [except requests.exceptions.RequestException] and [except
    (json.JSONDecodeError, KeyError)]; a [RequestException] is an
    [IOError]. *)
Definition fetch_handled (e : exn) : bool :=
  match e with
  | IOError | JSONDecodeError | KeyError => true
  | _ => false
  end.

(** The loop of [fetch_offchain_prices]; [provider secid] is what the
    GET of [/api/prices/<secid>?sign=true] and its [json()] do. The
    message logged after the assignment evaluates
    [price_info.get('price')], which raises on what is no object. *)
Fixpoint fetch_prices (provider : string -> py json)
    (registered_secids : list string) (prices : dict) : py dict :=
  match registered_secids with
  | [] => Ret prices
  | secid :: rest =>
      match provider secid with
      | Raise e =>
          if fetch_handled e then fetch_prices provider rest prices
          else Raise e
      | Ret (JDict data) =>
          let price_info := match dict_get data "price" with
                            | Some v => v
                            | None => JDict []
                            end in
          if truthy price_info
          then
            match price_info with
            | JDict _ =>
                fetch_prices provider rest (dict_set prices secid price_info)
            | _ => Raise AttributeError
            end
          else fetch_prices provider rest prices
      | Ret _ => Raise AttributeError
      end
  end.

Definition fetch_offchain_prices (bonds_response : py json)
    (secidToBond : string -> py string) (provider : string -> py json)
  : py dict :=
  let registered_secids :=
    get_all_registered_secids bonds_response secidToBond in
  match registered_secids with
  | [] => Ret []
  | _ => fetch_prices provider registered_secids []
  end.

(** [get_onchain_price(secid)]; [getPriceFeed] is the contract call on
    the 20 bytes of the bond address. *)
Definition get_onchain_price (secidToBond : string -> py string)
    (getPriceFeed : bytes -> py (Z * Z * Z)) (secid : string)
  : py (option Z) :=
  bond_address_str <- secidToBond secid ;;
  if String.eqb bond_address_str zero_address then Ret None
  else
    bond_address <- signature_utils.to_checksum_address bond_address_str ;;
    bond_info <- getPriceFeed bond_address ;;
    Ret (Some (fst (fst bond_info))).

(** One whole [run_update_cycle], from discovery to the calls handed to
    the transaction service. [discovered] is what [secidToBond] does
    during discovery, [secidToBond] what it does when the price of an
    instrument is read. *)
Definition update_cycle (cfg : Config) (clock : string -> float)
    (bonds_response : py json) (discovered secidToBond : string -> py string)
    (getPriceFeed : bytes -> py (Z * Z * Z)) (provider : string -> py json)
  : list update_call :=
  run_update_cycle cfg clock (get_onchain_price secidToBond getPriceFeed)
    (fetch_offchain_prices bonds_response discovered provider).

End publisher.

(* ================================================================== *)
(** * Words of the specification *)

Module Spec.
Import get_ofz_prices.

(** ** Quotes *)

(** The value of a market field in a row: [None] when the exchange has
    no such column or the cell is [null]. *)
Definition field_value (cols : list string) (row : list (option float))
    (f : string) : option float :=
  match index_of cols f with
  | Some i =>
      match nth_error row i with
      | Some c => c
      | None => None
      end
  | None => None
  end.

(** A quote of [v] percent as an amount of the bond's face value. *)
Definition absolute (fd : feed) (v : float) : float :=
  ((v * nominal_of (fd_initialPrice fd)) / 100)%float.

(** A 97.125 percent market price on a bond of face value 1000. *)
Definition feed_1000 : feed :=
  {| fd_marketdata :=
       {| md_columns := ["MARKETPRICE"; "LAST"];
          md_data := [[Some 97.125%float; None]] |};
     fd_candles := [];
     fd_initialPrice := Some 1000%float |}.

(** A 97.125 percent market price on a bond of face value 100. *)
Definition feed_100 : feed :=
  {| fd_marketdata :=
       {| md_columns := ["MARKETPRICE"; "LAST"];
          md_data := [[Some 97.125%float; None]] |};
     fd_candles := [];
     fd_initialPrice := Some 100%float |}.

(** All six fields null, two candles. *)
Definition feed_candles : feed :=
  {| fd_marketdata :=
       {| md_columns := ["MARKETPRICE"; "LAST"; "WAPRICE"];
          md_data := [[None; None; None]] |};
     fd_candles := [("2025-05-12 00:00:00", 96.25%float);
                    ("2025-05-13 00:00:00", 96.5%float)];
     fd_initialPrice := None |}.

(** Nothing at all. *)
Definition feed_silent : feed :=
  {| fd_marketdata := {| md_columns := ["LAST"]; md_data := [[None]] |};
     fd_candles := [];
     fd_initialPrice := None |}.

(** ** Nonce files *)

(** A disk with no file on it. *)
Definition blank_disk : Fs.disk :=
  {| Fs.files := []; Fs.refused := []; Fs.trace := [] |}.

(** [k] calls of [get_next_nonce], each on the disk the one before it
    left: the nonces returned, the manager and the disk at the end. *)
Fixpoint take_nonces (k : nat) (self : nonce_manager.NonceManager)
    (d : Fs.disk) : list Z * nonce_manager.NonceManager * Fs.disk :=
  match k with
  | O => ([], self, d)
  | S k' =>
      let '(n, self1, d1) := nonce_manager.get_next_nonce self d in
      let '(ns, self2, d2) := take_nonces k' self1 d1 in
      (n :: ns, self2, d2)
  end.

(** A process life: start the nonce manager on [d], take [k] nonces. *)
Definition session (path : string) (d : Fs.disk) (k : nat)
  : option (list Z * Fs.disk) :=
  match nonce_manager.__init__ path d with
  | (Ret self, d1) =>
      let '(ns, _, d2) := take_nonces k self d1 in Some (ns, d2)
  | (Raise _, _) => None
  end.

(** A call that goes through a second file: a rename or an fsync. *)
Definition is_rename_or_fsync (c : Fs.syscall) : bool :=
  match c with
  | Fs.sys_rename _ _ | Fs.sys_fsync _ => true
  | _ => false
  end.

(** The disk when the process stops inside [_save_nonce], after
    [open(path, 'w')] and before [json.dump]. *)
Definition torn_save (path : string) (d : Fs.disk) : Fs.disk :=
  snd (Fs.open_w d path).

(** ** Signatures *)

(** A stand-in for the two primitives, to run the signer on examples:
    a 32-byte word that is not keccak-256 and a triple that is not a
    secp256k1 signature. *)
Definition stand_in_libs : signature_utils.EthLibs :=
  {| signature_utils.keccak :=
       fun m => Bytes.be_bytes 32 (Z.of_nat (List.length m) + 7 * Bytes.from_bytes (firstn 4 m));
     signature_utils.sign_msg_hash :=
       fun key h => Ret (Bytes.from_bytes h + 1, Bytes.from_bytes key + 1, 1) |}.

Definition example_config : provider_config.Config :=
  {| provider_config.CACHE_TTL := 10;
     provider_config.PRICE_SCALING_FACTOR := 100000000;
     provider_config.BOND_ORACLE_ADDRESS := "0x00000000000000000000000000000000000000a1";
     provider_config.CHAIN_ID := 1;
     provider_config.SIGNATURE_EXPIRY_SECONDS := 300;
     provider_config.NONCE_FILE := "data/nonce.json";
     provider_config.ETH_PRIVATE_KEY :=
       "0x0000000000000000000000000000000000000000000000000000000000000001" |}.

Section Eip712.
Context {libs : signature_utils.EthLibs}.
Import Bytes signature_utils.

(** [D = keccak256(abi.encode(DOMAIN_TYPEHASH, keccak256("BondOracle"),
    keccak256("1"), chain_id, verifying_contract))] *)
Definition spec_domain_separator (chain_id : Z) (verifying_contract : bytes)
  : bytes :=
  keccak
    (keccak (utf8 "EIP712Domain(string name,string version,uint256 chainId,address verifyingContract)")
     ++ keccak (utf8 "BondOracle")
     ++ keccak (utf8 "1")
     ++ be_bytes 32 chain_id
     ++ (zeros 12 ++ verifying_contract)).

(** [H = keccak256(abi.encode(PRICE_UPDATE_TYPEHASH,
    keccak256(utf8(secid)), price, nonce, deadline))] *)
Definition spec_struct_hash (secid : string) (price nonce deadline : Z)
  : bytes :=
  keccak
    (keccak (utf8 "PriceUpdate(string secid,uint160 price,uint256 nonce,uint256 deadline)")
     ++ keccak (utf8 secid)
     ++ be_bytes 32 price
     ++ be_bytes 32 nonce
     ++ be_bytes 32 deadline).

(** [M = keccak256(0x19 || 0x01 || D || H)] *)
Definition spec_digest (D H : bytes) : bytes :=
  keccak (Byte.x19 :: Byte.x01 :: D ++ H).

(** [abi.encode(bytes32 r, bytes32 s, uint8 v)] *)
Definition spec_rsv (r s v : Z) : bytes :=
  be_bytes 32 r ++ be_bytes 32 s ++ be_bytes 32 v.

End Eip712.

(** The other end of the signature: the oracle contract, which is not
    among the Python sources, reads it with [abi.decode(sig, (bytes32,
    bytes32, uint8))], three 32-byte big-endian words. *)
Definition decode_rsv (b : Bytes.bytes) : option (Z * Z * Z) :=
  if (List.length b =? 96)%nat then
    Some (Bytes.from_bytes (firstn 32 b),
          Bytes.from_bytes (firstn 32 (skipn 32 b)),
          Bytes.from_bytes (skipn 64 b))
  else None.

(** ** Attestations and snapshots *)

(** What one call handed to the transaction service says about the
    attestation [data] it came from, at the clock [now]. *)
Definition sent_as_signed (now : float) (secid : string) (data : dict)
    (c : publisher.update_call) : Prop :=
  exists t sig,
    py_int now = Ret t
    /\ publisher.tx_secid c = secid
    /\ publisher.get_field data "price_uint" = Some (publisher.tx_price_uint c)
    /\ publisher.get_field data "deadline" = Some (publisher.tx_deadline c)
    /\ publisher.get_field data "nonce" = Some (publisher.tx_nonce c)
    /\ publisher.get_field data "signature" = Some (JStr sig)
    /\ Bytes.fromhex (Bytes.strip_0x sig) = Ret (publisher.tx_signature_bytes c)
    /\ publisher.deadline_passed (publisher.tx_deadline c) t = Ret false
    /\ (forall dl, publisher.tx_deadline c = JInt dl -> t < dl).

(** An attestation as the Provider serves it, with its deadline. *)
Definition attestation (deadline : Z) : dict :=
  [("price", JFloat 97.125%float);
   ("price_uint", JInt 9712500000);
   ("is_current_market_data", JBool true);
   ("data_source", JStr "market_price");
   ("signature", JStr "0x00ff10");
   ("nonce", JInt 7);
   ("deadline", JInt deadline)].

Definition one_percent : publisher.Config :=
  {| publisher.PRICE_CHANGE_THRESHOLD_PERCENT := 1%float |}.

(** The entries of a snapshot, each an object. *)
Definition typed_items (entries : list (string * dict)) : dict :=
  map (fun e => (fst e, JDict (snd e))) entries.

(** An entry that carries no attestation. *)
Definition unsigned (info : dict) : Prop :=
  dict_get info "signature" = None
  /\ dict_get info "nonce" = None
  /\ dict_get info "deadline" = None.

(** A snapshot none of whose entries carries an attestation. *)
Definition all_unsigned (prices : dict) : Prop :=
  Forall (fun kv => exists info, snd kv = JDict info /\ unsigned info) prices.

(** A Provider that has served nothing yet. *)
Definition cold_world : app.world :=
  {| app.cache := {| cache_manager.ttl_seconds := 10;
                     cache_manager.file := None;
                     cache_manager.writable := true |};
     app.nonces := {| nonce_manager.nonce_file_path := "data/nonce.json";
                      nonce_manager.current_nonce := 0 |};
     app.fs := blank_disk |}.

(** A snapshot generated under [?sign]. *)
Definition signed_snapshot : json :=
  JDict [("timestamp", JInt 1747000000);
         ("prices",
          JDict [("SU26207",
                  JDict [("price", JFloat 97%float);
                         ("price_uint", JInt 97000000);
                         ("signature", JStr "0xabc");
                         ("nonce", JInt 5);
                         ("deadline", JInt 2000000000)])])].

(** A Provider whose cache file holds [signed_snapshot]. *)
Definition warm_world : app.world :=
  {| app.cache := {| cache_manager.ttl_seconds := 10;
                     cache_manager.file :=
                       Some {| cache_manager.mtime := 1747000000%float;
                               cache_manager.body := Fs.Document signed_snapshot |};
                     cache_manager.writable := true |};
     app.nonces := {| nonce_manager.nonce_file_path := "data/nonce.json";
                      nonce_manager.current_nonce := 5 |};
     app.fs := blank_disk |}.

(** ** Runs *)

(** [c, c + 1, ...], [k] numbers. *)
Fixpoint count_from (c : Z) (k : nat) : list Z :=
  match k with
  | O => []
  | S k' => c :: count_from (c + 1) k'
  end.

(** Whether the loop of [get_all_prices] makes an entry for a row: the
    resolver returns a price that is not zero. *)
Definition priced (feeds : string -> feed) (row : string * string) : bool :=
  match get_price (feeds (fst row)) with
  | Ret (p, _) =>
      match app.has_price p with
      | Some _ => true
      | None => false
      end
  | Raise _ => false
  end.

End Spec.

(* ================================================================== *)
(** * The price resolver *)

Module PriceResolver.
Import get_ofz_prices Spec.

Lemma index_of_lt cols f i :
  index_of cols f = Some i -> (i < List.length cols)%nat.
Proof.
  revert i. induction cols as [|c cols IH]; simpl; intros i H.
  - discriminate.
  - destruct (String.eqb c f).
    + injection H as <-. lia.
    + destruct (index_of cols f) as [j|]; simpl in H; [|discriminate].
      injection H as <-. specialize (IH j eq_refl). lia.
Qed.

Lemma cell_field_value cols row f :
  (List.length cols <= List.length row)%nat ->
  cell cols row f = Ret (field_value cols row f).
Proof.
  intros Hlen. unfold cell, field_value, list_index.
  destruct (index_of cols f) as [i|] eqn:Hi; [|reflexivity].
  apply index_of_lt in Hi.
  destruct (nth_error row i) eqn:Hn; [reflexivity|].
  apply nth_error_None in Hn. lia.
Qed.

Lemma price_data_of_map cols row fields :
  (List.length cols <= List.length row)%nat ->
  price_data_of cols row fields
  = Ret (map (fun f => (f, field_value cols row f)) fields).
Proof.
  intros Hlen. induction fields as [|f fs IH]; simpl.
  - reflexivity.
  - rewrite (cell_field_value _ _ _ Hlen), IH. reflexivity.
Qed.

Lemma dict_get_map {V} (g : string -> V) fields f :
  In f fields ->
  dict_get (map (fun f => (f, g f)) fields) f = Some (g f).
Proof.
  induction fields as [|x fs IH]; simpl; intros Hin.
  - contradiction.
  - destruct (String.eqb x f) eqn:E.
    + apply String.eqb_eq in E. now subst.
    + destruct Hin as [->|Hin]; [|auto].
      rewrite String.eqb_refl in E. discriminate.
Qed.

Lemma first_priced_hit pd before f after v :
  Forall (fun g => dict_get pd g = Some None) before ->
  dict_get pd f = Some (Some v) ->
  first_priced pd (before ++ f :: after) = (Some v, Some f).
Proof.
  intros Hb Hf. induction Hb as [|g before Hg _ IH]; simpl.
  - now rewrite Hf.
  - now rewrite Hg.
Qed.

Lemma first_priced_miss pd fields :
  Forall (fun g => dict_get pd g = Some None) fields ->
  first_priced pd fields = (None, None).
Proof.
  intros H. induction H as [|g fs Hg _ IH]; simpl.
  - reflexivity.
  - now rewrite Hg.
Qed.

Lemma price_field_not_candle f :
  In f price_fields -> String.eqb f "candle" = false.
Proof.
  unfold price_fields. simpl.
  intros H; repeat (destruct H as [<-|H]; [reflexivity|]). contradiction.
Qed.

(** The market snapshot of a well-formed answer, in the words of
    [field_value]. *)
Lemma market_prices_fields md row rows :
  md_data md = row :: rows ->
  (List.length (md_columns md) <= List.length row)%nat ->
  market_prices md
  = Ret (first_priced
           (map (fun f => (f, field_value (md_columns md) row f)) price_fields)
           price_fields).
Proof.
  intros Hd Hlen. unfold market_prices. rewrite Hd.
  unfold list_index. cbn [nth_error bind].
  now rewrite (price_data_of_map _ _ _ Hlen).
Qed.

(** C1, as the code has it. For an instrument whose market snapshot has
    a row, [get_price] returns [(price, is_current)] where the price is
    the quote turned into an amount of the face value (quote * nominal /
    100, nominal 100 when the face value is unknown or not positive):
    the first field of [MARKETPRICE, LAST, LCLOSEPRICE, WAPRICE,
    PREVWAPRICE, CLOSEPRICE] that is not null, with [is_current = true];
    when all six are null, the close of the last candle row with
    [is_current = false]; and [(None, false)] when there is no candle
    either. *)
Theorem get_price_resolution (fd : feed) (row : list (option float))
    (rows : list (list (option float))) :
  md_data (fd_marketdata fd) = row :: rows ->
  (List.length (md_columns (fd_marketdata fd)) <= List.length row)%nat ->
  let value := field_value (md_columns (fd_marketdata fd)) row in
  (forall before f after v,
      price_fields = before ++ f :: after ->
      Forall (fun g => value g = None) before ->
      value f = Some v ->
      get_price fd = Ret (Some (absolute fd v), true))
  /\ (Forall (fun g => value g = None) price_fields ->
      forall cs b c,
        fd_candles fd = cs ++ [(b, c)] ->
        get_price fd = Ret (Some (absolute fd c), false))
  /\ (Forall (fun g => value g = None) price_fields ->
      fd_candles fd = [] ->
      get_price fd = Ret (None, false)).
Proof.
  intros Hd Hlen value.
  pose proof (market_prices_fields _ _ _ Hd Hlen) as Hmp.
  fold value in Hmp.
  set (pd := map (fun f => (f, value f)) price_fields) in Hmp.
  assert (Hget : forall g, In g price_fields -> dict_get pd g = Some (value g))
    by (intros g Hg; apply (dict_get_map value); exact Hg).
  assert (Hnone : forall fs, incl fs price_fields ->
            Forall (fun g => value g = None) fs ->
            Forall (fun g => dict_get pd g = Some None) fs).
  { intros fs Hincl Hall. rewrite Forall_forall in *. intros g Hg.
    rewrite (Hget g (Hincl g Hg)). f_equal. now apply Hall. }
  repeat split.
  - intros before f after v Hsplit Hbefore Hf.
    assert (Hin : In f price_fields)
      by (rewrite Hsplit; apply in_or_app; right; left; reflexivity).
    assert (Hfp : first_priced pd price_fields = (Some v, Some f)).
    { rewrite Hsplit at 1. apply first_priced_hit.
      - apply Hnone; [|exact Hbefore].
        intros g Hg. rewrite Hsplit. apply in_or_app; now left.
      - rewrite (Hget f Hin). now f_equal. }
    unfold get_price, get_price_detailed. rewrite Hmp, Hfp. simpl.
    unfold source_is_candle. rewrite (price_field_not_candle f Hin).
    reflexivity.
  - intros Hall cs b c Hc.
    assert (Hfp : first_priced pd price_fields = (None, None))
      by (apply first_priced_miss, Hnone; [apply incl_refl | exact Hall]).
    unfold get_price, get_price_detailed. rewrite Hmp, Hfp. simpl.
    rewrite Hc, rev_app_distr. reflexivity.
  - intros Hall Hc.
    assert (Hfp : first_priced pd price_fields = (None, None))
      by (apply first_priced_miss, Hnone; [apply incl_refl | exact Hall]).
    unfold get_price, get_price_detailed. rewrite Hmp, Hfp. simpl.
    rewrite Hc. reflexivity.
Qed.

(** The three cases on three answers of the exchange: a market price, candles only, nothing. *)
Lemma get_price_resolution_witness :
  get_price feed_1000 = Ret (Some (absolute feed_1000 97.125%float), true)
  /\ get_price feed_candles = Ret (Some (absolute feed_candles 96.5%float), false)
  /\ get_price feed_silent = Ret (None, false).
Proof.
  split; [|split].
  - destruct (get_price_resolution feed_1000 [Some 97.125%float; None] []
                eq_refl) as [H _]; [simpl; lia|].
    apply (H [] "MARKETPRICE"
             ["LAST"; "LCLOSEPRICE"; "WAPRICE"; "PREVWAPRICE"; "CLOSEPRICE"]).
    + reflexivity.
    + constructor.
    + reflexivity.
  - destruct (get_price_resolution feed_candles [None; None; None] []
                eq_refl) as [_ [H _]]; [simpl; lia|].
    apply (H ltac:(repeat constructor)
             [("2025-05-12 00:00:00", 96.25%float)] "2025-05-13 00:00:00").
    reflexivity.
  - destruct (get_price_resolution feed_silent [None] [] eq_refl)
      as [_ [_ H]]; [simpl; lia|].
    apply H; [repeat constructor | reflexivity].
Defined.

(** C1 as stated fails: with [MARKETPRICE = 97.125] on a bond of face
    value 1000 the resolver returns 971.25, the amount, and not the
    field value 97.125. *)
Lemma get_price_is_not_percent :
  get_price feed_1000 = Ret (Some 971.25%float, true)
  /\ field_value ["MARKETPRICE"; "LAST"] [Some 97.125%float; None] "MARKETPRICE"
     = Some 97.125%float
  /\ get_price feed_1000 <> Ret (Some 97.125%float, true).
Proof.
  split; [vm_compute; reflexivity|].
  split; [reflexivity|].
  intros H.
  assert (E : match get_price feed_1000 with
              | Ret (Some p, _) => PrimFloat.eqb p 97.125
              | _ => false
              end = true) by (rewrite H; reflexivity).
  vm_compute in E. discriminate.
Qed.

(** The third scenario of the specification: all six fields null and a
    last candle closing at 96.4, on a bond of face value 100. *)
Example scenario_candle_fallback :
  get_price {| fd_marketdata :=
                 {| md_columns := price_fields;
                    md_data := [[None; None; None; None; None; None]] |};
               fd_candles := [("2025-05-12 00:00:00", 96.1%float);
                              ("2025-05-13 00:00:00", 96.4%float)];
               fd_initialPrice := Some 100%float |}
  = Ret (Some 96.4%float, false).
Proof. vm_compute. reflexivity. Qed.

End PriceResolver.

(* ================================================================== *)
(** * The nonce store *)

Module NonceStore.
Import Fs nonce_manager Spec.

Lemma dict_get_set_same {V} (d : list (string * V)) k v :
  dict_get (dict_set d k v) k = Some v.
Proof.
  induction d as [|[k' v'] d IH]; simpl.
  - now rewrite String.eqb_refl.
  - destruct (String.eqb k' k) eqn:E; simpl; rewrite E; auto.
Qed.

Lemma dict_get_set_other {V} (d : list (string * V)) k v q :
  q <> k -> dict_get (dict_set d k v) q = dict_get d q.
Proof.
  intros Hq. induction d as [|[k' v'] d IH]; simpl.
  - destruct (String.eqb k q) eqn:E; [|reflexivity].
    apply String.eqb_eq in E. congruence.
  - destruct (String.eqb k' k) eqn:E; simpl.
    + apply String.eqb_eq in E. subst k'.
      destruct (String.eqb k q) eqn:E2; [|reflexivity].
      apply String.eqb_eq in E2. congruence.
    + now rewrite IH.
Qed.

(** Every nonce of a run is above the counter the run started from, and
    the run is increasing. *)
Lemma next_nonces_increasing disks : forall self,
  Forall (fun n => current_nonce self < n) (next_nonces self disks)
  /\ StronglySorted Z.lt (next_nonces self disks).
Proof.
  induction disks as [|d ds IH]; intros self; simpl.
  - split; constructor.
  - destruct (IH (set_nonce self (current_nonce self + 1))) as [Hall Hs].
    simpl in Hall.
    split.
    + constructor; [lia|].
      eapply Forall_impl; [|exact Hall]. simpl. intros; lia.
    + constructor; [exact Hs|exact Hall].
Qed.

(** The directory of the nonce file can be made: it has a name and the
    disk does not refuse it. *)
Lemma init_reaches_load path d :
  makedirs d (dirname path) = (Ret tt, log d (sys_makedirs (dirname path))) ->
  path <> "" ->
  __init__ path d
  = _load_nonce {| nonce_file_path := path; current_nonce := 0 |}
                (log d (sys_makedirs (dirname path))).
Proof.
  intros Hmk Hp. unfold __init__.
  destruct (String.eqb path "") eqn:E.
  - apply String.eqb_eq in E. contradiction.
  - unfold _ensure_dir_exists. cbn [nonce_file_path]. now rewrite Hmk.
Qed.

Lemma makedirs_ok d dir :
  dir <> "" ->
  is_refused d dir = false ->
  makedirs d dir = (Ret tt, log d (sys_makedirs dir)).
Proof.
  intros Hd Hr. unfold makedirs. rewrite Hr.
  destruct (String.eqb dir "") eqn:E; [|reflexivity].
  apply String.eqb_eq in E. contradiction.
Qed.

Lemma dirname_nonempty path : dirname path <> "" -> path <> "".
Proof. intros H ->. now apply H. Qed.

Lemma init_absent path d :
  dirname path <> "" ->
  is_refused d (dirname path) = false ->
  dict_get (files d) path = None ->
  exists d', __init__ path d
             = (Ret {| nonce_file_path := path; current_nonce := 0 |}, d').
Proof.
  intros Hdir Href Habs.
  rewrite (init_reaches_load path d (makedirs_ok _ _ Hdir Href)
             (dirname_nonempty _ Hdir)).
  unfold _load_nonce, exists_, dict_mem. cbn [files log nonce_file_path].
  rewrite Habs. eexists. reflexivity.
Qed.

Lemma init_present path d c :
  dirname path <> "" ->
  is_refused d (dirname path) = false ->
  dict_get (files d) path = Some c ->
  let self := {| nonce_file_path := path; current_nonce := 0 |} in
  exists d',
    __init__ path d
    = (try_except
         (data <- json_load c ;; n <- nonce_of data ;; Ret (set_nonce self n))
         decode_or_io
         (Ret (set_nonce self 0)), d').
Proof.
  intros Hdir Href Hc self.
  rewrite (init_reaches_load path d (makedirs_ok _ _ Hdir Href)
             (dirname_nonempty _ Hdir)).
  unfold _load_nonce, exists_, load, dict_mem.
  cbn [files log nonce_file_path]. rewrite Hc. eexists. reflexivity.
Qed.

(** C4, as the code has it. A persisting write opens the nonce file
    itself for writing, which empties it, and then writes the document
    [{"nonce": N}] into it: two calls, no temporary file, no rename, no
    other file touched. A manager started on the file so written resumes
    at [N] and its next nonce is [N + 1]. A manager started on a file
    that does not parse or cannot be read restarts at 0, and its next
    nonce is 1. *)
Theorem nonce_persistence (self : NonceManager) (d : disk) :
  let p := nonce_file_path self in
  let N := current_nonce self in
  let d' := _save_nonce self d in
  dirname p <> "" ->
  is_refused d (dirname p) = false ->
  is_refused d p = false ->
  trace d' = trace d ++ [sys_open p "w"; sys_write p (nonce_document N)]
  /\ dict_get (files d') p = Some (Document (nonce_document N))
  /\ (forall q, q <> p -> dict_get (files d') q = dict_get (files d) q)
  /\ (exists self2 d2,
        __init__ p d' = (Ret self2, d2)
        /\ current_nonce self2 = N
        /\ fst (fst (get_next_nonce self2 d2)) = N + 1)
  /\ (forall dx c,
        is_refused dx (dirname p) = false ->
        dict_get (files dx) p = Some c ->
        c = Malformed \/ c = Unreadable ->
        exists self2 d2,
          __init__ p dx = (Ret self2, d2)
          /\ current_nonce self2 = 0
          /\ fst (fst (get_next_nonce self2 d2)) = 1).
Proof.
  intros p N d' Hdir Hrefd Href.
  assert (Hsave : d' = dump (put_file (log d (sys_open p "w")) p Malformed)
                            p (nonce_document N)).
  { subst d' p N. unfold _save_nonce, open_w. now rewrite Href. }
  assert (Hfile : dict_get (files d') p = Some (Document (nonce_document N))).
  { rewrite Hsave. unfold dump, put_file, log. cbn [files].
    apply dict_get_set_same. }
  assert (Hrefd' : is_refused d' (dirname p) = false)
    by (rewrite Hsave; exact Hrefd).
  split; [|split; [exact Hfile|split; [|split]]].
  - rewrite Hsave. unfold dump, put_file, log. cbn [trace].
    now rewrite <- app_assoc.
  - intros q Hq. rewrite Hsave. unfold dump, put_file, log. cbn [files].
    now rewrite !dict_get_set_other by exact Hq.
  - destruct (init_present p d' _ Hdir Hrefd' Hfile) as [d2 Hinit].
    eexists _, d2. split; [exact Hinit|]. split; reflexivity.
  - intros dx c Hrefx Hc Hbad.
    destruct (init_present p dx c Hdir Hrefx Hc) as [d2 Hinit].
    destruct Hbad as [-> | ->]; cbn in Hinit;
      (eexists _, d2; split; [exact Hinit|]; split; reflexivity).
Qed.

(** Counter 41 written on a blank disk and read back by a new manager. *)
Lemma nonce_persistence_witness :
  let self := {| nonce_file_path := "data/nonce.json"; current_nonce := 41 |} in
  let d' := _save_nonce self blank_disk in
  trace d' = [sys_open "data/nonce.json" "w";
              sys_write "data/nonce.json" (nonce_document 41)]
  /\ exists self2 d2,
       __init__ "data/nonce.json" d' = (Ret self2, d2)
       /\ current_nonce self2 = 41
       /\ fst (fst (get_next_nonce self2 d2)) = 42.
Proof.
  intros self d'.
  destruct (nonce_persistence self blank_disk) as [Ht [_ [_ [Hre _]]]].
  - discriminate.
  - reflexivity.
  - reflexivity.
  - split; [exact Ht | exact Hre].
Defined.

(** C4 as stated fails. A process that started without a nonce file
    hands out 1, 2, 3; none of its writes renames or syncs a file. It
    stops inside the next write, after the file was opened for writing
    and before the document went in. The process that starts on that
    disk hands out 1 again. *)
Lemma nonce_repeats_after_torn_write :
  exists d3 d4,
    session "data/nonce.json" blank_disk 3 = Some ([1; 2; 3], d3)
    /\ existsb is_rename_or_fsync (trace d3) = false
    /\ dict_get (files (torn_save "data/nonce.json" d3)) "data/nonce.json"
       = Some Malformed
    /\ session "data/nonce.json" (torn_save "data/nonce.json" d3) 1
       = Some ([1], d4)
    /\ In 1 [1; 2; 3].
Proof.
  eexists _, _.
  split; [vm_compute; reflexivity|].
  split; [vm_compute; reflexivity|].
  split; [vm_compute; reflexivity|].
  split; [vm_compute; reflexivity|].
  simpl; auto.
Qed.

Section Signing.
Context {libs : signature_utils.EthLibs}.
Import signature_utils.

Lemma create_signature_takes_next cfg self d now secid price :
  let '(r, self1, d1) :=
    create_signature cfg self d now secid price None None in
  current_nonce self1 = current_nonce self + 1
  /\ forall sig n dl, r = Ret (sig, n, dl) -> n = current_nonce self + 1.
Proof.
  unfold create_signature, get_next_nonce. cbn [current_nonce set_nonce].
  split; [reflexivity|].
  intros sig n dl.
  destruct (py_int now) as [t|e]; cbn [bind]; [|discriminate].
  destruct (sign_price_update _ _ _ _ _) as [x|e]; cbn [bind]; [|discriminate].
  intros E. injection E as _ <- _. reflexivity.
Qed.

Lemma signed_nonces_increasing cfg requests : forall self d,
  Forall (fun n => current_nonce self < n) (signed_nonces cfg self d requests)
  /\ StronglySorted Z.lt (signed_nonces cfg self d requests).
Proof.
  induction requests as [|[[now secid] price] rest IH]; intros self d.
  - split; constructor.
  - cbn [signed_nonces].
    pose proof (create_signature_takes_next cfg self d now secid price) as Hn.
    destruct (create_signature cfg self d now secid price None None)
      as [[r self1] d1].
    destruct Hn as [Hc Hr].
    destruct (IH self1 d1) as [Hall Hs].
    assert (Hall' : Forall (fun n => current_nonce self < n)
                           (signed_nonces cfg self1 d1 rest))
      by (eapply Forall_impl; [|exact Hall]; simpl; intros; lia).
    destruct r as [[[sig n] dl]|e].
    + rewrite (Hr sig n dl eq_refl). split.
      * constructor; [lia|exact Hall'].
      * constructor; [exact Hs|]. now rewrite <- Hc.
    + split; assumption.
Qed.

(** C5. A nonce manager started on a disk without the nonce file, in a
    directory that can be made, begins at 0: its first [get_next_nonce] returns 1, the nonces of any run of
    [get_next_nonce] calls are strictly increasing whatever the disk
    does, and so are the nonces returned by any run of
    [create_signature] calls on that manager. *)
Theorem nonce_monotonicity (path : string) (d : disk) (disks : list disk)
    (cfg : provider_config.Config) (requests : list (float * string * Z)) :
  dirname path <> "" ->
  is_refused d (dirname path) = false ->
  dict_get (files d) path = None ->
  exists self d',
    __init__ path d = (Ret self, d')
    /\ (forall d1, fst (fst (get_next_nonce self d1)) = 1)
    /\ StronglySorted Z.lt (next_nonces self disks)
    /\ StronglySorted Z.lt (signed_nonces cfg self d' requests).
Proof.
  intros Hdir Href Habs.
  destruct (init_absent path d Hdir Href Habs) as [d' Hinit].
  exists {| nonce_file_path := path; current_nonce := 0 |}, d'.
  split; [exact Hinit|].
  split; [intros d1; reflexivity|].
  split.
  - apply next_nonces_increasing.
  - apply signed_nonces_increasing.
Qed.

End Signing.

(** A first start in [data/], three nonces, three signatures of which the second is refused by the encoder. *)
Lemma nonce_monotonicity_witness :
  exists self d',
    __init__ "data/nonce.json" blank_disk = (Ret self, d')
    /\ (forall d1, fst (fst (get_next_nonce self d1)) = 1)
    /\ StronglySorted Z.lt (next_nonces self [blank_disk; blank_disk; blank_disk])
    /\ StronglySorted Z.lt
         (signature_utils.signed_nonces (libs := stand_in_libs) example_config
            self d'
            [(1747000000%float, "SU26207RMFS9", 9712500000);
             (1747000001%float, "SU26238RMFS4", 2 ^ 200);
             (1747000002%float, "SU26207RMFS9", 9712500000)]).
Proof.
  apply (nonce_monotonicity (libs := stand_in_libs)).
  - discriminate.
  - reflexivity.
  - reflexivity.
Defined.

End NonceStore.

(* ================================================================== *)
(** * The signer *)

Module Signer.
Import Bytes Fs nonce_manager provider_config signature_utils Spec.

Lemma be_bytes_length len n : List.length (be_bytes len n) = len.
Proof. induction len as [|k IH]; simpl; [reflexivity|now rewrite IH]. Qed.

Lemma encode_bytes32 b :
  List.length b = 32%nat -> encode_word (abi_bytes32 b) = Ret b.
Proof.
  intros H. unfold encode_word. rewrite H. cbn [Nat.leb Nat.sub zeros repeat].
  now rewrite app_nil_r.
Qed.

Lemma encode_uint bits n :
  0 <= n < 2 ^ bits -> encode_word (abi_uint bits n) = Ret (be_bytes 32 n).
Proof.
  intros [H0 H1]. unfold encode_word.
  apply Z.leb_le in H0. apply Z.ltb_lt in H1. now rewrite H0, H1.
Qed.

Lemma encode_address a :
  List.length a = 20%nat -> encode_word (abi_address a) = Ret (zeros 12 ++ a).
Proof. intros H. unfold encode_word. now rewrite H. Qed.

Lemma checksum_address_length a b :
  to_checksum_address a = Ret b -> List.length b = 20%nat.
Proof.
  unfold to_checksum_address.
  destruct (unhex (strip_0x a)) as [x|e]; cbn [bind]; [|discriminate].
  destruct (List.length x =? 20)%nat eqn:E; [|discriminate].
  intros H. injection H as <-. now apply Nat.eqb_eq.
Qed.

Lemma to_bytes_32 n : 0 <= n < 2 ^ 256 -> to_bytes 32 n = Ret (be_bytes 32 n).
Proof.
  intros [H0 H1]. unfold to_bytes.
  replace (256 ^ Z.of_nat 32) with (2 ^ 256) by reflexivity.
  apply Z.leb_le in H0. apply Z.ltb_lt in H1. now rewrite H0, H1.
Qed.

Lemma Z_of_byte_of_Z z : Z_of_byte (byte_of_Z z) = z mod 256.
Proof.
  unfold Z_of_byte, byte_of_Z.
  assert (Hm : 0 <= z mod 256 < 256) by (apply Z.mod_pos_bound; lia).
  destruct (Byte.of_N (Z.to_N (z mod 256))) as [b|] eqn:E.
  - apply Strings.Byte.to_of_N in E. rewrite E. apply Z2N.id. lia.
  - apply Strings.Byte.of_N_None_iff in E. lia.
Qed.

Lemma from_bytes_acc b : forall acc,
  fold_left (fun a x => a * 256 + Z_of_byte x) b acc
  = acc * 256 ^ Z.of_nat (List.length b) + from_bytes b.
Proof.
  unfold from_bytes.
  induction b as [|x b IH]; intros acc; cbn [fold_left List.length].
  - cbn. lia.
  - rewrite IH, (IH (0 * 256 + Z_of_byte x)).
    rewrite Nat2Z.inj_succ, Z.pow_succ_r by lia. ring.
Qed.

(** Reading back the big-endian bytes of a number gives its residue. *)
Lemma from_bytes_be_bytes len n :
  from_bytes (be_bytes len n) = n mod 256 ^ Z.of_nat len.
Proof.
  induction len as [|k IH].
  - cbn. now rewrite Z.mod_1_r.
  - cbn [be_bytes]. unfold from_bytes. cbn [fold_left].
    rewrite from_bytes_acc, be_bytes_length, IH, Z_of_byte_of_Z.
    rewrite Nat2Z.inj_succ, Z.pow_succ_r by lia.
    assert (Hk : 0 < 256 ^ Z.of_nat k) by (apply Z.pow_pos_nonneg; lia).
    rewrite (Z.mul_comm 256), Z.rem_mul_r by lia. ring.
Qed.

Lemma from_bytes_be_bytes_32 n :
  0 <= n < 2 ^ 256 -> from_bytes (be_bytes 32 n) = n.
Proof.
  intros Hn. rewrite from_bytes_be_bytes.
  replace (256 ^ Z.of_nat 32) with (2 ^ 256) by reflexivity.
  now apply Z.mod_small.
Qed.

Lemma three_words (a b c : bytes) :
  List.length a = 32%nat -> List.length b = 32%nat ->
  firstn 32 (a ++ b ++ c) = a
  /\ firstn 32 (skipn 32 (a ++ b ++ c)) = b
  /\ skipn 64 (a ++ b ++ c) = c.
Proof.
  intros Ha Hb.
  assert (H1 : skipn 32 (a ++ b ++ c) = b ++ c).
  { rewrite <- Ha. rewrite skipn_app, skipn_all, Nat.sub_diag. reflexivity. }
  split; [|split].
  - rewrite <- Ha at 1. rewrite firstn_app, firstn_all, Nat.sub_diag.
    cbn [firstn]. apply app_nil_r.
  - rewrite H1. rewrite <- Hb at 1.
    rewrite firstn_app, firstn_all, Nat.sub_diag. cbn [firstn].
    apply app_nil_r.
  - change 64%nat with (32 + 32)%nat. rewrite <- skipn_skipn, H1.
    rewrite <- Hb. rewrite skipn_app, skipn_all, Nat.sub_diag. reflexivity.
Qed.

(** The contract's decoding of the Provider's three words gives back
    [(r, s, v)]. *)
Lemma decode_rsv_spec_rsv r s v :
  0 <= r < 2 ^ 256 -> 0 <= s < 2 ^ 256 -> 0 <= v < 2 ^ 256 ->
  decode_rsv (spec_rsv r s v) = Some (r, s, v).
Proof.
  intros Hr Hs Hv. unfold decode_rsv, spec_rsv.
  assert (Hlen : List.length (be_bytes 32 r ++ be_bytes 32 s ++ be_bytes 32 v)
                 = 96%nat)
    by (rewrite !length_app, !be_bytes_length; reflexivity).
  rewrite Hlen. cbn [Nat.eqb].
  destruct (three_words (be_bytes 32 r) (be_bytes 32 s) (be_bytes 32 v)
              (be_bytes_length _ _) (be_bytes_length _ _)) as [E1 [E2 E3]].
  rewrite E1, E2, E3.
  now rewrite !from_bytes_be_bytes_32.
Qed.

Lemma fromhex_hex_byte x rest :
  fromhex (String (hex_digit (Z_of_byte x / 16))
             (String (hex_digit (Z_of_byte x mod 16)) rest))
  = (tl <- fromhex rest ;; Ret (x :: tl)).
Proof. destruct x; reflexivity. Qed.

(** What [hex] writes, [bytes.fromhex] reads back. *)
Lemma fromhex_hex b : fromhex (hex b) = Ret b.
Proof.
  induction b as [|x b IH]; [reflexivity|].
  cbn [hex]. cbv zeta. now rewrite fromhex_hex_byte, IH.
Qed.

(** The Publisher gets the bytes the Provider encoded: the ["0x"] text
    of a signature goes through [prepare_signature] back to the three
    words. *)
Lemma prepare_signature_of_blob r s v secid :
  publisher.prepare_signature (JStr ("0x" ++ hex (spec_rsv r s v))) secid
  = Ret (spec_rsv r s v).
Proof. cbn [publisher.prepare_signature]. apply fromhex_hex. Qed.

Lemma adjust_v_range v :
  v = 0 \/ v = 1 \/ v = 27 \/ v = 28 -> adjust_v v = 27 \/ adjust_v v = 28.
Proof. intros [-> | [-> | [-> | ->]]]; cbv; auto. Qed.

Section WithLibs.
Context {libs : EthLibs}.
Hypothesis keccak_length : forall m, List.length (keccak m) = 32%nat.

Lemma domain_separator_spec cfg address :
  to_checksum_address (BOND_ORACLE_ADDRESS cfg) = Ret address ->
  0 <= CHAIN_ID cfg < 2 ^ 256 ->
  domain_separator cfg = Ret (spec_domain_separator (CHAIN_ID cfg) address).
Proof.
  intros Ha Hc. unfold domain_separator. rewrite Ha. cbn [bind encode].
  unfold domain_type_hash.
  rewrite !encode_bytes32 by apply keccak_length.
  rewrite (encode_uint _ _ Hc).
  rewrite (encode_address _ (checksum_address_length _ _ Ha)).
  cbn [bind]. now rewrite app_nil_r.
Qed.

Lemma struct_hash_spec secid price nonce deadline :
  0 <= price < 2 ^ 160 ->
  0 <= nonce < 2 ^ 256 ->
  0 <= deadline < 2 ^ 256 ->
  struct_hash secid price nonce deadline
  = Ret (spec_struct_hash secid price nonce deadline).
Proof.
  intros Hp Hn Hd. unfold struct_hash. cbn [bind encode].
  unfold price_update_type_hash.
  rewrite !encode_bytes32 by apply keccak_length.
  rewrite (encode_uint _ _ Hp), (encode_uint _ _ Hn), (encode_uint _ _ Hd).
  cbn [bind]. now rewrite app_nil_r.
Qed.

(** C7. Called with no nonce and no deadline, [create_signature] takes
    its nonce from [get_next_nonce], sets the deadline to the clock in
    whole seconds plus [SIGNATURE_EXPIRY_SECONDS], signs the EIP-712
    digest [keccak(0x19 || 0x01 || D || H)] of the BondOracle/1 domain
    and the [PriceUpdate] struct with the configured key, moves [v] into
    {27, 28} by adding 27 exactly when [v < 27], and returns ["0x"]
    followed by the hexadecimal text of [abi.encode(r, s, v)], with that
    nonce and that deadline. *)
Theorem create_signature_eip712 (cfg : Config) (self : NonceManager)
    (d : disk) (now : float) (secid : string) (price t : Z)
    (address key : bytes) (r s v : Z) :
  py_int now = Ret t ->
  to_checksum_address (BOND_ORACLE_ADDRESS cfg) = Ret address ->
  fromhex (get_private_key cfg) = Ret key ->
  0 <= CHAIN_ID cfg < 2 ^ 256 ->
  0 <= price < 2 ^ 160 ->
  let nonce := current_nonce self + 1 in
  let deadline := t + SIGNATURE_EXPIRY_SECONDS cfg in
  0 <= nonce < 2 ^ 256 ->
  0 <= deadline < 2 ^ 256 ->
  sign_msg_hash key
    (spec_digest (spec_domain_separator (CHAIN_ID cfg) address)
                 (spec_struct_hash secid price nonce deadline))
  = Ret (r, s, v) ->
  0 <= r < 2 ^ 256 ->
  0 <= s < 2 ^ 256 ->
  v = 0 \/ v = 1 \/ v = 27 \/ v = 28 ->
  create_signature cfg self d now secid price None None
  = (Ret (("0x" ++ hex (spec_rsv r s (adjust_v v)))%string, nonce, deadline),
     snd (fst (get_next_nonce self d)), snd (get_next_nonce self d))
  /\ fst (fst (get_next_nonce self d)) = nonce
  /\ (adjust_v v = 27 \/ adjust_v v = 28)
  /\ (v < 27 -> adjust_v v = v + 27)
  /\ (27 <= v -> adjust_v v = v).
Proof.
  intros Ht Ha Hk Hc Hp nonce deadline Hn Hd Hsig Hr Hs Hv.
  subst nonce deadline.
  set (nonce := current_nonce self + 1) in *.
  set (deadline := t + SIGNATURE_EXPIRY_SECONDS cfg) in *.
  pose proof (adjust_v_range v Hv) as Hadj.
  split; [|split; [reflexivity|split; [exact Hadj|split]]].
  - unfold create_signature, get_next_nonce.
    cbn [current_nonce set_nonce fst snd]. fold nonce.
    rewrite Ht. cbn [bind]. fold deadline.
    cbn beta iota.
    unfold sign_price_update.
    rewrite (domain_separator_spec cfg address Ha Hc).
    rewrite (struct_hash_spec secid price nonce deadline Hp Hn Hd).
    cbn [bind]. rewrite Hk. cbn [bind].
    change (keccak (([Byte.x19; Byte.x01]
                     ++ spec_domain_separator (CHAIN_ID cfg) address)
                    ++ spec_struct_hash secid price nonce deadline))
      with (spec_digest (spec_domain_separator (CHAIN_ID cfg) address)
                        (spec_struct_hash secid price nonce deadline)).
    rewrite Hsig. cbn [bind].
    rewrite (to_bytes_32 r Hr), (to_bytes_32 s Hs). cbn [bind encode].
    rewrite !encode_bytes32 by apply be_bytes_length.
    rewrite encode_uint
      by (destruct Hadj as [-> | ->]; (split; [discriminate|reflexivity])).
    cbn [bind]. unfold spec_rsv. now rewrite app_nil_r.
  - intros Hlt. unfold adjust_v. apply Z.ltb_lt in Hlt. now rewrite Hlt.
  - intros Hge. unfold adjust_v. apply Z.ltb_ge in Hge. now rewrite Hge.
Qed.

End WithLibs.

Lemma stand_in_keccak_length m :
  List.length (keccak (EthLibs := stand_in_libs) m) = 32%nat.
Proof. apply be_bytes_length. Qed.

(** One signature with the stand-in primitives, first nonce, clock 1747000000.5. *)
Lemma create_signature_eip712_witness :
  fst (fst (create_signature (libs := stand_in_libs) example_config
              {| nonce_file_path := "data/nonce.json"; current_nonce := 0 |}
              blank_disk 1747000000.5%float "SU26207RMFS9" 9712500000
              None None))
  = Ret ("0x00000000000000000000000000000000000000000000000000000000af0700430000000000000000000000000000000000000000000000000000000000000002000000000000000000000000000000000000000000000000000000000000001c",
         1, 1747000300).
Proof.
  pose proof (create_signature_eip712 (libs := stand_in_libs)
                stand_in_keccak_length example_config
                {| nonce_file_path := "data/nonce.json"; current_nonce := 0 |}
                blank_disk 1747000000.5%float "SU26207RMFS9" 9712500000
                1747000000
                (be_bytes 19 0 ++ [Byte.xa1])
                (be_bytes 31 0 ++ [Byte.x01])
                2936471619 2 1) as H.
  destruct H as [H _].
  - vm_compute; reflexivity.
  - vm_compute; reflexivity.
  - vm_compute; reflexivity.
  - vm_compute; split; [discriminate|reflexivity].
  - vm_compute; split; [discriminate|reflexivity].
  - vm_compute; split; [discriminate|reflexivity].
  - vm_compute; split; [discriminate|reflexivity].
  - vm_compute; reflexivity.
  - vm_compute; split; [discriminate|reflexivity].
  - vm_compute; split; [discriminate|reflexivity].
  - right; left; reflexivity.
  - rewrite H. vm_compute. reflexivity.
Defined.

End Signer.

(* ================================================================== *)
(** * The price cache *)

Module PriceCache.
Import Fs cache_manager.

(** C8, at the input where the code leaves it. A cache file three
    seconds old whose bytes are no text in the default encoding:
    [json.load] raises [UnicodeDecodeError], which
    [except (json.JSONDecodeError, IOError)] does not catch, so
    [get_cached_data] raises instead of returning [None]. *)
Theorem get_cached_data_raises_on_undecodable_file :
  get_cached_data
    {| ttl_seconds := 10;
       file := Some {| mtime := 1747000000%float; body := Undecodable |};
       writable := true |}
    1747000003%float
  = Raise UnicodeDecodeError.
Proof. vm_compute. reflexivity. Qed.

(** On every other state of the file the claim holds: the stored
    document comes back exactly when the file exists, parses and is not
    older than the time to live, and [None] comes back otherwise. *)
Lemma get_cached_data_fresh_or_none (self : CacheManager) (now : float) :
  (forall f, file self = Some f -> body f <> Undecodable) ->
  (forall j,
      get_cached_data self now = Ret (Some j)
      <-> exists f, file self = Some f
                    /\ body f = Document j
                    /\ float_gt_int (now - mtime f)%float (ttl_seconds self) = false)
  /\ ((forall j, get_cached_data self now <> Ret (Some j)) ->
      get_cached_data self now = Ret None).
Proof.
  intros Hdec. unfold get_cached_data.
  destruct (file self) as [f|] eqn:Hf.
  - specialize (Hdec f eq_refl).
    destruct (float_gt_int (now - mtime f)%float (ttl_seconds self)) eqn:Hage.
    + split.
      * intros j. split; [discriminate|].
        intros [f' [E [_ Hfresh]]]. injection E as <-. congruence.
      * reflexivity.
    + destruct (body f) as [| | |doc] eqn:Hb; cbn.
      * split; [|reflexivity].
        intros j. split; [discriminate|].
        intros [f' [E [Hdoc _]]]. injection E as <-. congruence.
      * contradiction.
      * split; [|reflexivity].
        intros j. split; [discriminate|].
        intros [f' [E [Hdoc _]]]. injection E as <-. congruence.
      * split.
        -- intros j. split.
           ++ intros E. exists f. repeat split; congruence.
           ++ intros [f' [E [Hdoc _]]]. injection E as <-. congruence.
        -- intros Hno. exfalso. exact (Hno doc eq_refl).
  - split; [|reflexivity].
    intros j. split; [discriminate|]. intros [f [E _]]. discriminate.
Qed.

End PriceCache.

(* ================================================================== *)
(** * The deviation gate and the publish cycle *)

Module PublishCycle.
Import Bytes publisher Spec.

(** C6, as the code has it. For a registered bond and an integer new
    price, [should_update_price] returns true exactly when the current
    price is 0, or the binary64 number obtained by rounding the quotient
    [|new - current| / current] and then rounding its product with 100
    is at least the threshold. *)
Theorem should_update_price_gate (cfg : Config) (secid : string)
    (new_price current : Z) :
  should_update_price cfg secid (JInt new_price) (Some current) = Ret true
  <-> current = 0
      \/ exists q,
           int_truediv (Z.abs (new_price - current)) current = Ret q
           /\ PrimFloat.leb (PRICE_CHANGE_THRESHOLD_PERCENT cfg) (q * 100)%float
              = true.
Proof.
  unfold should_update_price, price_change_percent.
  destruct (current =? 0) eqn:E.
  - apply Z.eqb_eq in E. split; auto.
  - apply Z.eqb_neq in E.
    destruct (int_truediv (Z.abs (new_price - current)) current) as [q|e];
      cbn [bind].
    + destruct (PrimFloat.leb (PRICE_CHANGE_THRESHOLD_PERCENT cfg) (q * 100)%float)
        eqn:Hle.
      * split; [|reflexivity]. intros _. right. exists q. auto.
      * split; [discriminate|].
        intros [H0 | [q' [Hq Hle']]]; [contradiction|].
        injection Hq as <-. congruence.
    + split; [discriminate|].
      intros [H0 | [q' [Hq _]]]; [contradiction|discriminate].
Qed.

(** C6 as stated fails. Current price 100000000, new price 129000000,
    threshold 29: the change is exactly 29 percent and
    [|new - current| * 100 >= 29 * current] holds, but 29000000 /
    100000000 rounds to the binary64 below 0.29 and its product with 100
    to 28.999999999999996, so the gate answers false. *)
Lemma gate_misses_exact_threshold :
  should_update_price {| PRICE_CHANGE_THRESHOLD_PERCENT := 29%float |}
    "SU26207RMFS9" (JInt 129000000) (Some 100000000) = Ret false
  /\ price_change_percent (JInt 129000000) 100000000
     = Ret 28.999999999999996%float
  /\ 100000000 <> 0
  /\ Z.abs (129000000 - 100000000) * 100 >= 29 * 100000000.
Proof.
  split; [vm_compute; reflexivity|].
  split; [vm_compute; reflexivity|].
  split; [discriminate|].
  vm_compute. discriminate.
Qed.

(** The fourth scenario of the specification: a change of half a
    percent under a threshold of one percent. *)
Example scenario_below_threshold :
  should_update_price one_percent "SU26207RMFS9" (JInt 10050000)
                      (Some 10000000)
  = Ret false.
Proof. vm_compute. reflexivity. Qed.

Lemma try_update_calls cfg now onchain secid price signature deadline nonce
    calls :
  try_update cfg now onchain secid price signature deadline nonce = Ret calls ->
  calls = []
  \/ exists t signature_bytes,
       py_int now = Ret t
       /\ prepare_signature signature secid = Ret signature_bytes
       /\ deadline_passed deadline t = Ret false
       /\ calls = [{| tx_secid := secid;
                      tx_price_uint := price;
                      tx_deadline := deadline;
                      tx_nonce := nonce;
                      tx_signature_bytes := signature_bytes |}].
Proof.
  unfold try_update.
  destruct onchain as [current|e]; cbn [bind]; [|discriminate].
  destruct (should_update_price cfg secid price current) as [[|]|e];
    cbn [bind]; [| intros E; injection E as <-; now left | discriminate].
  destruct (prepare_signature signature secid) as [sb|e]; cbn [bind];
    [|discriminate].
  destruct (py_int now) as [t|e]; cbn [bind]; [|discriminate].
  destruct (deadline_passed deadline t) as [[|]|e] eqn:Hd; cbn [bind];
    [intros E; injection E as <-; now left | | discriminate].
  intros E. injection E as <-. right. exists t, sb.
  repeat split; reflexivity || assumption.
Qed.

Lemma try_update_expired cfg now onchain secid price signature deadline nonce
    t :
  py_int now = Ret t ->
  deadline_passed deadline t = Ret true ->
  try_update cfg now onchain secid price signature deadline nonce = Ret []
  \/ exists e,
       try_update cfg now onchain secid price signature deadline nonce = Raise e.
Proof.
  intros Ht Hexp. unfold try_update.
  destruct onchain as [current|e]; cbn [bind]; [|right; eauto].
  destruct (should_update_price cfg secid price current) as [[|]|e];
    cbn [bind]; [| now left | right; eauto].
  destruct (prepare_signature signature secid) as [sb|e]; cbn [bind];
    [|right; eauto].
  rewrite Ht. cbn [bind]. rewrite Hexp. cbn [bind]. now left.
Qed.

Lemma prepare_signature_hex signature secid signature_bytes :
  prepare_signature signature secid = Ret signature_bytes ->
  exists sig, signature = JStr sig
              /\ fromhex (strip_0x sig) = Ret signature_bytes.
Proof.
  destruct signature; cbn; try discriminate. intros H. eauto.
Qed.

Lemma process_single_returns cfg now onchain secid data :
  exists calls,
    process_single_price_update cfg now onchain secid (JDict data) = Ret calls.
Proof.
  unfold process_single_price_update.
  destruct (get_field data "price_uint"); [|eauto].
  destruct (get_field data "signature"); [|eauto].
  destruct (get_field data "deadline"); [|eauto].
  destruct (get_field data "nonce"); [|eauto].
  destruct (try_update _ _ _ _ _ _ _ _); eauto.
Qed.

Lemma process_single_sent cfg now onchain secid data calls c :
  process_single_price_update cfg now onchain secid (JDict data) = Ret calls ->
  In c calls ->
  calls = [c] /\ sent_as_signed now secid data c.
Proof.
  unfold process_single_price_update.
  destruct (get_field data "price_uint") as [price|] eqn:Hp;
    [|intros E; injection E as <-; contradiction].
  destruct (get_field data "signature") as [signature|] eqn:Hs;
    [|intros E; injection E as <-; contradiction].
  destruct (get_field data "deadline") as [deadline|] eqn:Hd;
    [|intros E; injection E as <-; contradiction].
  destruct (get_field data "nonce") as [nonce|] eqn:Hn;
    [|intros E; injection E as <-; contradiction].
  destruct (try_update cfg now onchain secid price signature deadline nonce)
    as [calls'|e] eqn:Htry;
    [|intros E; injection E as <-; contradiction].
  intros E. injection E as <-. intros Hin.
  destruct (try_update_calls _ _ _ _ _ _ _ _ _ Htry)
    as [-> | [t [sb [Ht [Hprep [Hfresh ->]]]]]]; [contradiction|].
  destruct Hin as [<- | []].
  split; [reflexivity|].
  destruct (prepare_signature_hex _ _ _ Hprep) as [sig [-> Hhex]].
  exists t, sig. cbn [tx_secid tx_price_uint tx_deadline tx_nonce
                      tx_signature_bytes].
  repeat (split; [assumption || reflexivity|]).
  intros dl ->. cbn in Hfresh. injection Hfresh as Hfresh.
  now apply Z.leb_gt in Hfresh.
Qed.

Lemma process_single_expired cfg now onchain secid data t deadline :
  py_int now = Ret t ->
  get_field data "deadline" = Some deadline ->
  deadline_passed deadline t = Ret true ->
  process_single_price_update cfg now onchain secid (JDict data) = Ret [].
Proof.
  intros Ht Hd Hexp. unfold process_single_price_update. rewrite Hd.
  destruct (get_field data "price_uint") as [price|]; [|reflexivity].
  destruct (get_field data "signature") as [signature|]; [|reflexivity].
  destruct (get_field data "nonce") as [nonce|]; [|reflexivity].
  destruct (try_update_expired cfg now onchain secid price signature deadline
              nonce t Ht Hexp) as [-> | [e ->]]; reflexivity.
Qed.

Lemma update_all_sent cfg clock chain items c :
  In c (update_all cfg clock chain items) ->
  exists secid data,
    In (secid, JDict data) items
    /\ sent_as_signed (clock secid) secid data c.
Proof.
  induction items as [|[secid data] rest IH]; cbn [update_all].
  - contradiction.
  - destruct data as [| | | | | |d];
      try (cbn [process_single_price_update]; contradiction).
    destruct (process_single_price_update cfg (clock secid) (chain secid)
                secid (JDict d)) as [calls|e] eqn:Hp; [|contradiction].
    intros Hin. apply in_app_or in Hin. destruct Hin as [Hin|Hin].
    + destruct (process_single_sent _ _ _ _ _ _ _ Hp Hin) as [_ Hs].
      exists secid, d. split; [now left|exact Hs].
    + destruct (IH Hin) as [secid' [data' [Hin' Hs]]].
      exists secid', data'. split; [now right|exact Hs].
Qed.

(** C9. [process_single_price_update] always returns. When the
    deadline of the attestation is at or before the clock of the check,
    it hands nothing to the transaction service. Whatever it hands over
    is one call, for this instrument, whose price, deadline and nonce
    are the values of the attestation, whose signature bytes are the
    attestation's signature decoded from hexadecimal, and whose deadline
    is after the clock of the check. The same holds for every call of a
    whole update cycle. *)
Theorem expired_attestation_not_sent (cfg : Config) (now : float)
    (onchain : py (option Z)) (secid : string) (data : dict) (t : Z) :
  py_int now = Ret t ->
  (exists calls,
      process_single_price_update cfg now onchain secid (JDict data)
      = Ret calls)
  /\ (forall deadline,
        get_field data "deadline" = Some (JInt deadline) ->
        deadline <= t ->
        process_single_price_update cfg now onchain secid (JDict data)
        = Ret [])
  /\ (forall calls c,
        process_single_price_update cfg now onchain secid (JDict data)
        = Ret calls ->
        In c calls ->
        calls = [c] /\ sent_as_signed now secid data c)
  /\ (forall clock chain items c,
        In c (run_update_cycle cfg clock chain (Ret items)) ->
        exists secid' data',
          In (secid', JDict data') items
          /\ sent_as_signed (clock secid') secid' data' c).
Proof.
  intros Ht. split; [apply process_single_returns|].
  split; [|split].
  - intros deadline Hd Hle.
    apply (process_single_expired cfg now onchain secid data t (JInt deadline));
      [exact Ht|exact Hd|].
    cbn. f_equal. now apply Z.leb_le.
  - apply process_single_sent.
  - intros clock chain items c. apply update_all_sent.
Qed.

(** The fifth scenario of the specification and its neighbours: a deadline one second before the clock, at the clock, and 300 seconds after it. *)
Lemma expired_attestation_not_sent_witness :
  (* now - 1: skipped *)
  process_single_price_update one_percent 1747000000.25%float
    (Ret (Some 9000000000)) "SU26207RMFS9" (JDict (attestation 1746999999))
  = Ret []
  (* the deadline equal to the clock: skipped *)
  /\ process_single_price_update one_percent 1747000000.25%float
       (Ret (Some 9000000000)) "SU26207RMFS9" (JDict (attestation 1747000000))
     = Ret []
  (* a later deadline: sent as signed *)
  /\ process_single_price_update one_percent 1747000000.25%float
       (Ret (Some 9000000000)) "SU26207RMFS9" (JDict (attestation 1747000300))
     = Ret [{| tx_secid := "SU26207RMFS9";
               tx_price_uint := JInt 9712500000;
               tx_deadline := JInt 1747000300;
               tx_nonce := JInt 7;
               tx_signature_bytes := [Byte.x00; Byte.xff; Byte.x10] |}].
Proof.
  split; [|split].
  - destruct (expired_attestation_not_sent one_percent 1747000000.25%float
                (Ret (Some 9000000000)) "SU26207RMFS9"
                (attestation 1746999999) 1747000000)
      as [_ [H _]]; [vm_compute; reflexivity|].
    apply (H 1746999999); [reflexivity|lia].
  - destruct (expired_attestation_not_sent one_percent 1747000000.25%float
                (Ret (Some 9000000000)) "SU26207RMFS9"
                (attestation 1747000000) 1747000000)
      as [_ [H _]]; [vm_compute; reflexivity|].
    apply (H 1747000000); [reflexivity|lia].
  - vm_compute. reflexivity.
Defined.

End PublishCycle.

(* ================================================================== *)
(** * The HTTP front *)

Module HTTPFront.
Import Bytes Fs cache_manager nonce_manager provider_config signature_utils
       get_ofz_prices app Spec.

(** C2, at the input where the two endpoints part. Price 97.125 and
    scaling factor 100000000: the rule [round(p * 1000) * (S / 1000)]
    gives 9712500000, and so does [GET /api/prices/<secid>] on a cold
    cache; [GET /api/prices] rounds [p * 100] = 9712.5 to 9712 and
    serves 9712000000, and once it has filled the cache [GET
    /api/prices/<secid>] serves 9712000000 too. *)
Theorem endpoints_scale_differently :
  let one := get_price_for_secid (libs := stand_in_libs) example_config
               "SU26207RMFS9" false 1747000000%float (fun _ => feed_100) in
  let all := get_all_prices (libs := stand_in_libs) example_config
               false 1747000000%float (Ret [("SU26207RMFS9", "OFZ 26207")])
               (fun _ => feed_100) in
  let entry price_uint :=
    JDict [("price", JFloat 97.125%float);
           ("price_uint", JInt price_uint);
           ("is_current_market_data", JBool true);
           ("data_source", JStr "market_price")] in
  price_uint_one example_config 97.125%float = Ret 9712500000
  /\ price_uint_all example_config 97.125%float = Ret 9712000000
  /\ fst (one cold_world)
     = jsonify (JDict [("timestamp", JInt 1747000000);
                       ("price", entry 9712500000)])
  /\ fst (all cold_world)
     = jsonify (JDict [("timestamp", JInt 1747000000);
                       ("prices",
                        JDict [("SU26207RMFS9", entry 9712000000)])])
  /\ fst (one (snd (all cold_world)))
     = jsonify (JDict [("timestamp", JInt 1747000000);
                       ("price", entry 9712000000)]).
Proof. repeat split; vm_compute; reflexivity. Qed.

Lemma dict_get_without_signature info :
  dict_get (without_signature info) "signature" = None
  /\ forall k, k <> "signature" ->
               dict_get (without_signature info) k = dict_get info k.
Proof.
  unfold without_signature.
  induction info as [|[k0 v0] info [IH1 IH2]]; cbn [filter fst].
  - split; reflexivity.
  - destruct (String.eqb k0 "signature") eqn:E; cbn [negb].
    + apply String.eqb_eq in E. subst k0. split; [exact IH1|].
      intros k Hk. cbn [dict_get].
      destruct (String.eqb "signature" k) eqn:E2.
      * apply String.eqb_eq in E2. congruence.
      * now apply IH2.
    + split.
      * cbn [dict_get]. now rewrite E.
      * intros k Hk. cbn [dict_get].
        destruct (String.eqb k0 k); [reflexivity|now apply IH2].
Qed.

Lemma without_signature_id info :
  dict_mem info "signature" = false -> without_signature info = info.
Proof.
  unfold dict_mem, without_signature.
  induction info as [|[k0 v0] info IH]; cbn [filter dict_get fst].
  - reflexivity.
  - destruct (String.eqb k0 "signature"); [discriminate|].
    cbn [negb]. intros H. now rewrite IH.
Qed.

Lemma filtered_prices_typed entries :
  filtered_prices (typed_items entries)
  = Ret (typed_items
           (map (fun e => (fst e, without_signature (snd e))) entries)).
Proof.
  induction entries as [|[secid info] rest IH]; cbn.
  - reflexivity.
  - unfold typed_items in IH. now rewrite IH.
Qed.

Lemma truthy_dict snapshot k v :
  dict_get snapshot k = Some v -> truthy (JDict snapshot) = true.
Proof. destruct snapshot; [discriminate|reflexivity]. Qed.

Section Views.
Context {libs : EthLibs}.
Variable cfg : Config.

(** A cache hit on [GET /api/prices/<secid>]: the entry of the cached
    snapshot goes out, as it is under [?sign] and without its
    [signature] key otherwise; nothing is fetched, signed or stored. *)
Lemma one_price_cache_hit secid with_signature now feeds w snapshot ts items
    entry :
  get_cached_data (cache w) now = Ret (Some (JDict snapshot)) ->
  dict_get snapshot "timestamp" = Some ts ->
  dict_get snapshot "prices" = Some (JDict items) ->
  dict_get items secid = Some entry ->
  (with_signature = true \/ exists info, entry = JDict info) ->
  get_price_for_secid cfg secid with_signature now feeds w
  = (jsonify
       (JDict [("timestamp", ts);
               ("price",
                if with_signature then entry
                else match entry with
                     | JDict info => JDict (without_signature info)
                     | _ => entry
                     end)]), w).
Proof.
  intros Hc Hts Hp He Hty. unfold get_price_for_secid. rewrite Hc.
  unfold cached_entry, cached_truthy. rewrite (truthy_dict _ _ _ Hts).
  cbn [as_dict bind]. rewrite Hp. cbn [py_in py_item bind].
  unfold dict_mem. rewrite He. cbn [bind].
  unfold one_price_cached.
  destruct with_signature.
  - cbn [bind]. unfold dict_item. rewrite Hts. reflexivity.
  - destruct Hty as [Hty | [info ->]]; [discriminate|].
    cbn [py_in as_dict bind].
    destruct (dict_mem info "signature") eqn:Hm; cbn [as_dict bind];
      unfold dict_item; rewrite Hts; cbn [bind]; [reflexivity|].
    now rewrite (without_signature_id _ Hm).
Qed.

(** C3, as the code has it. On a cache hit without [?sign], [GET
    /api/prices] returns the timestamp of the snapshot and its entries
    in their order, each without its [signature] key and with every
    other key, [nonce] and [deadline] among them, as stored; [GET
    /api/prices/<secid>] returns the timestamp and the one entry, made
    the same way. Nothing is written or signed. *)
Theorem unsigned_answers_drop_signature_key (now : float)
    (ofz_list : py (list (string * string))) (feeds : string -> feed)
    (w : world) (snapshot : dict) (ts : json)
    (entries : list (string * dict)) :
  get_cached_data (cache w) now = Ret (Some (JDict snapshot)) ->
  dict_get snapshot "timestamp" = Some ts ->
  dict_get snapshot "prices" = Some (JDict (typed_items entries)) ->
  entries <> [] ->
  get_all_prices cfg false now ofz_list feeds w
  = (jsonify
       (JDict [("timestamp", ts);
               ("prices",
                JDict (typed_items
                         (map (fun e => (fst e, without_signature (snd e)))
                              entries)))]), w)
  /\ (forall secid info,
        dict_get entries secid = Some info ->
        get_price_for_secid cfg secid false now feeds w
        = (jsonify (JDict [("timestamp", ts);
                           ("price", JDict (without_signature info))]), w))
  /\ (forall info,
        dict_get (without_signature info) "signature" = None
        /\ forall k, k <> "signature" ->
                     dict_get (without_signature info) k = dict_get info k).
Proof.
  intros Hc Hts Hp Hne. split; [|split].
  - unfold get_all_prices. rewrite Hc.
    unfold cached_truthy. rewrite (truthy_dict _ _ _ Hts).
    unfold all_prices_cached. cbn [as_dict bind]. rewrite Hp.
    assert (Ht : truthy (JDict (typed_items entries)) = true)
      by (destruct entries; [contradiction|reflexivity]).
    rewrite Ht. unfold dict_item. rewrite Hts. cbn [as_dict bind].
    rewrite filtered_prices_typed. reflexivity.
  - intros secid info Hin.
    assert (He : dict_get (typed_items entries) secid = Some (JDict info)).
    { clear -Hin. induction entries as [|[k i] rest IH]; cbn in *;
        [discriminate|].
      destruct (String.eqb k secid); [now injection Hin as ->|auto]. }
    rewrite (one_price_cache_hit secid false now feeds w snapshot ts
               (typed_items entries) (JDict info) Hc Hts Hp He);
      [reflexivity|right; eauto].
  - apply dict_get_without_signature.
Qed.

Lemma dict_set_Forall {V} (P : string * V -> Prop) d k v :
  Forall P d -> P (k, v) -> Forall P (dict_set d k v).
Proof.
  intros Hd Hv. induction Hd as [|[k' v'] d Hx Hd IH]; cbn [dict_set].
  - constructor; [exact Hv|constructor].
  - destruct (String.eqb k' k) eqn:E.
    + apply String.eqb_eq in E. subst k'. constructor; assumption.
    + constructor; assumption.
Qed.

Lemma dict_get_Forall {V} (P : string * V -> Prop) d k v :
  Forall P d -> dict_get d k = Some v -> exists k', P (k', v).
Proof.
  intros Hd. induction Hd as [|[k' v'] d Hx Hd IH]; cbn [dict_get].
  - discriminate.
  - destruct (String.eqb k' k); [|exact IH].
    intros E. injection E as <-. eauto.
Qed.

Lemma base_info_unsigned p price_uint is_current :
  unsigned (base_info p price_uint is_current).
Proof. repeat split. Qed.

Lemma fresh_info_unsigned scale now secid p is_current nm d :
  fresh_info cfg scale false now secid p is_current nm d
  = (match scale p with
     | Ret price_uint => Ret (base_info p price_uint is_current)
     | Raise e => Raise e
     end, nm, d).
Proof. unfold fresh_info. destruct (scale p); reflexivity. Qed.

(** Without [?sign] the loop over the instruments signs nothing: the
    nonce manager and the disk come back as they went in, and every
    entry it adds is without attestation. *)
Lemma price_rows_unsigned now feeds rows : forall prices nm d,
  all_unsigned prices ->
  exists r,
    price_rows cfg false now feeds rows prices nm d = (r, nm, d)
    /\ forall prices', r = Ret prices' -> all_unsigned prices'.
Proof.
  induction rows as [|[secid shortname] rest IH]; intros prices nm d Hall;
    cbn [price_rows].
  - eexists. split; [reflexivity|]. intros prices' E. now injection E as <-.
  - destruct (get_price (feeds secid)) as [[price is_current]|e].
    + destruct (has_price price) as [p|]; [|apply IH, Hall].
      rewrite fresh_info_unsigned.
      destruct (price_uint_all cfg p) as [price_uint|e].
      * apply IH. apply dict_set_Forall; [exact Hall|].
        eexists. split; [reflexivity|apply base_info_unsigned].
      * eexists. split; [reflexivity|discriminate].
    + eexists. split; [reflexivity|discriminate].
Qed.

(** C10. On a cache hit, [GET /api/prices/<secid>?sign=true] answers
    with the timestamp of the cached snapshot and the cached entry as it
    is, and leaves the cache, the nonce manager and the disk untouched:
    nothing is signed. In particular, when the cache was filled by a
    [GET /api/prices] without [?sign], a [?sign=true] request for one of
    its instruments made before the cache expires is answered with an
    entry that has no [signature], no [nonce] and no [deadline]. *)
Theorem signed_request_served_from_cache (secid : string) (now : float)
    (feeds : string -> feed) (w : world) :
  (forall snapshot ts items entry,
      get_cached_data (cache w) now = Ret (Some (JDict snapshot)) ->
      dict_get snapshot "timestamp" = Some ts ->
      dict_get snapshot "prices" = Some (JDict items) ->
      dict_get items secid = Some entry ->
      get_price_for_secid cfg secid true now feeds w
      = (jsonify (JDict [("timestamp", ts); ("price", entry)]), w))
  /\ (forall now0 ofz_list feeds0 w0 r ts prices entry,
        get_cached_data (cache w0) now0 = Ret None ->
        writable (cache w0) = true ->
        get_all_prices cfg false now0 ofz_list feeds0 w0 = (r, w) ->
        status r = 200 ->
        float_gt_int (now - now0)%float (ttl_seconds (cache w0)) = false ->
        body r = JDict [("timestamp", ts); ("prices", JDict prices)] ->
        dict_get prices secid = Some entry ->
        get_price_for_secid cfg secid true now feeds w
        = (jsonify (JDict [("timestamp", ts); ("price", entry)]), w)
        /\ exists info, entry = JDict info /\ unsigned info).
Proof.
  assert (Hhit : forall snapshot ts items entry,
      get_cached_data (cache w) now = Ret (Some (JDict snapshot)) ->
      dict_get snapshot "timestamp" = Some ts ->
      dict_get snapshot "prices" = Some (JDict items) ->
      dict_get items secid = Some entry ->
      get_price_for_secid cfg secid true now feeds w
      = (jsonify (JDict [("timestamp", ts); ("price", entry)]), w)).
  { intros snapshot ts items entry Hc Hts Hp He.
    rewrite (one_price_cache_hit secid true now feeds w snapshot ts items
               entry Hc Hts Hp He); [reflexivity|now left]. }
  split; [exact Hhit|].
  intros now0 ofz_list feeds0 w0 r ts prices entry Hmiss Hw Hall Hok Hage
         Hbody Hentry.
  unfold get_all_prices in Hall. rewrite Hmiss in Hall.
  cbn [cached_truthy] in Hall.
  destruct ofz_list as [rows|e];
    [|injection Hall as <- _; discriminate].
  destruct (py_int now0) as [timestamp|e];
    [|injection Hall as <- _; discriminate].
  destruct (price_rows_unsigned now0 feeds0 rows [] (nonces w0) (fs w0))
    as [r0 [Hrows Hun]]; [constructor|].
  rewrite Hrows in Hall.
  destruct r0 as [prices0|e]; [|injection Hall as <- _; discriminate].
  unfold cache_data in Hall. rewrite Hw in Hall.
  injection Hall as <- <-.
  cbn [body jsonify] in Hbody. injection Hbody as <- <-.
  specialize (Hun prices0 eq_refl).
  split.
  - apply (Hhit [("timestamp", JInt timestamp); ("prices", JDict prices0)]
                 (JInt timestamp) prices0 entry);
      [|reflexivity|reflexivity|exact Hentry].
    unfold get_cached_data. cbn [cache file mtime body ttl_seconds].
    rewrite Hage. reflexivity.
  - destruct (dict_get_Forall _ _ _ _ Hun Hentry) as [k' [info [E Hu]]].
    cbn [snd] in E. eauto.
Qed.

End Views.

(** An unsigned [GET /api/prices] on a cold Provider, then a signed request for the one instrument nine and a half seconds later. *)
Lemma signed_request_served_from_cache_witness :
  let first := get_all_prices (libs := stand_in_libs) example_config false
                 1747000000%float (Ret [("SU26207RMFS9", "OFZ 26207")])
                 (fun _ => feed_100) cold_world in
  get_price_for_secid (libs := stand_in_libs) example_config "SU26207RMFS9"
    true 1747000009.5%float (fun _ => feed_100) (snd first)
  = (jsonify (JDict [("timestamp", JInt 1747000000);
                     ("price", JDict [("price", JFloat 97.125%float);
                                      ("price_uint", JInt 9712000000);
                                      ("is_current_market_data", JBool true);
                                      ("data_source", JStr "market_price")])]),
     snd first).
Proof.
  intros first.
  destruct (signed_request_served_from_cache (libs := stand_in_libs)
              example_config "SU26207RMFS9" 1747000009.5%float
              (fun _ => feed_100) (snd first)) as [_ H].
  apply (H 1747000000%float (Ret [("SU26207RMFS9", "OFZ 26207")])
           (fun _ => feed_100) cold_world (fst first)
           (JInt 1747000000)
           [("SU26207RMFS9",
             JDict [("price", JFloat 97.125%float);
                    ("price_uint", JInt 9712000000);
                    ("is_current_market_data", JBool true);
                    ("data_source", JStr "market_price")])]).
  - reflexivity.
  - reflexivity.
  - vm_compute. reflexivity.
  - reflexivity.
  - vm_compute. reflexivity.
  - vm_compute. reflexivity.
  - reflexivity.
Defined.

(** The second scenario of the specification, as the code answers it. *)
Lemma unsigned_answers_drop_signature_key_witness :
  get_all_prices (libs := stand_in_libs) example_config false
    1747000003%float (Ret []) (fun _ => feed_silent) warm_world
  = (jsonify
       (JDict [("timestamp", JInt 1747000000);
               ("prices",
                JDict [("SU26207",
                        JDict [("price", JFloat 97%float);
                               ("price_uint", JInt 97000000);
                               ("nonce", JInt 5);
                               ("deadline", JInt 2000000000)])])]),
     warm_world).
Proof.
  destruct (unsigned_answers_drop_signature_key (libs := stand_in_libs)
              example_config 1747000003%float (Ret []) (fun _ => feed_silent)
              warm_world
              [("timestamp", JInt 1747000000);
               ("prices",
                JDict [("SU26207",
                        JDict [("price", JFloat 97%float);
                               ("price_uint", JInt 97000000);
                               ("signature", JStr "0xabc");
                               ("nonce", JInt 5);
                               ("deadline", JInt 2000000000)])])]
              (JInt 1747000000)
              [("SU26207",
                [("price", JFloat 97%float);
                 ("price_uint", JInt 97000000);
                 ("signature", JStr "0xabc");
                 ("nonce", JInt 5);
                 ("deadline", JInt 2000000000)])]) as [H _].
  - vm_compute. reflexivity.
  - reflexivity.
  - reflexivity.
  - discriminate.
  - exact H.
Defined.

(** C3 as stated fails. The snapshot of the specification's second
    scenario is in the cache, three seconds old: the answers to [GET
    /api/prices] and to [GET /api/prices/SU26207] without [?sign] still
    carry [nonce] 5 and [deadline] 2000000000. *)
Lemma unsigned_answer_keeps_nonce_and_deadline :
  exists info,
    body (fst (get_all_prices (libs := stand_in_libs) example_config false
                 1747000003%float (Ret []) (fun _ => feed_silent) warm_world))
    = JDict [("timestamp", JInt 1747000000);
             ("prices", JDict [("SU26207", JDict info)])]
    /\ body (fst (get_price_for_secid (libs := stand_in_libs) example_config
                    "SU26207" false 1747000003%float (fun _ => feed_silent)
                    warm_world))
       = JDict [("timestamp", JInt 1747000000); ("price", JDict info)]
    /\ dict_get info "signature" = None
    /\ dict_get info "nonce" = Some (JInt 5)
    /\ dict_get info "deadline" = Some (JInt 2000000000).
Proof.
  eexists. split; [vm_compute; reflexivity|].
  split; [vm_compute; reflexivity|].
  repeat split.
Qed.

End HTTPFront.

(* ================================================================== *)
(** * The nonce file across restarts *)

Module NonceFile.
Import Fs nonce_manager Spec.

Lemma save_on_open_disk self d :
  refused d = [] ->
  let d' := _save_nonce self d in
  refused d' = []
  /\ dict_get (files d') (nonce_file_path self)
     = Some (Document (nonce_document (current_nonce self))).
Proof.
  intros Hr. unfold _save_nonce, open_w, is_refused. rewrite Hr.
  cbn [existsb]. unfold dump, put_file, log. cbn [refused files].
  split; [exact Hr|]. apply NonceStore.dict_get_set_same.
Qed.

Lemma take_nonces_open k : forall self d,
  refused d = [] ->
  exists self' d',
    take_nonces k self d
    = (count_from (current_nonce self + 1) k, self', d')
    /\ nonce_file_path self' = nonce_file_path self
    /\ current_nonce self' = current_nonce self + Z.of_nat k
    /\ refused d' = []
    /\ (dict_get (files d) (nonce_file_path self)
        = Some (Document (nonce_document (current_nonce self))) ->
        dict_get (files d') (nonce_file_path self)
        = Some (Document (nonce_document (current_nonce self')))).
Proof.
  induction k as [|k IH]; intros self d Hr.
  - exists self, d. cbn [take_nonces count_from].
    repeat split; [cbn; lia | exact Hr | auto].
  - cbn [take_nonces count_from]. unfold get_next_nonce.
    set (self1 := set_nonce self (current_nonce self + 1)).
    destruct (save_on_open_disk self1 d Hr) as [Hr1 Hf1].
    destruct (IH self1 (_save_nonce self1 d) Hr1)
      as [self' [d' [Ht [Hp [Hc [Hr' Hf']]]]]].
    cbn [current_nonce set_nonce self1] in *.
    rewrite Ht. exists self', d'.
    repeat split.
    + exact Hp.
    + rewrite Hc. lia.
    + exact Hr'.
    + intros _. apply Hf'. exact Hf1.
Qed.

Lemma init_on_open_disk path d :
  dirname path <> "" ->
  refused d = [] ->
  exists d0,
    __init__ path d
    = _load_nonce {| nonce_file_path := path; current_nonce := 0 |} d0
    /\ refused d0 = []
    /\ files d0 = files d.
Proof.
  intros Hdir Hr.
  exists (log d (sys_makedirs (dirname path))).
  split; [|split; [exact Hr|reflexivity]].
  apply NonceStore.init_reaches_load.
  - apply NonceStore.makedirs_ok; [exact Hdir|].
    unfold is_refused. now rewrite Hr.
  - now apply NonceStore.dirname_nonempty.
Qed.

(** X1. The counter survives restarts. A process started without a
    nonce file, on a disk that refuses nothing, hands out 1 .. k; the
    process started next on the disk it left hands out k + 1 .. k + j. *)
Theorem restart_resumes (path : string) (d : disk) (k j : nat) :
  dirname path <> "" ->
  refused d = [] ->
  dict_get (files d) path = None ->
  exists d1 d2,
    session path d k = Some (count_from 1 k, d1)
    /\ session path d1 j = Some (count_from (Z.of_nat k + 1) j, d2).
Proof.
  intros Hdir Hr Habs.
  set (self0 := {| nonce_file_path := path; current_nonce := 0 |}).
  (* first life *)
  destruct (init_on_open_disk path d Hdir Hr) as [d0 [Hinit [Hr0 Hf0]]].
  assert (Hload : _load_nonce self0 d0
                  = (Ret self0, _save_nonce self0 (log d0 (sys_exists path)))).
  { unfold _load_nonce, exists_, dict_mem. cbn [nonce_file_path self0].
    rewrite Hf0, Habs. reflexivity. }
  destruct (save_on_open_disk self0 (log d0 (sys_exists path)) Hr0)
    as [Hra Hfa].
  set (da := _save_nonce self0 (log d0 (sys_exists path))) in *.
  destruct (take_nonces_open k self0 da Hra)
    as [self1 [d1 [Ht1 [Hp1 [Hc1 [Hr1 Hf1]]]]]].
  specialize (Hf1 Hfa). cbn [nonce_file_path current_nonce self0] in *.
  (* second life *)
  destruct (init_on_open_disk path d1 Hdir Hr1) as [d1' [Hinit1 [Hr1' Hf1']]].
  assert (Hload1 : exists d1'',
             _load_nonce self0 d1' = (Ret (set_nonce self0 (Z.of_nat k)), d1'')
             /\ refused d1'' = []).
  { unfold _load_nonce, exists_, load, dict_mem.
    cbn [nonce_file_path self0 files log]. rewrite Hf1', Hf1, Hc1.
    eexists. split; [reflexivity|exact Hr1']. }
  destruct Hload1 as [d1'' [Hload1 Hr1'']].
  destruct (take_nonces_open j (set_nonce self0 (Z.of_nat k)) d1'' Hr1'')
    as [self2 [d2 [Ht2 _]]].
  cbn [current_nonce set_nonce] in Ht2.
  exists d1, d2. split.
  - unfold session. rewrite Hinit. fold self0. rewrite Hload, Ht1.
    reflexivity.
  - unfold session. rewrite Hinit1. fold self0. rewrite Hload1, Ht2.
    reflexivity.
Qed.

(** A first life of three nonces and a second of two, in [data/]. *)
Lemma restart_resumes_witness :
  exists d1 d2,
    session "data/nonce.json" blank_disk 3 = Some ([1; 2; 3], d1)
    /\ session "data/nonce.json" d1 2 = Some ([4; 5], d2).
Proof.
  apply (restart_resumes "data/nonce.json" blank_disk 3 2).
  - discriminate.
  - reflexivity.
  - reflexivity.
Defined.

Lemma save_refused self d :
  is_refused d (nonce_file_path self) = true ->
  _save_nonce self d = log d (sys_open (nonce_file_path self) "w").
Proof. intros Hr. unfold _save_nonce, open_w. now rewrite Hr. Qed.

Lemma take_nonces_refused k : forall self d,
  is_refused d (nonce_file_path self) = true ->
  exists self' d',
    take_nonces k self d
    = (count_from (current_nonce self + 1) k, self', d')
    /\ files d' = files d
    /\ refused d' = refused d.
Proof.
  induction k as [|k IH]; intros self d Hr.
  - exists self, d. repeat split.
  - cbn [take_nonces count_from]. unfold get_next_nonce.
    set (self1 := set_nonce self (current_nonce self + 1)).
    rewrite (save_refused self1 d Hr).
    destruct (IH self1 (log d (sys_open (nonce_file_path self1) "w")) Hr)
      as [self' [d' [Ht [Hf Hre]]]].
    cbn [current_nonce set_nonce self1] in Ht. rewrite Ht.
    exists self', d'. repeat split; assumption.
Qed.

(** X2. A nonce file that cannot be written. The process that finds
    [{"nonce": N}] in it still hands out N + 1 .. N + k, the file keeps
    what it held, and the process started next hands out the same
    numbers again. *)
Theorem read_only_nonce_file_repeats (path : string) (d : disk) (N : Z)
    (k : nat) :
  dirname path <> "" ->
  is_refused d (dirname path) = false ->
  is_refused d path = true ->
  dict_get (files d) path = Some (Document (nonce_document N)) ->
  exists d1 d2,
    session path d k = Some (count_from (N + 1) k, d1)
    /\ files d1 = files d
    /\ session path d1 k = Some (count_from (N + 1) k, d2).
Proof.
  intros Hdir Hrd Hrp Hf.
  assert (Hlife : forall dx,
            files dx = files d -> refused dx = refused d ->
            exists dy, session path dx k = Some (count_from (N + 1) k, dy)
                       /\ files dy = files d /\ refused dy = refused d).
  { intros dx Hfx Hrx.
    assert (Hrdx : is_refused dx (dirname path) = false)
      by (unfold is_refused in *; now rewrite Hrx).
    assert (Hfx' : dict_get (files dx) path = Some (Document (nonce_document N)))
      by now rewrite Hfx.
    destruct (NonceStore.init_present path dx _ Hdir Hrdx Hfx') as [dz Hinit].
    cbn in Hinit.
    assert (Hdz : files dz = files dx /\ refused dz = refused dx).
    { unfold __init__ in Hinit.
      destruct (String.eqb path ""); [discriminate|].
      unfold _ensure_dir_exists, makedirs in Hinit.
      cbn [nonce_file_path] in Hinit. rewrite Hrdx in Hinit.
      destruct (String.eqb (dirname path) ""); cbn [orb] in Hinit;
        [discriminate|].
      unfold _load_nonce, exists_, load, dict_mem in Hinit.
      cbn [nonce_file_path files log] in Hinit. rewrite Hfx' in Hinit.
      injection Hinit as <-. split; reflexivity. }
    destruct Hdz as [Hfz Hrz].
    destruct (take_nonces_refused k
                (set_nonce {| nonce_file_path := path; current_nonce := 0 |} N)
                dz) as [self' [dy [Ht [Hfy Hry]]]].
    { cbn [nonce_file_path set_nonce]. unfold is_refused in *.
      now rewrite Hrz, Hrx. }
    cbn [current_nonce set_nonce] in Ht.
    exists dy. split.
    - unfold session. rewrite Hinit, Ht. reflexivity.
    - split; congruence. }
  destruct (Hlife d eq_refl eq_refl) as [d1 [H1 [Hf1 Hr1]]].
  destruct (Hlife d1 Hf1 Hr1) as [d2 [H2 _]].
  exists d1, d2. auto.
Qed.

(** The file holds 7 and refuses writes: 8, 9 in one life, 8, 9 in the
    next. *)
Lemma read_only_nonce_file_repeats_witness :
  let d := {| files := [("data/nonce.json", Document (nonce_document 7))];
              refused := ["data/nonce.json"];
              trace := [] |} in
  exists d1 d2,
    session "data/nonce.json" d 2 = Some ([8; 9], d1)
    /\ files d1 = files d
    /\ session "data/nonce.json" d1 2 = Some ([8; 9], d2).
Proof.
  intros d.
  apply (read_only_nonce_file_repeats "data/nonce.json" d 7 2).
  - discriminate.
  - reflexivity.
  - reflexivity.
  - reflexivity.
Defined.

Lemma head_of_no_slash p : has_slash p = false -> head_of p = "".
Proof.
  induction p as [|c r IH]; cbn [has_slash head_of]; [reflexivity|].
  intros H. apply orb_false_iff in H. destruct H as [Hc Hr].
  now rewrite Hr, Hc.
Qed.

Lemma head_of_slash p : has_slash p = true -> head_of p <> "".
Proof.
  destruct p as [|c r]; cbn [has_slash head_of]; [discriminate|].
  intros H. destruct (has_slash r); [discriminate|].
  rewrite orb_false_r in H. rewrite H. discriminate.
Qed.

Lemma rstrip_slash_empty s : rstrip_slash s = "" -> all_slashes s = true.
Proof.
  induction s as [|c r IH]; cbn [rstrip_slash all_slashes]; [reflexivity|].
  destruct (rstrip_slash r) as [|c' r'] eqn:E; [|discriminate].
  destruct (is_slash c); [|discriminate].
  intros _. now rewrite IH.
Qed.

(** A path has a directory part exactly when it has a slash. *)
Lemma dirname_empty_iff p : dirname p = "" <-> has_slash p = false.
Proof.
  split.
  - intros H. destruct (has_slash p) eqn:Hs; [|reflexivity].
    exfalso. apply head_of_slash in Hs. unfold dirname in H.
    destruct (all_slashes (head_of p)) eqn:Ha; [contradiction|].
    apply rstrip_slash_empty in H. congruence.
  - intros H. unfold dirname. now rewrite (head_of_no_slash p H).
Qed.

(** X3. A nonce file named without a directory. When the configured
    path has no slash, [NonceManager(path)] raises [OSError] out of
    [os.makedirs("")] and nothing is read or written; with a slash, and
    a directory the disk does not refuse, the constructor goes on to
    the file. *)
Theorem bare_file_name_raises (path : string) (d : disk) :
  path <> "" ->
  (has_slash path = false ->
   __init__ path d = (Raise IOError, log d (sys_makedirs "")))
  /\ (has_slash path = true ->
      is_refused d (dirname path) = false ->
      __init__ path d
      = _load_nonce {| nonce_file_path := path; current_nonce := 0 |}
                    (log d (sys_makedirs (dirname path)))).
Proof.
  intros Hp. split.
  - intros Hs. apply dirname_empty_iff in Hs. unfold __init__.
    destruct (String.eqb path "") eqn:E;
      [apply String.eqb_eq in E; contradiction|].
    unfold _ensure_dir_exists, makedirs. cbn [nonce_file_path].
    rewrite Hs. reflexivity.
  - intros Hs Hr. apply NonceStore.init_reaches_load; [|exact Hp].
    apply NonceStore.makedirs_ok; [|exact Hr].
    intros E. apply dirname_empty_iff in E. congruence.
Qed.

(** [nonce.json] alone raises; [data/nonce.json] does not. *)
Lemma bare_file_name_raises_witness :
  __init__ "nonce.json" blank_disk
  = (Raise IOError, log blank_disk (sys_makedirs ""))
  /\ fst (__init__ "data/nonce.json" blank_disk)
     = Ret {| nonce_file_path := "data/nonce.json"; current_nonce := 0 |}.
Proof.
  split.
  - apply (bare_file_name_raises "nonce.json" blank_disk);
      [discriminate|reflexivity].
  - destruct (bare_file_name_raises "data/nonce.json" blank_disk) as [_ H];
      [discriminate|].
    rewrite H by reflexivity. reflexivity.
Defined.

(** X4. What the constructor makes of the file it finds. An object
    without a [nonce] key starts the counter at 0, as an unparsable
    file does; a document that is no object, and a file whose bytes are
    no text, make the constructor raise, since its [except] clause
    names [JSONDecodeError] and [IOError] only. *)
Theorem nonce_file_edge_cases (path : string) (d : disk) (c : contents) :
  dirname path <> "" ->
  is_refused d (dirname path) = false ->
  dict_get (files d) path = Some c ->
  let self0 := {| nonce_file_path := path; current_nonce := 0 |} in
  (forall o, c = Document (JDict o) -> dict_get o "nonce" = None ->
             fst (__init__ path d) = Ret self0)
  /\ (forall o n, c = Document (JDict o) -> dict_get o "nonce" = Some (JInt n) ->
               fst (__init__ path d) = Ret (set_nonce self0 n))
  /\ (forall j, c = Document j -> (forall o, j <> JDict o) ->
               fst (__init__ path d) = Raise AttributeError)
  /\ (c = Undecodable -> fst (__init__ path d) = Raise UnicodeDecodeError).
Proof.
  intros Hdir Hr Hc self0.
  destruct (NonceStore.init_present path d c Hdir Hr Hc) as [d' Hinit].
  rewrite Hinit. cbn [fst]. fold self0.
  split; [|split; [|split]].
  - intros o -> Ho. cbn. now rewrite Ho.
  - intros o n -> Ho. cbn. now rewrite Ho.
  - intros j -> Hj. destruct j; try reflexivity.
    exfalso. now apply (Hj d0).
  - intros ->. reflexivity.
Qed.

(** An empty object, a counter of 12, an array, undecodable bytes. *)
Lemma nonce_file_edge_cases_witness :
  let on c := fst (__init__ "data/nonce.json"
                     {| files := [("data/nonce.json", c)];
                        refused := []; trace := [] |}) in
  let self0 := {| nonce_file_path := "data/nonce.json"; current_nonce := 0 |} in
  on (Document (JDict [])) = Ret self0
  /\ on (Document (JDict [("nonce", JInt 12)])) = Ret (set_nonce self0 12)
  /\ on (Document (JList [JInt 12])) = Raise AttributeError
  /\ on Undecodable = Raise UnicodeDecodeError.
Proof.
  intros on self0. unfold on.
  split; [|split; [|split]].
  - destruct (nonce_file_edge_cases "data/nonce.json"
                {| files := [("data/nonce.json", Document (JDict []))];
                   refused := []; trace := [] |} (Document (JDict [])))
      as [H _]; [discriminate|reflexivity|reflexivity|].
    apply (H []); reflexivity.
  - destruct (nonce_file_edge_cases "data/nonce.json"
                {| files := [("data/nonce.json",
                              Document (JDict [("nonce", JInt 12)]))];
                   refused := []; trace := [] |}
                (Document (JDict [("nonce", JInt 12)])))
      as [_ [H _]]; [discriminate|reflexivity|reflexivity|].
    apply (H [("nonce", JInt 12)]); reflexivity.
  - destruct (nonce_file_edge_cases "data/nonce.json"
                {| files := [("data/nonce.json", Document (JList [JInt 12]))];
                   refused := []; trace := [] |} (Document (JList [JInt 12])))
      as [_ [_ [H _]]]; [discriminate|reflexivity|reflexivity|].
    apply (H (JList [JInt 12])); [reflexivity|discriminate].
  - destruct (nonce_file_edge_cases "data/nonce.json"
                {| files := [("data/nonce.json", Undecodable)];
                   refused := []; trace := [] |} Undecodable)
      as [_ [_ [_ H]]]; [discriminate|reflexivity|reflexivity|].
    apply H. reflexivity.
Defined.

End NonceFile.

(* ================================================================== *)
(** * The price cache file *)

Module CacheFile.
Import Fs cache_manager.

(** X5. Put, get, clear. A snapshot that [cache_data] could write comes
    back from [get_cached_data] as it went in until it is older than
    the time to live, and [None] comes back after that and after a
    [clear_cache] that went through; a write or a removal that the disk
    refuses is reported by [False] and leaves the cache as it was. *)
Theorem cache_put_get_clear (self : CacheManager) (now now' : float)
    (data : json) :
  (writable self = true ->
   let self1 := snd (cache_data self now data) in
   fst (cache_data self now data) = true
   /\ (float_gt_int (now' - now)%float (ttl_seconds self) = false ->
       get_cached_data self1 now' = Ret (Some data))
   /\ (float_gt_int (now' - now)%float (ttl_seconds self) = true ->
       get_cached_data self1 now' = Ret None)
   /\ fst (clear_cache self1 true) = true
   /\ get_cached_data (snd (clear_cache self1 true)) now' = Ret None
   /\ clear_cache self1 false = (false, self1))
  /\ (writable self = false -> cache_data self now data = (false, self))
  /\ (file self = None -> forall removable,
        clear_cache self removable = (true, self)).
Proof.
  split; [|split].
  - intros Hw self1. subst self1. unfold cache_data. rewrite Hw.
    cbn [fst snd]. unfold get_cached_data, clear_cache.
    cbn [file mtime body ttl_seconds].
    repeat split.
    + intros Hage. now rewrite Hage.
    + intros Hage. now rewrite Hage.
  - intros Hw. unfold cache_data. now rewrite Hw.
  - intros Hf removable. unfold clear_cache. now rewrite Hf.
Qed.

(** A snapshot written at 1747000000, read three and eleven seconds
    later under a time to live of ten. *)
Lemma cache_put_get_clear_witness :
  let self := {| ttl_seconds := 10; file := None; writable := true |} in
  let self1 := snd (cache_data self 1747000000%float (JDict [("timestamp", JInt 1747000000)])) in
  get_cached_data self1 1747000003%float
  = Ret (Some (JDict [("timestamp", JInt 1747000000)]))
  /\ get_cached_data self1 1747000011%float = Ret None.
Proof.
  intros self self1.
  destruct (cache_put_get_clear self 1747000000%float 1747000003%float
              (JDict [("timestamp", JInt 1747000000)])) as [H _].
  destruct (cache_put_get_clear self 1747000000%float 1747000011%float
              (JDict [("timestamp", JInt 1747000000)])) as [H' _].
  destruct (H eq_refl) as [_ [Hfresh _]].
  destruct (H' eq_refl) as [_ [_ [Hold _]]].
  split; [apply Hfresh | apply Hold]; vm_compute; reflexivity.
Defined.


End CacheFile.

(* ================================================================== *)
(** * Attestations from the signer to the publisher *)

Module Attestation.
Import Bytes Fs nonce_manager provider_config signature_utils Spec.

Lemma to_bytes_inv n x :
  to_bytes 32 n = Ret x -> x = be_bytes 32 n /\ 0 <= n < 2 ^ 256.
Proof.
  unfold to_bytes.
  replace (256 ^ Z.of_nat 32) with (2 ^ 256) by reflexivity.
  destruct (0 <=? n) eqn:H0; destruct (n <? 2 ^ 256) eqn:H1;
    cbn [andb]; try discriminate.
  intros E. injection E as <-.
  apply Z.leb_le in H0. apply Z.ltb_lt in H1. auto.
Qed.

Lemma encode_rsv_inv a b v x :
  List.length a = 32%nat -> List.length b = 32%nat ->
  encode [abi_bytes32 a; abi_bytes32 b; abi_uint 8 v] = Ret x ->
  x = a ++ b ++ be_bytes 32 v /\ 0 <= v < 2 ^ 8.
Proof.
  intros Ha Hb. cbn [encode].
  rewrite (Signer.encode_bytes32 a Ha), (Signer.encode_bytes32 b Hb).
  cbn [bind]. unfold encode_word.
  destruct (0 <=? v) eqn:H0; destruct (v <? 2 ^ 8) eqn:H1;
    cbn [andb bind]; try discriminate.
  intros E. rewrite app_nil_r in E.
  assert (Hx : x = a ++ b ++ be_bytes 32 v) by congruence.
  apply Z.leb_le in H0. apply Z.ltb_lt in H1. auto.
Qed.

Section WithLibs.
Context {libs : EthLibs}.

(** X7. What comes back from [create_signature] is what the Publisher
    reads. Whenever [create_signature] returns, its signature text goes
    through the Publisher's [prepare_signature] to 96 bytes: the
    big-endian 32-byte words of the [r] and [s] that the signing
    library returned and of [v] moved by 27 when it was below 27, each
    number within its word. *)
Theorem attestation_reaches_publisher (cfg : Config) (self : NonceManager)
    (d : disk) (now : float) (secid : string) (price : Z)
    (nonce deadline : option Z) (sig : string) (n dl : Z)
    (self1 : NonceManager) (d1 : disk) :
  create_signature cfg self d now secid price nonce deadline
  = (Ret (sig, n, dl), self1, d1) ->
  exists key M r s v,
    sign_msg_hash key M = Ret (r, s, v)
    /\ publisher.prepare_signature (JStr sig) secid
       = Ret (spec_rsv r s (adjust_v v))
    /\ List.length (spec_rsv r s (adjust_v v)) = 96%nat
    /\ 0 <= r < 2 ^ 256
    /\ 0 <= s < 2 ^ 256
    /\ 0 <= adjust_v v < 2 ^ 8.
Proof.
  unfold create_signature.
  destruct (match nonce with
            | Some n0 => (n0, self, d)
            | None => get_next_nonce self d
            end) as [[n0 self0] d0].
  intros E. injection E as E _ _.
  destruct (match deadline with
            | Some t => Ret t
            | None => t <- py_int now;; Ret (t + SIGNATURE_EXPIRY_SECONDS cfg)
            end) as [dl0|e]; cbn [bind] in E; [|discriminate].
  unfold sign_price_update in E.
  destruct (domain_separator cfg) as [D|e]; cbn [bind] in E; [|discriminate].
  destruct (struct_hash secid price n0 dl0) as [H|e]; cbn [bind] in E;
    [|discriminate].
  destruct (fromhex (get_private_key cfg)) as [key|e]; cbn [bind] in E;
    [|discriminate].
  destruct (sign_msg_hash key (keccak (([Byte.x19; Byte.x01] ++ D) ++ H)))
    as [[[r s] v]|e] eqn:Hsig; cbn [bind] in E; [|discriminate].
  destruct (to_bytes 32 r) as [rb|e] eqn:Hr; cbn [bind] in E; [|discriminate].
  destruct (to_bytes 32 s) as [sb|e] eqn:Hs; cbn [bind] in E; [|discriminate].
  destruct (to_bytes_inv _ _ Hr) as [-> Hrr].
  destruct (to_bytes_inv _ _ Hs) as [-> Hsr].
  destruct (encode [abi_bytes32 (be_bytes 32 r); abi_bytes32 (be_bytes 32 s);
                    abi_uint 8 (adjust_v v)]) as [x|e] eqn:Henc;
    cbn [bind] in E; [|discriminate].
  destruct (encode_rsv_inv _ _ _ _ (Signer.be_bytes_length _ _)
              (Signer.be_bytes_length _ _) Henc) as [-> Hv].
  injection E as <- _ _.
  exists key, (keccak (([Byte.x19; Byte.x01] ++ D) ++ H)), r, s, v.
  split; [exact Hsig|].
  split; [apply Signer.prepare_signature_of_blob|].
  split; [|auto].
  unfold spec_rsv. rewrite !length_app, !Signer.be_bytes_length. reflexivity.
Qed.

(** X8. A signature that fails still spends its nonce. With a price
    outside [uint160], [create_signature] called without a nonce raises,
    and the counter has moved on by one and been written. *)
Theorem failed_signing_spends_nonce (cfg : Config) (self : NonceManager)
    (d : disk) (now : float) (secid : string) (price : Z) :
  price < 0 \/ 2 ^ 160 <= price ->
  exists e,
    create_signature cfg self d now secid price None None
    = (Raise e, set_nonce self (current_nonce self + 1),
       _save_nonce (set_nonce self (current_nonce self + 1)) d).
Proof.
  intros Hprice. unfold create_signature, get_next_nonce.
  cbn [current_nonce set_nonce].
  assert (Hstruct : forall nn dd, exists e,
             struct_hash secid price nn dd = Raise e).
  { intros nn dd. unfold struct_hash. cbn [encode].
    destruct (encode_word (abi_bytes32 price_update_type_hash));
      cbn [bind]; [|eauto].
    destruct (encode_word (abi_bytes32 (keccak (utf8 secid))));
      cbn [bind]; [|eauto].
    assert (Hw : encode_word (abi_uint 160 price) = Raise EncodingError).
    { unfold encode_word.
      destruct (0 <=? price) eqn:H0; [|reflexivity].
      destruct (price <? 2 ^ 160) eqn:H1; [|reflexivity].
      apply Z.leb_le in H0. apply Z.ltb_lt in H1. lia. }
    rewrite Hw. cbn [bind]. eauto. }
  destruct (py_int now) as [t|e]; cbn [bind]; [|eauto].
  unfold sign_price_update.
  destruct (domain_separator cfg) as [D|e]; cbn [bind]; [|eauto].
  destruct (Hstruct (current_nonce self + 1) (t + SIGNATURE_EXPIRY_SECONDS cfg))
    as [e He].
  rewrite He. cbn [bind]. eauto.
Qed.

End WithLibs.

(** The first signature of a price of [2 ^ 200]: refused by the
    encoder, nonce 1 gone. *)
Lemma failed_signing_spends_nonce_witness :
  exists e,
    create_signature (libs := stand_in_libs) example_config
      {| nonce_file_path := "data/nonce.json"; current_nonce := 0 |}
      blank_disk 1747000000%float "SU26207RMFS9" (2 ^ 200) None None
    = (Raise e,
       {| nonce_file_path := "data/nonce.json"; current_nonce := 1 |},
       _save_nonce {| nonce_file_path := "data/nonce.json";
                      current_nonce := 1 |} blank_disk).
Proof.
  apply (failed_signing_spends_nonce (libs := stand_in_libs) example_config
           {| nonce_file_path := "data/nonce.json"; current_nonce := 0 |}
           blank_disk 1747000000%float "SU26207RMFS9" (2 ^ 200)).
  right. vm_compute. discriminate.
Defined.

(** One returned signature, read by the Publisher. *)
Lemma attestation_reaches_publisher_witness :
  exists key M r s v,
    sign_msg_hash (EthLibs := stand_in_libs) key M = Ret (r, s, v)
    /\ publisher.prepare_signature
         (JStr "0x00000000000000000000000000000000000000000000000000000000af0700430000000000000000000000000000000000000000000000000000000000000002000000000000000000000000000000000000000000000000000000000000001c")
         "SU26207RMFS9"
       = Ret (spec_rsv r s (adjust_v v))
    /\ List.length (spec_rsv r s (adjust_v v)) = 96%nat
    /\ 0 <= r < 2 ^ 256
    /\ 0 <= s < 2 ^ 256
    /\ 0 <= adjust_v v < 2 ^ 8.
Proof.
  apply (attestation_reaches_publisher (libs := stand_in_libs) example_config
           {| nonce_file_path := "data/nonce.json"; current_nonce := 0 |}
           blank_disk 1747000000.5%float "SU26207RMFS9" 9712500000
           None None _ 1 1747000300
           {| nonce_file_path := "data/nonce.json"; current_nonce := 1 |}
           (_save_nonce {| nonce_file_path := "data/nonce.json";
                           current_nonce := 1 |} blank_disk)).
  vm_compute. reflexivity.
Defined.

End Attestation.

(* ================================================================== *)
(** * Requests: what they change and how they fail *)

Module Requests.
Import Bytes Fs cache_manager nonce_manager provider_config signature_utils
       get_ofz_prices app Spec.

Section Views.
Context {libs : EthLibs}.
Variable cfg : Config.

Lemma fresh_info_cache scale with_signature now secid p is_current nm d :
  forall r nm1 d1,
    fresh_info cfg scale with_signature now secid p is_current nm d
    = (r, nm1, d1) ->
    with_signature = false -> nm1 = nm /\ d1 = d.
Proof.
  intros r nm1 d1 E ->. rewrite HTTPFront.fresh_info_unsigned in E.
  injection E as _ <- <-. auto.
Qed.

(** X9. Requests without [?sign] sign nothing. Whatever the cache, the
    exchange and the outcome, [GET /api/prices] without [?sign] leaves
    the nonce manager and its disk as they were, and [GET
    /api/prices/<secid>] without [?sign] leaves the whole Provider as
    it was. *)
Theorem unsigned_requests_sign_nothing (now : float)
    (ofz_list : py (list (string * string))) (feeds : string -> feed)
    (w : world) (secid : string) :
  nonces (snd (get_all_prices cfg false now ofz_list feeds w)) = nonces w
  /\ fs (snd (get_all_prices cfg false now ofz_list feeds w)) = fs w
  /\ snd (get_price_for_secid cfg secid false now feeds w) = w.
Proof.
  assert (Hall : nonces (snd (get_all_prices cfg false now ofz_list feeds w))
                 = nonces w
                 /\ fs (snd (get_all_prices cfg false now ofz_list feeds w))
                    = fs w).
  { unfold get_all_prices.
    destruct (get_cached_data (cache w) now) as [cached|e]; [|auto].
    destruct (cached_truthy cached) as [cached_data|].
    - destruct (all_prices_cached false cached_data); auto.
    - destruct ofz_list as [rows|e]; [|auto].
      destruct (py_int now) as [timestamp|e]; [|auto].
      destruct (HTTPFront.price_rows_unsigned cfg now feeds rows []
                  (nonces w) (fs w)) as [r [Hrows _]]; [constructor|].
      rewrite Hrows. destruct r as [prices|e]; [|auto].
      destruct (cache_data (cache w) now _). auto. }
  destruct Hall as [Hn Hf]. split; [exact Hn|]. split; [exact Hf|].
  unfold get_price_for_secid.
  destruct (get_cached_data (cache w) now) as [cached|e]; [|reflexivity].
  destruct (cached_entry cached secid) as [[[dd info]|]|e]; [| |reflexivity].
  - destruct (one_price_cached false dd info); reflexivity.
  - destruct (get_price (feeds secid)) as [[price is_current]|e];
      [|reflexivity].
    destruct (has_price price) as [p|]; [|reflexivity].
    rewrite HTTPFront.fresh_info_unsigned.
    destruct (price_uint_one cfg p); [|destruct w; reflexivity].
    destruct (py_int now); destruct w; reflexivity.
Qed.

(** X10. The single-entry endpoint never fills the cache. Whatever the
    request and its outcome, [GET /api/prices/<secid>] leaves the price
    cache as it was: fresh prices it resolves are served and not
    stored. *)
Theorem single_entry_never_caches (secid : string) (with_signature : bool)
    (now : float) (feeds : string -> feed) (w : world) :
  cache (snd (get_price_for_secid cfg secid with_signature now feeds w))
  = cache w.
Proof.
  unfold get_price_for_secid.
  destruct (get_cached_data (cache w) now) as [cached|e]; [|reflexivity].
  destruct (cached_entry cached secid) as [[[dd info]|]|e]; [| |reflexivity].
  - destruct (one_price_cached with_signature dd info); reflexivity.
  - destruct (get_price (feeds secid)) as [[price is_current]|e];
      [|reflexivity].
    destruct (has_price price) as [p|]; [|reflexivity].
    destruct (fresh_info cfg (price_uint_one cfg) with_signature now secid p
                is_current (nonces w) (fs w)) as [[r nm1] d1].
    destruct r; [|reflexivity].
    destruct (py_int now); reflexivity.
Qed.

Lemma price_rows_raising with_signature now feeds rows secid name e :
  In (secid, name) rows ->
  get_price (feeds secid) = Raise e ->
  forall prices nm d,
  exists e' nm' d',
    price_rows cfg with_signature now feeds rows prices nm d
    = (Raise e', nm', d').
Proof.
  intros Hin Hraise.
  induction rows as [|[secid0 name0] rest IH]; [contradiction|].
  intros prices nm d. cbn [price_rows].
  destruct (get_price (feeds secid0)) as [[price is_current]|e0] eqn:Hg;
    [|eauto].
  assert (Hrest : In (secid, name) rest).
  { destruct Hin as [E|Hin]; [|exact Hin].
    injection E as -> _. congruence. }
  destruct (has_price price) as [p|]; [|apply IH, Hrest].
  destruct (fresh_info cfg (price_uint_all cfg) with_signature now secid0 p
              is_current nm d) as [[r nm1] d1].
  destruct r; [apply IH, Hrest|eauto].
Qed.

(** X11. One instrument that cannot be resolved fails the whole
    snapshot. On a cache miss, when the resolver raises for one listed
    instrument (an instrument without a market-data row raises
    [IndexError]), [GET /api/prices] answers 500 and stores nothing,
    whatever the other instruments gave. *)
Theorem one_failing_instrument_fails_snapshot (with_signature : bool)
    (now : float) (rows : list (string * string)) (feeds : string -> feed)
    (w : world) (secid name : string) (e : exn) :
  get_cached_data (cache w) now = Ret None ->
  In (secid, name) rows ->
  get_price (feeds secid) = Raise e ->
  status (fst (get_all_prices cfg with_signature now (Ret rows) feeds w)) = 500
  /\ cache (snd (get_all_prices cfg with_signature now (Ret rows) feeds w))
     = cache w
  /\ (md_data (fd_marketdata (feeds secid)) = [] -> e = IndexError).
Proof.
  intros Hmiss Hin Hraise. unfold get_all_prices. rewrite Hmiss.
  cbn [cached_truthy].
  split; [|split].
  - destruct (py_int now); [|reflexivity].
    destruct (price_rows_raising with_signature now feeds rows secid name e
                Hin Hraise [] (nonces w) (fs w)) as [e' [nm' [d' ->]]].
    reflexivity.
  - destruct (py_int now); [|reflexivity].
    destruct (price_rows_raising with_signature now feeds rows secid name e
                Hin Hraise [] (nonces w) (fs w)) as [e' [nm' [d' ->]]].
    reflexivity.
  - intros Hempty. unfold get_price, get_price_detailed, market_prices in Hraise.
    rewrite Hempty in Hraise. cbn in Hraise. congruence.
Qed.

(** X12. What [GET /api/prices/<secid>] answers on a cache miss. The
    answer is 404 exactly when the resolver returns and has no price or
    a price of zero; when the resolver raises, as it does with
    [IndexError] for an instrument without a market-data row, the
    answer is 500 with the text of the exception, and the Provider is
    as it was. *)
Theorem single_entry_miss_statuses (secid : string) (with_signature : bool)
    (now : float) (feeds : string -> feed) (w : world) :
  get_cached_data (cache w) now = Ret None ->
  let r := get_price_for_secid cfg secid with_signature now feeds w in
  (status (fst r) = 404 <->
   exists p c, get_price (feeds secid) = Ret (p, c) /\ has_price p = None)
  /\ (forall e, get_price (feeds secid) = Raise e ->
                r = (error_response e, w))
  /\ (md_data (fd_marketdata (feeds secid)) = [] ->
      r = (error_response IndexError, w)).
Proof.
  intros Hmiss r.
  assert (Hr : r = match get_price (feeds secid) with
                   | Raise e => (error_response e, w)
                   | Ret (price, is_current) =>
                       match has_price price with
                       | None =>
                           ({| status := 404;
                               body := JDict [("error",
                                               JStr (no_price_message secid))] |},
                            w)
                       | Some p =>
                           let '(r0, nm1, d1) :=
                             fresh_info cfg (price_uint_one cfg) with_signature
                               now secid p is_current (nonces w) (fs w) in
                           let w1 := {| cache := cache w; nonces := nm1;
                                        fs := d1 |} in
                           match r0 with
                           | Raise e => (error_response e, w1)
                           | Ret info =>
                               match py_int now with
                               | Raise e => (error_response e, w1)
                               | Ret timestamp =>
                                   (jsonify
                                      (JDict [("timestamp", JInt timestamp);
                                              ("price", JDict info)]), w1)
                               end
                           end
                       end
                   end).
  { subst r. unfold get_price_for_secid. rewrite Hmiss. reflexivity. }
  split; [|split].
  - rewrite Hr.
    destruct (get_price (feeds secid)) as [[price is_current]|e].
    + destruct (has_price price) as [p|] eqn:Hp.
      * split.
        -- destruct (fresh_info cfg (price_uint_one cfg) with_signature now
                       secid p is_current (nonces w) (fs w)) as [[r0 nm1] d1].
           destruct r0; [destruct (py_int now)|]; cbn; discriminate.
        -- intros [p' [c' [E Hn]]]. injection E as <- <-. congruence.
      * split; [|reflexivity]. intros _. eauto.
    + split; [cbn; discriminate|]. intros [p' [c' [E _]]]. discriminate.
  - intros e He. rewrite Hr, He. reflexivity.
  - intros Hempty. rewrite Hr.
    unfold get_price, get_price_detailed, market_prices.
    rewrite Hempty. reflexivity.
Qed.

Lemma price_rows_signed_nonces now feeds rows : forall prices nm d prices' nm' d',
  price_rows cfg true now feeds rows prices nm d = (Ret prices', nm', d') ->
  current_nonce nm'
  = current_nonce nm + Z.of_nat (List.length (filter (priced feeds) rows)).
Proof.
  induction rows as [|[secid name] rest IH]; intros prices nm d prices' nm' d';
    cbn [price_rows filter].
  - intros E. injection E as _ <- _. cbn. lia.
  - unfold priced at 1. cbn [fst].
    destruct (get_price (feeds secid)) as [[price is_current]|e];
      [|discriminate].
    destruct (has_price price) as [p|]; [|apply IH].
    unfold fresh_info.
    destruct (price_uint_all cfg p) as [price_uint|e]; [|discriminate].
    pose proof (NonceStore.create_signature_takes_next cfg nm d now secid
                  price_uint) as Hn.
    destruct (create_signature cfg nm d now secid price_uint None None)
      as [[r nm1] d1].
    destruct Hn as [Hc _].
    destruct r as [[[sig n] dl]|e]; [|discriminate].
    intros E. apply IH in E. rewrite E, Hc.
    cbn [List.length]. lia.
Qed.

(** X13. A signed snapshot spends one nonce for each entry it makes. On
    a cache miss, a [GET /api/prices] with [?sign] that answers 200 has
    moved the nonce counter on by the number of listed rows whose price
    the resolver returned and that is not zero. *)
Theorem signed_snapshot_spends_one_nonce_per_price (now : float)
    (rows : list (string * string)) (feeds : string -> feed) (w : world) :
  get_cached_data (cache w) now = Ret None ->
  status (fst (get_all_prices cfg true now (Ret rows) feeds w)) = 200 ->
  current_nonce (nonces (snd (get_all_prices cfg true now (Ret rows) feeds w)))
  = current_nonce (nonces w)
    + Z.of_nat (List.length (filter (priced feeds) rows)).
Proof.
  intros Hmiss. unfold get_all_prices. rewrite Hmiss. cbn [cached_truthy].
  destruct (py_int now) as [timestamp|e]; [|discriminate].
  destruct (price_rows cfg true now feeds rows [] (nonces w) (fs w))
    as [[r nm1] d1] eqn:Hrows.
  destruct r as [prices|e]; [|discriminate].
  intros _. destruct (cache_data (cache w) now _). cbn [snd nonces].
  exact (price_rows_signed_nonces now feeds rows _ _ _ _ _ _ Hrows).
Qed.

(** X14. A signed whole-snapshot request served from the cache. When a
    [GET /api/prices] without [?sign] has filled the cache, a [GET
    /api/prices] with [?sign] made before the cache expires gets the
    same answer, unsigned entries and all, and signs and stores
    nothing. *)
Theorem signed_snapshot_served_from_cache (now0 now : float)
    (ofz_list ofz_list' : py (list (string * string)))
    (feeds feeds' : string -> feed) (w0 w : world) (r : response) :
  get_cached_data (cache w0) now0 = Ret None ->
  writable (cache w0) = true ->
  get_all_prices cfg false now0 ofz_list feeds w0 = (r, w) ->
  status r = 200 ->
  float_gt_int (now - now0)%float (ttl_seconds (cache w0)) = false ->
  get_all_prices cfg true now ofz_list' feeds' w = (r, w).
Proof.
  intros Hmiss Hw Hall Hok Hage.
  unfold get_all_prices in Hall. rewrite Hmiss in Hall.
  cbn [cached_truthy] in Hall.
  destruct ofz_list as [rows|e]; [|injection Hall as <- _; discriminate].
  destruct (py_int now0) as [timestamp|e];
    [|injection Hall as <- _; discriminate].
  destruct (price_rows cfg false now0 feeds rows [] (nonces w0) (fs w0))
    as [[r0 nm1] d1].
  destruct r0 as [prices|e]; [|injection Hall as <- _; discriminate].
  unfold cache_data in Hall. rewrite Hw in Hall. injection Hall as <- <-.
  unfold get_all_prices, get_cached_data.
  cbn [cache file mtime body ttl_seconds]. rewrite Hage. reflexivity.
Qed.

End Views.

(** Two listed instruments with a price, signed from a cold start. *)
Lemma signed_snapshot_spends_one_nonce_per_price_witness :
  current_nonce
    (nonces (snd (get_all_prices (libs := stand_in_libs) example_config true
                    1747000000%float
                    (Ret [("SU26207RMFS9", "OFZ 26207");
                          ("SU26238RMFS4", "OFZ 26238")])
                    (fun _ => feed_100) cold_world)))
  = 2.
Proof.
  rewrite (signed_snapshot_spends_one_nonce_per_price (libs := stand_in_libs)
             example_config 1747000000%float
             [("SU26207RMFS9", "OFZ 26207"); ("SU26238RMFS4", "OFZ 26238")]
             (fun _ => feed_100) cold_world).
  - reflexivity.
  - reflexivity.
  - vm_compute. reflexivity.
Defined.

(** An instrument without a market-data row among the listed ones. *)
Lemma one_failing_instrument_fails_snapshot_witness :
  let feeds := fun secid : string =>
                 if String.eqb secid "SU00000RMFS0"
                 then {| fd_marketdata := {| md_columns := ["LAST"];
                                             md_data := [] |};
                         fd_candles := [];
                         fd_initialPrice := None |}
                 else feed_100 in
  status (fst (get_all_prices (libs := stand_in_libs) example_config false
                 1747000000%float
                 (Ret [("SU26207RMFS9", "OFZ 26207");
                       ("SU00000RMFS0", "OFZ 00000")])
                 feeds cold_world)) = 500.
Proof.
  intros feeds.
  apply (one_failing_instrument_fails_snapshot (libs := stand_in_libs)
           example_config false 1747000000%float
           [("SU26207RMFS9", "OFZ 26207"); ("SU00000RMFS0", "OFZ 00000")]
           feeds cold_world "SU00000RMFS0" "OFZ 00000" IndexError).
  - reflexivity.
  - right; left; reflexivity.
  - reflexivity.
Defined.

(** An instrument quoted at zero: 404. *)
Lemma single_entry_miss_statuses_witness :
  status (fst (get_price_for_secid (libs := stand_in_libs) example_config
                 "SU26207RMFS9" false 1747000000%float
                 (fun _ => {| fd_marketdata :=
                                {| md_columns := ["LAST"];
                                   md_data := [[Some 0%float]] |};
                              fd_candles := [];
                              fd_initialPrice := None |})
                 cold_world)) = 404.
Proof.
  destruct (single_entry_miss_statuses (libs := stand_in_libs) example_config
              "SU26207RMFS9" false 1747000000%float
              (fun _ => {| fd_marketdata :=
                             {| md_columns := ["LAST"];
                                md_data := [[Some 0%float]] |};
                           fd_candles := [];
                           fd_initialPrice := None |})
              cold_world eq_refl) as [H _].
  apply H. exists (Some 0%float), true. split; vm_compute; reflexivity.
Defined.

(** The cold Provider answers an unsigned request, then a signed one
    nine and a half seconds later. *)
Lemma signed_snapshot_served_from_cache_witness :
  let first := get_all_prices (libs := stand_in_libs) example_config false
                 1747000000%float (Ret [("SU26207RMFS9", "OFZ 26207")])
                 (fun _ => feed_100) cold_world in
  get_all_prices (libs := stand_in_libs) example_config true
    1747000009.5%float (Ret []) (fun _ => feed_silent) (snd first)
  = first.
Proof.
  intros first.
  rewrite (surjective_pairing first) at 2.
  apply (signed_snapshot_served_from_cache (libs := stand_in_libs)
           example_config 1747000000%float 1747000009.5%float
           (Ret [("SU26207RMFS9", "OFZ 26207")]) (Ret [])
           (fun _ => feed_100) (fun _ => feed_silent) cold_world).
  - reflexivity.
  - reflexivity.
  - apply surjective_pairing.
  - vm_compute. reflexivity.
  - vm_compute. reflexivity.
Defined.

End Requests.

(* ================================================================== *)
(** * The registry of bonds, as the Provider sees it *)

Module Registry.
Import Bytes provider_config signature_utils app Spec.

Lemma registered_among_In lookup cands s :
  In s (registered_among lookup cands) <->
  In s cands /\ exists a, lookup s = Ret a /\ a <> zero_address.
Proof.
  induction cands as [|c rest IH]; cbn [registered_among In].
  - split; [contradiction|intros [[] _]].
  - destruct (lookup c) as [a|e] eqn:Hl.
    + destruct (String.eqb a zero_address) eqn:Hz.
      * apply String.eqb_eq in Hz. rewrite IH. split.
        -- intros [Hin Hex]. split; [right; exact Hin|exact Hex].
        -- intros [[<-|Hin] Hex]; [|split; assumption].
           destruct Hex as [a' [Ha' Hne]]. rewrite Hl in Ha'.
           injection Ha' as <-. contradiction.
      * apply String.eqb_neq in Hz. cbn [In]. rewrite IH. split.
        -- intros [<-|[Hin Hex]].
           ++ split; [now left|eauto].
           ++ split; [now right|exact Hex].
        -- intros [[<-|Hin] Hex]; [now left|right; split; assumption].
    + rewrite IH. split.
      * intros [Hin Hex]. split; [now right|exact Hex].
      * intros [[<-|Hin] Hex]; [|split; assumption].
        destruct Hex as [a' [Ha' _]]. congruence.
Qed.

Lemma list_mem_In s l : list_mem s l = true <-> In s l.
Proof.
  unfold list_mem. rewrite existsb_exists. split.
  - intros [x [Hin Heq]]. apply String.eqb_eq in Heq. now subst.
  - intros Hin. exists s. split; [exact Hin|apply String.eqb_refl].
Qed.

Lemma filter_nothing_registered (rows : list (string * string)) :
  filter (fun row => negb (true && negb (list_mem (fst row) []))) rows = [].
Proof. induction rows as [|row rest IH]; [reflexivity|exact IH]. Qed.

Lemma filter_unfiltered (rows : list (string * string)) l :
  filter (fun row => negb (false && negb (list_mem (fst row) l))) rows = rows.
Proof.
  induction rows as [|row rest IH]; [reflexivity|].
  cbn [filter]. rewrite IH. reflexivity.
Qed.

(** X15. A scan of the registry and its reuse. When the registry cache
    has expired and the node, the oracle address and the exchange
    answer, [get_registered_bonds] returns the listed instruments whose
    [secidToBond] call returned an address other than zero, a call that
    raises counting as not registered; a call made less than 300
    seconds after that scan returns the same list and keeps the cache,
    whatever the chain and the exchange say by then. *)
Theorem registry_scan_reused (cfg : Config) (t t' : Z) (chain chain' : node)
    (rows : list (string * string)) (ofz_list' : py (list (string * string)))
    (c : registered_bonds_cache) (n : Z) (a : bytes) :
  rb_ttl c <= t - rb_timestamp c ->
  is_connected chain = true ->
  chain_id chain = Ret n ->
  to_checksum_address (BOND_ORACLE_ADDRESS cfg) = Ret a ->
  t' - t < REGISTERED_BONDS_CACHE_TTL ->
  let first := get_registered_bonds cfg t chain (Ret rows) c in
  (forall s, In s (fst first) <->
             In s (map fst rows)
             /\ exists b, secidToBond chain s = Ret b /\ b <> zero_address)
  /\ get_registered_bonds cfg t' chain' ofz_list' (snd first) = first.
Proof.
  intros Hexp Hconn Hid Haddr Hfresh first.
  assert (Hfirst : first
                   = (registered_among (secidToBond chain) (map fst rows),
                      {| rb_timestamp := t;
                         rb_bonds := registered_among (secidToBond chain)
                                       (map fst rows);
                         rb_ttl := REGISTERED_BONDS_CACHE_TTL |})).
  { subst first. unfold get_registered_bonds.
    replace (t - rb_timestamp c <? rb_ttl c) with false
      by (symmetry; apply Z.ltb_ge; exact Hexp).
    rewrite Hconn, Hid, Haddr. reflexivity. }
  rewrite Hfirst. cbn [fst snd]. split.
  - intros s. apply registered_among_In.
  - unfold get_registered_bonds. cbn [rb_timestamp rb_ttl rb_bonds].
    replace (t' - t <? REGISTERED_BONDS_CACHE_TTL) with true
      by (symmetry; apply Z.ltb_lt; exact Hfresh).
    reflexivity.
Qed.

(** X16. A scan that fails looks like an empty registry. When the
    registry cache has expired and the node is not connected, or
    reading the chain id, the oracle address or the exchange listing
    raises, [GET /api/bonds?onchain=true] answers 200 with no bond and
    a count of 0, and the registry cache stays as it was. *)
Theorem failed_scan_lists_no_bonds (cfg : Config) (t : Z) (now : float)
    (chain : node) (rows : list (string * string))
    (ofz_list_scan : py (list (string * string)))
    (c : registered_bonds_cache) (timestamp : Z) :
  rb_ttl c <= t - rb_timestamp c ->
  is_connected chain = false
  \/ (exists e, chain_id chain = Raise e)
  \/ (exists e, to_checksum_address (BOND_ORACLE_ADDRESS cfg) = Raise e)
  \/ (exists e, ofz_list_scan = Raise e) ->
  py_int now = Ret timestamp ->
  get_all_bonds cfg true t now chain (Ret rows) ofz_list_scan c
  = ({| status := 200;
        body := JDict [("timestamp", JInt timestamp);
                       ("count", JInt 0);
                       ("bonds", JList []);
                       ("filtered_by_onchain", JBool true)] |},
     c).
Proof.
  intros Hexp Hfail Hnow.
  assert (Hscan : get_registered_bonds cfg t chain ofz_list_scan c = ([], c)).
  { unfold get_registered_bonds.
    replace (t - rb_timestamp c <? rb_ttl c) with false
      by (symmetry; apply Z.ltb_ge; exact Hexp).
    destruct (is_connected chain); [|reflexivity]. cbn [negb].
    destruct Hfail as [Hf|[[e Hf]|[[e Hf]|[e Hf]]]].
    - discriminate.
    - rewrite Hf. reflexivity.
    - rewrite Hf. destruct (chain_id chain); reflexivity.
    - rewrite Hf. destruct (chain_id chain); [|reflexivity].
      destruct (to_checksum_address _); reflexivity. }
  unfold get_all_bonds. rewrite Hscan, Hnow, filter_nothing_registered.
  reflexivity.
Qed.

(** X17. What [GET /api/bonds?onchain=true] lists after a scan. When
    the registry cache has expired and the scan goes through, the
    answer lists, in the order of the exchange, the rows whose
    instrument the scan saw and whose [secidToBond] call returned an
    address other than zero; the count is their number. *)
Theorem onchain_listing (cfg : Config) (t : Z) (now : float) (chain : node)
    (rows rows_scan : list (string * string)) (c : registered_bonds_cache)
    (n : Z) (a : bytes) (timestamp : Z) :
  rb_ttl c <= t - rb_timestamp c ->
  is_connected chain = true ->
  chain_id chain = Ret n ->
  to_checksum_address (BOND_ORACLE_ADDRESS cfg) = Ret a ->
  py_int now = Ret timestamp ->
  exists bonds,
    fst (get_all_bonds cfg true t now chain (Ret rows) (Ret rows_scan) c)
    = jsonify (JDict [("timestamp", JInt timestamp);
                      ("count", JInt (Z.of_nat (List.length bonds)));
                      ("bonds", JList (map bond_entry bonds));
                      ("filtered_by_onchain", JBool true)])
    /\ (forall row,
          In row bonds <->
          In row rows
          /\ In (fst row) (map fst rows_scan)
          /\ exists b, secidToBond chain (fst row) = Ret b
                       /\ b <> zero_address)
    /\ (exists keep, bonds = filter keep rows).
Proof.
  intros Hexp Hconn Hid Haddr Hnow.
  set (registered := registered_among (secidToBond chain) (map fst rows_scan)).
  set (keep := fun row : string * string =>
                 negb (true && negb (list_mem (fst row) registered))).
  exists (filter keep rows). split; [|split].
  - unfold get_all_bonds, get_registered_bonds.
    replace (t - rb_timestamp c <? rb_ttl c) with false
      by (symmetry; apply Z.ltb_ge; exact Hexp).
    rewrite Hconn, Hid, Haddr, Hnow. reflexivity.
  - intros row. rewrite filter_In. unfold keep. cbn [andb].
    rewrite Bool.negb_involutive, list_mem_In.
    unfold registered. rewrite registered_among_In. tauto.
  - exists keep. reflexivity.
Qed.

(** A node that knows one instrument, has none for another and fails on
    a third. *)
Lemma registry_scan_reused_witness :
  let chain :=
    {| is_connected := true;
       chain_id := Ret 31337;
       secidToBond := fun secid =>
         if String.eqb secid "SU26207RMFS9"
         then Ret "0x00000000000000000000000000000000000000a1"
         else if String.eqb secid "SU26238RMFS4"
         then Ret zero_address
         else Raise IOError |} in
  let down := {| is_connected := false;
                 chain_id := Raise IOError;
                 secidToBond := fun _ => Raise IOError |} in
  let first := get_registered_bonds example_config 1747000000 chain
                 (Ret [("SU26207RMFS9", "OFZ 26207");
                       ("SU26238RMFS4", "OFZ 26238");
                       ("SU26240RMFS0", "OFZ 26240")])
                 empty_bonds_cache in
  fst first = ["SU26207RMFS9"]
  /\ get_registered_bonds example_config 1747000299 down (Raise IOError)
       (snd first) = first.
Proof.
  intros chain down first. split; [vm_compute; reflexivity|].
  apply (registry_scan_reused example_config 1747000000 1747000299 chain down
           [("SU26207RMFS9", "OFZ 26207"); ("SU26238RMFS4", "OFZ 26238");
            ("SU26240RMFS0", "OFZ 26240")]
           (Raise IOError) empty_bonds_cache 31337
           (match to_checksum_address (BOND_ORACLE_ADDRESS example_config) with
            | Ret a => a
            | Raise _ => []
            end)).
  - vm_compute. discriminate.
  - reflexivity.
  - reflexivity.
  - vm_compute. reflexivity.
  - vm_compute. reflexivity.
Defined.

Lemma failed_scan_lists_no_bonds_witness :
  get_all_bonds example_config true 1747000000 1747000000.5%float
    {| is_connected := false;
       chain_id := Raise IOError;
       secidToBond := fun _ => Raise IOError |}
    (Ret [("SU26207RMFS9", "OFZ 26207")])
    (Ret [("SU26207RMFS9", "OFZ 26207")])
    empty_bonds_cache
  = ({| status := 200;
        body := JDict [("timestamp", JInt 1747000000);
                       ("count", JInt 0);
                       ("bonds", JList []);
                       ("filtered_by_onchain", JBool true)] |},
     empty_bonds_cache).
Proof.
  apply failed_scan_lists_no_bonds.
  - vm_compute. discriminate.
  - left. reflexivity.
  - vm_compute. reflexivity.
Defined.

Lemma onchain_listing_witness :
  exists bonds,
    fst (get_all_bonds example_config true 1747000000 1747000000.5%float
           {| is_connected := true;
              chain_id := Ret 31337;
              secidToBond := fun secid =>
                if String.eqb secid "SU26207RMFS9"
                then Ret "0x00000000000000000000000000000000000000a1"
                else Ret zero_address |}
           (Ret [("SU26207RMFS9", "OFZ 26207"); ("SU26238RMFS4", "OFZ 26238")])
           (Ret [("SU26207RMFS9", "OFZ 26207"); ("SU26238RMFS4", "OFZ 26238")])
           empty_bonds_cache)
    = jsonify (JDict [("timestamp", JInt 1747000000);
                      ("count", JInt (Z.of_nat (List.length bonds)));
                      ("bonds", JList (map bond_entry bonds));
                      ("filtered_by_onchain", JBool true)])
    /\ In ("SU26207RMFS9", "OFZ 26207") bonds
    /\ ~ In ("SU26238RMFS4", "OFZ 26238") bonds.
Proof.
  destruct (onchain_listing example_config 1747000000 1747000000.5%float
              {| is_connected := true;
                 chain_id := Ret 31337;
                 secidToBond := fun secid =>
                   if String.eqb secid "SU26207RMFS9"
                   then Ret "0x00000000000000000000000000000000000000a1"
                   else Ret zero_address |}
              [("SU26207RMFS9", "OFZ 26207"); ("SU26238RMFS4", "OFZ 26238")]
              [("SU26207RMFS9", "OFZ 26207"); ("SU26238RMFS4", "OFZ 26238")]
              empty_bonds_cache 31337
              (match to_checksum_address (BOND_ORACLE_ADDRESS example_config)
               with
               | Ret a => a
               | Raise _ => []
               end)
              1747000000)
    as [bonds [Hbody [Hin _]]].
  - vm_compute. discriminate.
  - reflexivity.
  - reflexivity.
  - vm_compute. reflexivity.
  - vm_compute. reflexivity.
  - exists bonds. split; [exact Hbody|]. split.
    + apply Hin. split; [now left|]. split; [now left|].
      eexists. split; [reflexivity|discriminate].
    + intros H. apply Hin in H. destruct H as [_ [_ [b [Hb Hne]]]].
      cbn in Hb. injection Hb as <-. now apply Hne.
Defined.

End Registry.

(* ================================================================== *)
(** * Discovery and the whole update cycle of the Publisher *)

Module Discovery.
Import Bytes publisher Spec.

Lemma bond_secids_entries (rows : list (string * string)) :
  bond_secids (map app.bond_entry rows) = Ret (map fst rows).
Proof.
  induction rows as [|row rest IH]; [reflexivity|].
  cbn [map bond_secids]. rewrite IH. reflexivity.
Qed.

Lemma registered_of_agrees lookup cands :
  (forall s, In s cands -> exists a, lookup s = Ret a) ->
  registered_of lookup cands = Ret (app.registered_among lookup cands).
Proof.
  induction cands as [|c rest IH]; intros Hall; [reflexivity|].
  cbn [registered_of app.registered_among].
  destruct (Hall c (or_introl eq_refl)) as [a ->]. cbn [bind].
  rewrite IH by (intros s Hs; apply Hall; now right). cbn [bind].
  unfold zero_address, app.zero_address.
  destruct (String.eqb a _); reflexivity.
Qed.

Lemma registered_of_raises lookup cands s e :
  In s cands -> lookup s = Raise e ->
  exists e', registered_of lookup cands = Raise e'.
Proof.
  induction cands as [|c rest IH]; [contradiction|].
  intros Hin Hraise. cbn [registered_of].
  destruct (lookup c) as [a|e0] eqn:Hl; cbn [bind]; [|eauto].
  destruct Hin as [->|Hin]; [congruence|].
  destruct (IH Hin Hraise) as [e' ->]. cbn [bind]. eauto.
Qed.

Lemma registered_of_In lookup cands : forall regs s,
  registered_of lookup cands = Ret regs ->
  In s regs ->
  In s cands /\ exists a, lookup s = Ret a /\ a <> zero_address.
Proof.
  induction cands as [|c rest IH]; intros regs s; cbn [registered_of].
  - intros E. injection E as <-. contradiction.
  - destruct (lookup c) as [a|e] eqn:Hl; cbn [bind]; [|discriminate].
    destruct (registered_of lookup rest) as [regs'|e]; cbn [bind];
      [|discriminate].
    destruct (String.eqb a zero_address) eqn:Hz; intros E; injection E as <-.
    + intros Hin. destruct (IH regs' s eq_refl Hin) as [H1 H2].
      split; [now right|exact H2].
    + intros [<-|Hin].
      * split; [now left|]. exists a. split; [exact Hl|].
        now apply String.eqb_neq.
      * destruct (IH regs' s eq_refl Hin) as [H1 H2].
        split; [now right|exact H2].
Qed.

Lemma registered_secid lookup bonds_response s :
  In s (get_all_registered_secids bonds_response lookup) ->
  exists a, lookup s = Ret a /\ a <> zero_address.
Proof.
  unfold get_all_registered_secids.
  destruct bonds_response as [bonds_data|e]; cbn [bind]; [|contradiction].
  destruct (candidate_secids bonds_data) as [cands|e]; cbn [bind];
    [|contradiction].
  destruct (registered_of lookup cands) as [regs|e] eqn:Hr; [|contradiction].
  intros Hin. exact (proj2 (registered_of_In _ _ _ _ Hr Hin)).
Qed.

Lemma dict_set_In (d : dict) k v k' v' :
  In (k, v) (dict_set d k' v') -> (k = k' /\ v = v') \/ In (k, v) d.
Proof.
  induction d as [|[k0 v0] rest IH]; cbn [dict_set].
  - intros [E|[]]. injection E as <- <-. now left.
  - destruct (String.eqb k0 k') eqn:Hk.
    + apply String.eqb_eq in Hk. subst k0.
      intros [E|Hin]; [injection E as <- <-; now left|right; now right].
    + intros [E|Hin]; [right; now left|].
      destruct (IH Hin) as [H|H]; [now left|right; now right].
Qed.

Lemma fetch_prices_In provider regs : forall prices out secid v,
  fetch_prices provider regs prices = Ret out ->
  In (secid, v) out ->
  In (secid, v) prices
  \/ (In secid regs
      /\ exists data info,
           provider secid = Ret (JDict data)
           /\ dict_get data "price" = Some (JDict info)
           /\ v = JDict info /\ info <> []).
Proof.
  induction regs as [|s rest IH]; intros prices out secid v;
    cbn [fetch_prices].
  - intros E. injection E as <-. now left.
  - assert (Hrest : forall prices',
               fetch_prices provider rest prices' = Ret out ->
               In (secid, v) out ->
               (In (secid, v) prices' -> In (secid, v) prices
                  \/ (In secid (s :: rest)
                      /\ exists data info,
                           provider secid = Ret (JDict data)
                           /\ dict_get data "price" = Some (JDict info)
                           /\ v = JDict info /\ info <> [])) ->
               In (secid, v) prices
               \/ (In secid (s :: rest)
                   /\ exists data info,
                        provider secid = Ret (JDict data)
                        /\ dict_get data "price" = Some (JDict info)
                        /\ v = JDict info /\ info <> [])).
    { intros prices' E Hin Hold.
      destruct (IH prices' out secid v E Hin) as [H|[H1 H2]].
      - now apply Hold.
      - right. split; [now right|exact H2]. }
    destruct (provider s) as [answer|e] eqn:Hp.
    + destruct answer as [| | | | | |data]; try discriminate.
      destruct (dict_get data "price") as [price_info|] eqn:Hg.
      * destruct (truthy price_info) eqn:Ht.
        -- destruct price_info as [| | | | | |info]; try discriminate.
           intros E Hin. apply (Hrest _ E Hin). intros Hset.
           destruct (dict_set_In _ _ _ _ _ Hset) as [[-> ->]|H]; [|now left].
           right. split; [now left|]. exists data, info.
           repeat split; try assumption.
           intros ->. discriminate.
        -- intros E Hin. apply (Hrest _ E Hin). now left.
      * cbn [truthy]. intros E Hin. apply (Hrest _ E Hin). now left.
    + destruct (fetch_handled e); [|discriminate].
      intros E Hin. apply (Hrest _ E Hin). now left.
Qed.

Lemma update_all_In cfg clock chain items c :
  In c (update_all cfg clock chain items) ->
  exists secid data calls,
    In (secid, JDict data) items
    /\ process_single_price_update cfg (clock secid) (chain secid) secid
         (JDict data) = Ret calls
    /\ In c calls.
Proof.
  induction items as [|[secid data] rest IH]; cbn [update_all].
  - contradiction.
  - destruct data as [| | | | | |d];
      try (cbn [process_single_price_update]; contradiction).
    destruct (process_single_price_update cfg (clock secid) (chain secid)
                secid (JDict d)) as [calls|e] eqn:Hp; [|contradiction].
    intros Hin. apply in_app_or in Hin. destruct Hin as [Hin|Hin].
    + exists secid, d, calls. split; [now left|]. split; assumption.
    + destruct (IH Hin) as [secid' [data' [calls' [H1 [H2 H3]]]]].
      exists secid', data', calls'. split; [now right|]. split; assumption.
Qed.

Lemma process_single_needs_price cfg now onchain secid data calls c :
  process_single_price_update cfg now onchain secid (JDict data) = Ret calls ->
  In c calls ->
  exists current,
    onchain = Ret (Some current)
    /\ should_update_price cfg secid (tx_price_uint c) (Some current)
       = Ret true.
Proof.
  unfold process_single_price_update.
  destruct (get_field data "price_uint") as [price|];
    [|intros E; injection E as <-; contradiction].
  destruct (get_field data "signature") as [signature|];
    [|intros E; injection E as <-; contradiction].
  destruct (get_field data "deadline") as [deadline|];
    [|intros E; injection E as <-; contradiction].
  destruct (get_field data "nonce") as [nonce|];
    [|intros E; injection E as <-; contradiction].
  unfold try_update.
  destruct onchain as [current|e]; cbn [bind];
    [|intros E; injection E as <-; contradiction].
  destruct (should_update_price cfg secid price current) as [[|]|e] eqn:Hs;
    cbn [bind]; try (intros E; injection E as <-; contradiction).
  destruct current as [current|]; [|discriminate].
  destruct (prepare_signature signature secid) as [sb|e]; cbn [bind];
    [|intros E; injection E as <-; contradiction].
  destruct (py_int now) as [t|e]; cbn [bind];
    [|intros E; injection E as <-; contradiction].
  destruct (deadline_passed deadline t) as [[|]|e]; cbn [bind];
    try (intros E; injection E as <-; contradiction).
  intros E. injection E as <-. intros [<-|[]].
  exists current. split; [reflexivity|exact Hs].
Qed.

Lemma get_onchain_price_some lookup getPriceFeed secid current :
  get_onchain_price lookup getPriceFeed secid = Ret (Some current) ->
  exists a addr feed,
    lookup secid = Ret a /\ a <> zero_address
    /\ signature_utils.to_checksum_address a = Ret addr
    /\ getPriceFeed addr = Ret feed
    /\ current = fst (fst feed).
Proof.
  unfold get_onchain_price.
  destruct (lookup secid) as [a|e] eqn:Hl; cbn [bind]; [|discriminate].
  destruct (String.eqb a zero_address) eqn:Hz; [discriminate|].
  destruct (signature_utils.to_checksum_address a) as [addr|e] eqn:Ha;
    cbn [bind]; [|discriminate].
  destruct (getPriceFeed addr) as [feed|e] eqn:Hf; cbn [bind];
    [|discriminate].
  intros E. injection E as <-. exists a, addr, feed.
  split; [reflexivity|]. split; [now apply String.eqb_neq|].
  split; [exact Ha|]. split; [exact Hf|reflexivity].
Qed.

(** X18. The Publisher's discovery is all or nothing. Over the
    candidates of the bond listing, [get_all_registered_secids] returns
    what the Provider's own scan returns, the candidates with an
    address other than zero, when every [secidToBond] call returns; one
    call that raises makes it return the empty list, whatever the other
    candidates are, where the Provider's scan skips that candidate. *)
Theorem discovery_all_or_nothing (bonds_data : json)
    (candidates : list string) (lookup : string -> py string) :
  candidate_secids bonds_data = Ret candidates ->
  ((forall s, In s candidates -> exists a, lookup s = Ret a) ->
   get_all_registered_secids (Ret bonds_data) lookup
   = app.registered_among lookup candidates)
  /\ (forall s e, In s candidates -> lookup s = Raise e ->
        get_all_registered_secids (Ret bonds_data) lookup = []).
Proof.
  intros Hc. unfold get_all_registered_secids. cbn [bind]. rewrite Hc.
  cbn [bind]. split.
  - intros Hall. now rewrite registered_of_agrees.
  - intros s e Hin Hraise.
    destruct (registered_of_raises lookup candidates s e Hin Hraise)
      as [e' ->].
    reflexivity.
Qed.

(** X19. The Publisher reads the candidates off the Provider's listing.
    The answer of [GET /api/bonds] without [?onchain] lists every row of
    the exchange and leaves the registry cache alone, and the candidates
    [get_all_registered_secids] takes from that answer are the
    instruments of the rows, in their order. *)
Theorem candidates_of_provider_listing (cfg : provider_config.Config)
    (t : Z) (now : float) (chain : app.node)
    (rows : list (string * string))
    (ofz_list_scan : py (list (string * string)))
    (c : app.registered_bonds_cache) (timestamp : Z) :
  py_int now = Ret timestamp ->
  let answer := app.get_all_bonds cfg false t now chain (Ret rows)
                  ofz_list_scan c in
  fst answer
  = app.jsonify (JDict [("timestamp", JInt timestamp);
                        ("count", JInt (Z.of_nat (List.length rows)));
                        ("bonds", JList (map app.bond_entry rows));
                        ("filtered_by_onchain", JBool false)])
  /\ snd answer = c
  /\ candidate_secids (app.body (fst answer)) = Ret (map fst rows).
Proof.
  intros Hnow answer.
  assert (Ha : answer
               = (app.jsonify
                    (JDict [("timestamp", JInt timestamp);
                            ("count", JInt (Z.of_nat (List.length rows)));
                            ("bonds", JList (map app.bond_entry rows));
                            ("filtered_by_onchain", JBool false)]), c)).
  { subst answer. unfold app.get_all_bonds.
    rewrite Registry.filter_unfiltered, Hnow. reflexivity. }
  rewrite Ha. cbn [fst snd app.jsonify app.status app.body].
  split; [reflexivity|]. split; [reflexivity|].
  cbn. apply bond_secids_entries.
Qed.

Lemma fetch_offchain_prices_In bonds_response lookup provider prices secid v :
  fetch_offchain_prices bonds_response lookup provider = Ret prices ->
  In (secid, v) prices ->
  In secid (get_all_registered_secids bonds_response lookup)
  /\ exists data info,
       provider secid = Ret (JDict data)
       /\ dict_get data "price" = Some (JDict info)
       /\ v = JDict info /\ info <> [].
Proof.
  unfold fetch_offchain_prices.
  destruct (get_all_registered_secids bonds_response lookup)
    as [|s0 regs] eqn:Hregs.
  - intros E. injection E as <-. contradiction.
  - intros E Hin.
    destruct (fetch_prices_In provider (s0 :: regs) [] prices secid v E Hin)
      as [[]|H].
    exact H.
Qed.

(** X20. What [fetch_offchain_prices] returns. Every entry of the
    returned dictionary is for an instrument that discovery found
    registered, and its value is the non-empty object under ["price"]
    of the Provider's answer for that instrument. *)
Theorem fetched_prices_are_provider_answers (bonds_response : py json)
    (lookup : string -> py string) (provider : string -> py json)
    (prices : dict) (secid : string) (v : json) :
  fetch_offchain_prices bonds_response lookup provider = Ret prices ->
  In (secid, v) prices ->
  In secid (get_all_registered_secids bonds_response lookup)
  /\ exists data info,
       provider secid = Ret (JDict data)
       /\ dict_get data "price" = Some (JDict info)
       /\ v = JDict info /\ info <> [].
Proof.
  intros E Hin. split.
  - exact (proj1 (fetch_offchain_prices_In _ _ _ _ _ _ E Hin)).
  - exact (proj2 (fetch_offchain_prices_In _ _ _ _ _ _ E Hin)).
Qed.

(** X21. What a whole update cycle can send. Every call that
    [run_update_cycle] hands to the transaction service is for an
    instrument that had an address other than zero at discovery and has
    one when its price is read; the price feed of that address was
    read, and the deviation gate passed on its price; the Provider
    answered for the instrument with an object under ["price"], and the
    call carries the price, nonce, deadline and decoded signature of
    that object, with a deadline after the clock of the check. *)
Theorem cycle_sends_registered_attested (cfg : Config)
    (clock : string -> float) (bonds_response : py json)
    (discovered lookup : string -> py string)
    (getPriceFeed : bytes -> py (Z * Z * Z)) (provider : string -> py json)
    (c : update_call) :
  In c (update_cycle cfg clock bonds_response discovered lookup getPriceFeed
          provider) ->
  exists a0 a addr feed data info,
    discovered (tx_secid c) = Ret a0 /\ a0 <> zero_address
    /\ lookup (tx_secid c) = Ret a /\ a <> zero_address
    /\ signature_utils.to_checksum_address a = Ret addr
    /\ getPriceFeed addr = Ret feed
    /\ should_update_price cfg (tx_secid c) (tx_price_uint c)
         (Some (fst (fst feed))) = Ret true
    /\ provider (tx_secid c) = Ret (JDict data)
    /\ dict_get data "price" = Some (JDict info)
    /\ sent_as_signed (clock (tx_secid c)) (tx_secid c) info c.
Proof.
  unfold update_cycle, run_update_cycle.
  destruct (fetch_offchain_prices bonds_response discovered provider)
    as [items|e] eqn:Hfetch; [|contradiction].
  intros Hin.
  destruct (update_all_In _ _ _ _ _ Hin)
    as [secid [info [calls [Hitem [Hproc Hc]]]]].
  destruct (PublishCycle.process_single_sent _ _ _ _ _ _ _ Hproc Hc)
    as [_ Hsent].
  assert (Hsecid : tx_secid c = secid).
  { destruct Hsent as [t [sig [_ [H _]]]]. exact H. }
  destruct (process_single_needs_price _ _ _ _ _ _ _ Hproc Hc)
    as [current [Hcur Hgate]].
  destruct (get_onchain_price_some _ _ _ _ Hcur)
    as [a [addr [feed [Ha [Hane [Haddr [Hfeed ->]]]]]]].
  destruct (fetch_offchain_prices_In _ _ _ _ _ _ Hfetch Hitem)
    as [Hreg [data [info' [Hprov [Hprice [Hv _]]]]]].
  injection Hv as <-.
  destruct (registered_secid _ _ _ Hreg) as [a0 [Ha0 Ha0ne]].
  rewrite Hsecid.
  exists a0, a, addr, feed, data, info.
  repeat (split; [assumption|]). exact Hsent.
Qed.

(** A listing of two instruments; the node knows the first. *)
Lemma discovery_all_or_nothing_witness :
  let listing :=
    JDict [("bonds",
            JList [app.bond_entry ("SU26207RMFS9", "OFZ 26207");
                   app.bond_entry ("SU26238RMFS4", "OFZ 26238")])] in
  get_all_registered_secids (Ret listing)
    (fun secid => if String.eqb secid "SU26207RMFS9"
                  then Ret "0x00000000000000000000000000000000000000a1"
                  else Ret zero_address)
  = ["SU26207RMFS9"]
  /\ get_all_registered_secids (Ret listing)
       (fun secid => if String.eqb secid "SU26207RMFS9"
                     then Ret "0x00000000000000000000000000000000000000a1"
                     else Raise IOError)
     = [].
Proof.
  intros listing. split.
  - rewrite (proj1 (discovery_all_or_nothing listing
                      ["SU26207RMFS9"; "SU26238RMFS4"]
                      (fun secid =>
                         if String.eqb secid "SU26207RMFS9"
                         then Ret "0x00000000000000000000000000000000000000a1"
                         else Ret zero_address)
                      eq_refl)).
    + reflexivity.
    + intros s [<-|[<-|[]]]; eexists; reflexivity.
  - apply (proj2 (discovery_all_or_nothing listing
                    ["SU26207RMFS9"; "SU26238RMFS4"]
                    (fun secid =>
                       if String.eqb secid "SU26207RMFS9"
                       then Ret "0x00000000000000000000000000000000000000a1"
                       else Raise IOError)
                    eq_refl) "SU26238RMFS4" IOError).
    + right. left. reflexivity.
    + reflexivity.
Defined.

Lemma candidates_of_provider_listing_witness :
  candidate_secids
    (app.body
       (fst (app.get_all_bonds example_config false 1747000000
               1747000000.5%float
               {| app.is_connected := false;
                  app.chain_id := Raise IOError;
                  app.secidToBond := fun _ => Raise IOError |}
               (Ret [("SU26207RMFS9", "OFZ 26207");
                     ("SU26238RMFS4", "OFZ 26238")])
               (Raise IOError) app.empty_bonds_cache)))
  = Ret ["SU26207RMFS9"; "SU26238RMFS4"].
Proof.
  apply (candidates_of_provider_listing example_config 1747000000
           1747000000.5%float
           {| app.is_connected := false;
              app.chain_id := Raise IOError;
              app.secidToBond := fun _ => Raise IOError |}
           [("SU26207RMFS9", "OFZ 26207"); ("SU26238RMFS4", "OFZ 26238")]
           (Raise IOError) app.empty_bonds_cache 1747000000).
  vm_compute. reflexivity.
Defined.

(** One registered instrument, for which the Provider answers with an
    attestation. *)
Lemma fetched_prices_are_provider_answers_witness :
  In "SU26207RMFS9"
     (get_all_registered_secids
        (Ret (JDict [("bonds",
                      JList [app.bond_entry ("SU26207RMFS9", "OFZ 26207")])]))
        (fun _ => Ret "0x00000000000000000000000000000000000000a1"))
  /\ exists data info,
       Ret (JDict [("timestamp", JInt 1747000000);
                   ("price", JDict (attestation 1747000300))])
       = Ret (JDict data)
       /\ dict_get data "price" = Some (JDict info)
       /\ JDict (attestation 1747000300) = JDict info /\ info <> [].
Proof.
  apply (fetched_prices_are_provider_answers
           (Ret (JDict [("bonds",
                         JList [app.bond_entry ("SU26207RMFS9", "OFZ 26207")])]))
           (fun _ => Ret "0x00000000000000000000000000000000000000a1")
           (fun _ => Ret (JDict [("timestamp", JInt 1747000000);
                                 ("price", JDict (attestation 1747000300))]))
           [("SU26207RMFS9", JDict (attestation 1747000300))]
           "SU26207RMFS9" (JDict (attestation 1747000300))).
  - vm_compute. reflexivity.
  - left. reflexivity.
Defined.

(** A cycle over one registered instrument whose price on chain is off
    by more than one percent. *)
Lemma cycle_sends_registered_attested_witness :
  let c := {| tx_secid := "SU26207RMFS9";
              tx_price_uint := JInt 9712500000;
              tx_deadline := JInt 1747000300;
              tx_nonce := JInt 7;
              tx_signature_bytes := [Byte.x00; Byte.xff; Byte.x10] |} in
  let address := "0x00000000000000000000000000000000000000a1" in
  update_cycle one_percent (fun _ => 1747000000.25%float)
    (Ret (JDict [("bonds",
                  JList [app.bond_entry ("SU26207RMFS9", "OFZ 26207")])]))
    (fun _ => Ret address) (fun _ => Ret address)
    (fun _ => Ret (9000000000, 1746990000, 1900000000))
    (fun _ => Ret (JDict [("timestamp", JInt 1747000000);
                          ("price", JDict (attestation 1747000300))]))
  = [c]
  /\ exists a0 a addr feed data info,
       Ret address = Ret a0 /\ a0 <> zero_address
       /\ Ret address = Ret a /\ a <> zero_address
       /\ signature_utils.to_checksum_address a = Ret addr
       /\ Ret (9000000000, 1746990000, 1900000000) = Ret feed
       /\ should_update_price one_percent (tx_secid c) (tx_price_uint c)
            (Some (fst (fst feed))) = Ret true
       /\ Ret (JDict [("timestamp", JInt 1747000000);
                      ("price", JDict (attestation 1747000300))])
          = Ret (JDict data)
       /\ dict_get data "price" = Some (JDict info)
       /\ sent_as_signed 1747000000.25%float (tx_secid c) info c.
Proof.
  intros c address. split; [vm_compute; reflexivity|].
  apply (cycle_sends_registered_attested one_percent
           (fun _ => 1747000000.25%float)
           (Ret (JDict [("bonds",
                         JList [app.bond_entry ("SU26207RMFS9", "OFZ 26207")])]))
           (fun _ => Ret address) (fun _ => Ret address)
           (fun _ => Ret (9000000000, 1746990000, 1900000000))
           (fun _ => Ret (JDict [("timestamp", JInt 1747000000);
                                 ("price", JDict (attestation 1747000300))]))
           c).
  vm_compute. left. reflexivity.
Defined.

End Discovery.

(* ================================================================== *)
(** * Market snapshots the resolver cannot read *)

Module Snapshot.
Import get_ofz_prices Spec.

Lemma price_data_of_raises cols data fields :
  (exists f, In f fields /\ cell cols data f = Raise IndexError) ->
  price_data_of cols data fields = Raise IndexError.
Proof.
  induction fields as [|g fs IH]; intros [f [Hin Hf]]; [contradiction|].
  cbn [price_data_of].
  destruct (cell cols data g) as [v|e] eqn:Hg; cbn [bind].
  - destruct Hin as [->|Hin]; [congruence|].
    rewrite IH by eauto. reflexivity.
  - unfold cell in Hg. destruct (index_of cols g); [|discriminate].
    unfold list_index in Hg. destruct (nth_error data n); [discriminate|].
    injection Hg as <-. reflexivity.
Qed.

(** X22. A market snapshot the resolver cannot read. [get_price] raises
    [IndexError] when the snapshot has no row, and when one of the six
    price fields is among the columns at a position the first row does
    not reach, even if another field of that row has a price and
    whatever the candles are. *)
Theorem unreadable_snapshot_raises (fd : feed) :
  (md_data (fd_marketdata fd) = [] -> get_price fd = Raise IndexError)
  /\ (forall row rows f i,
        md_data (fd_marketdata fd) = row :: rows ->
        In f price_fields ->
        index_of (md_columns (fd_marketdata fd)) f = Some i ->
        (List.length row <= i)%nat ->
        get_price fd = Raise IndexError).
Proof.
  split.
  - intros Hempty. unfold get_price, get_price_detailed, market_prices.
    rewrite Hempty. reflexivity.
  - intros row rows f i Hd Hin Hidx Hshort.
    unfold get_price, get_price_detailed, market_prices. rewrite Hd.
    unfold list_index at 1. cbn [nth_error bind].
    rewrite price_data_of_raises; [reflexivity|].
    exists f. split; [exact Hin|]. unfold cell, list_index. rewrite Hidx.
    apply nth_error_None in Hshort. rewrite Hshort. reflexivity.
Qed.

(** A row with a market price that stops before the [WAPRICE] column. *)
Lemma unreadable_snapshot_raises_witness :
  get_price {| fd_marketdata :=
                 {| md_columns := ["MARKETPRICE"; "LAST"; "WAPRICE"];
                    md_data := [[Some 97.125%float; None]] |};
               fd_candles := [("2025-05-12", 97%float)];
               fd_initialPrice := Some 1000%float |}
  = Raise IndexError.
Proof.
  apply (proj2 (unreadable_snapshot_raises _)
           [Some 97.125%float; None] [] "WAPRICE" 2%nat).
  - reflexivity.
  - right. right. right. left. reflexivity.
  - reflexivity.
  - cbn. lia.
Defined.

End Snapshot.
